(** * Honey vending machine driver (xdrv_99): a shallow embedding

    The driver keeps one global [vending] struct, a few file-level statics
    and talks to the host firmware (clock, MQTT, settings store, response
    buffer) and to the peripherals (74HC595 chain, DRV8825, LCD 1602,
    MCP23017).  Every C function becomes a function on [machine], the record
    that holds all of this.  Integers are [Z] with the wrap-around of their C
    type written out; C strings are [string]; the fixed arrays are lists.

    [AddLog] only writes the device log and is left out everywhere.  The
    pin-mode setup, the bytes on the I2C bus and the web page are not part
    of the model; of the console commands, those that only report (Status,
    BoxStatus, Display, Debug, RawSettings, Publish, Discovery) are left
    out.  The host's clock, its connection flag, the device name and the
    command mailbox are inputs that stay fixed during one call; the host's
    calendar function [BreakTime] is a parameter of the driver. *)

From Stdlib Require Import ZArith List Bool String Ascii Lia.
Import ListNotations.
Open Scope string_scope.
Open Scope Z_scope.

(** ** Integer types *)

Definition u8 (x : Z) : Z := x mod 256.
Definition u16 (x : Z) : Z := x mod 65536.
Definition u32 (x : Z) : Z := x mod 4294967296.
(** Conversion to [int16_t] (two's complement, as gcc does it). *)
Definition i16 (x : Z) : Z := (x + 32768) mod 65536 - 32768.

(** ** C strings and printf conversions *)

Definition NUL : ascii := "000"%char.
Definition SPACE : ascii := " "%char.
Definition is_nul (c : ascii) : bool := Ascii.eqb c NUL.

(** The double quote, for the JSON texts. *)
Definition dq : string := String "034"%char EmptyString.
Definition quoted (s : string) : string := dq ++ s ++ dq.

(** The three UTF-8 bytes of the euro sign. *)
Definition EURO : string :=
  String "226"%char (String "130"%char (String "172"%char EmptyString)).

Definition strlen (s : string) : Z := Z.of_nat (String.length s).

(** [snprintf(buf, size, ...)] keeps at most [size - 1] bytes of the text. *)
Definition snprintf (size : nat) (text : string) : string :=
  substring 0 (size - 1) text.

Definition digit_char (d : Z) : ascii := ascii_of_nat (Z.to_nat (48 + d)).
Definition hex_char (d : Z) : ascii :=
  if d <? 10 then digit_char d else ascii_of_nat (Z.to_nat (55 + d)).

(** Digits of a non-negative number in a base, most significant first. *)
Fixpoint digits (fuel : nat) (base : Z) (ch : Z -> ascii) (n : Z) (acc : string) : string :=
  match fuel with
  | O => acc
  | S fuel' =>
      let acc' := String (ch (n mod base)) acc in
      if n / base =? 0 then acc' else digits fuel' base ch (n / base) acc'
  end.

Fixpoint zeros (n : nat) : string :=
  match n with O => EmptyString | S n' => String "0"%char (zeros n') end.

Definition zero_pad (width : nat) (s : string) : string :=
  zeros (width - String.length s) ++ s.

(** [%lu] and [%u] of a 32-bit unsigned value. *)
Definition fmt_lu (n : Z) : string := digits 10 10 digit_char (u32 n) EmptyString.
(** [%d] of an [int]. *)
Definition fmt_d (n : Z) : string :=
  if n <? 0 then "-" ++ digits 10 10 digit_char (- n) EmptyString
  else digits 10 10 digit_char n EmptyString.
(** [%02lu] *)
Definition fmt_02lu (n : Z) : string := zero_pad 2 (fmt_lu n).
(** [%02d] and [%04d] of a non-negative [int]. *)
Definition fmt_02d (n : Z) : string := zero_pad 2 (fmt_d n).
Definition fmt_04d (n : Z) : string := zero_pad 4 (fmt_d n).
(** [%04X] and [%08lX] *)
Definition fmt_04X (n : Z) : string := zero_pad 4 (digits 8 16 hex_char (u32 n) EmptyString).
Definition fmt_08lX (n : Z) : string := zero_pad 8 (digits 8 16 hex_char (u32 n) EmptyString).

(** [atoi]: optional white space, optional sign, then decimal digits. *)
Definition is_space (c : ascii) : bool :=
  let n := nat_of_ascii c in ((9 <=? n)%nat && (n <=? 13)%nat) || (n =? 32)%nat.
Definition is_digit (c : ascii) : bool :=
  let n := nat_of_ascii c in (48 <=? n)%nat && (n <=? 57)%nat.

Fixpoint atoi_digits (s : string) (acc : Z) : Z :=
  match s with
  | String c rest =>
      if is_digit c then atoi_digits rest (10 * acc + (Z.of_nat (nat_of_ascii c) - 48))
      else acc
  | EmptyString => acc
  end.

Fixpoint skip_spaces (s : string) : string :=
  match s with
  | String c rest => if is_space c then skip_spaces rest else s
  | EmptyString => s
  end.

Definition atoi (s : string) : Z :=
  match skip_spaces s with
  | String "-"%char rest => - atoi_digits rest 0
  | String "+"%char rest => atoi_digits rest 0
  | rest => atoi_digits rest 0
  end.

(** Array access and in-place update; the driver guards every index. *)
Definition aget {A} (d : A) (l : list A) (i : Z) : A := nth (Z.to_nat i) l d.

Fixpoint aset_nat {A} (l : list A) (i : nat) (x : A) : list A :=
  match l, i with
  | [], _ => []
  | _ :: t, O => x :: t
  | h :: t, S i' => h :: aset_nat t i' x
  end.

Definition aset {A} (l : list A) (i : Z) (x : A) : list A :=
  if i <? 0 then l else aset_nat l (Z.to_nat i) x.

(** [from, from+1, ..., to] as the counted [for] loops walk it. *)
Definition zrange (from to : Z) : list Z :=
  map (fun k => from + Z.of_nat k) (seq 0 (Z.to_nat (to + 1 - from))).

(** ** Constants of the driver *)

Definition SHIFT_REG_DATA_PIN : Z := 23.
Definition SHIFT_REG_CLOCK_PIN : Z := 18.
Definition SHIFT_REG_LATCH_PIN : Z := 4.
Definition NUM_SHIFT_REGISTERS : Z := 4.
Definition UNLOCK_DURATION_MS : Z := 60000.
Definition SOLENOID_ACTIVE_HIGH : bool := true.
Definition COIN_TIMEOUT_MS : Z := 200.
Definition DEFAULT_PRICE_CENTS : Z := 500.
Definition PULSE_DEBOUNCE_MS : Z := 5.
Definition MAX_HONEY_BOX_COUNT : Z := 30.
Definition DEFAULT_HONEY_BOX_COUNT : Z := 15.
Definition HONEY_SETTINGS_INDEX : Z := 20.
Definition HONEY_TIMESTAMP_INDEX : Z := 21.
Definition HONEY_BOX_COUNT_INDEX : Z := 22.
Definition HONEY_PRICE_INDEX : Z := 23.
Definition HONEY_PUBLISH_INTERVAL : Z := 300000.

Definition MOTOR_STEP_PIN : Z := 25.
Definition MOTOR_DIR_PIN : Z := 26.
Definition MOTOR_ENABLE_PIN : Z := 27.
Definition MOTOR_STEPS_PER_REV : Z := 200.
Definition MOTOR_STEP_DELAY_US : Z := 2000.
Definition MOTOR_45DEG_STEPS : Z := (MOTOR_STEPS_PER_REV * 45) / 360.

Definition LCD_COLS : Z := 16.
Definition LCD_ROWS : Z := 2.
Definition MCP23017_GPIOA : Z := 18.
Definition MCP23017_GPIOB : Z := 19.

Definition HIGH : bool := true.
Definition LOW : bool := false.

Inductive MotorAction_t : Type :=
  | COIN_ACCEPT
  | COIN_REJECT
  | MOTOR_RESET.

(** ** The state *)

(** The global [vending] struct, field by field. *)
Record vending_t : Type := {
  pulse_count : Z;
  last_pulse_ms : Z;
  first_pulse_ms : Z;
  total_cents : Z;
  last_coin_cents : Z;
  coins_detected : Z;
  honey_available : bool;
  initialized : bool;
  box_count : Z;
  selected_box_id : Z;
  box_status : list bool;
  box_price : list Z;
  box_last_changed : list Z;
  last_publish_ms : Z;
  discovery_sent : bool;
  device_id : Z;
  shift_reg_state : list Z;
  unlock_start_ms : Z;
  unlocked_box_id : Z;
  lcd_initialized : bool;
  mcp_initialized : bool;
  last_button_state : Z
}.

(** What the host hands to a command handler. *)
Record mailbox_t : Type := {
  command : string;
  data : string;
  data_len : Z
}.

(** One call of the host's [MqttPublish(topic, retained)]; the payload is the
    response buffer at the time of the call. *)
Record mqtt_message : Type := {
  topic : string;
  payload : string;
  retained : bool
}.

(** What the driver does to its output pins, in order. *)
Inductive gpio_event : Type :=
  | digitalWrite (pin : Z) (level : bool)
  | delayMicroseconds (us : Z).

(** The visible 2 x 16 characters of the display and its cursor. *)
Record lcd_t : Type := {
  cursor_col : Z;
  cursor_row : Z;
  lcd_rows : list (list ascii)
}.

(** The calendar fields [BreakTime] fills in. *)
Record TIME_T : Type := {
  year : Z;
  month : Z;
  day_of_month : Z;
  hour : Z;
  minute : Z;
  second : Z
}.

(** Everything a driver function can read or change: the [vending] struct,
    the statics [motor_position_offset] and [last_check], and the host and
    peripherals.  [millis], [utc_time], [MqttIsConnected],
    [device_name_setting], [XdrvMailbox] and [mcp_port] are inputs the
    host or the hardware supplies; they do not change during one call. *)
Record machine : Type := {
  vending : vending_t;
  motor_position_offset : Z;
  last_check : Z;
  millis : Z;
  utc_time : Z;
  MqttIsConnected : bool;
  device_name_setting : string;
  XdrvMailbox : mailbox_t;
  ResponseData : string;
  mqtt_published : list mqtt_message;
  settings_text : Z -> string;
  settings_flash : Z -> string;
  gpio : list gpio_event;
  lcd : lcd_t;
  mcp_port : Z -> option Z
}.

(** Field updates. *)

Definition set_pulse_count (x : Z) (r : vending_t) : vending_t :=
  {| pulse_count := x; last_pulse_ms := last_pulse_ms r; first_pulse_ms := first_pulse_ms r;
     total_cents := total_cents r; last_coin_cents := last_coin_cents r; coins_detected :=
     coins_detected r; honey_available := honey_available r; initialized := initialized r;
     box_count := box_count r; selected_box_id := selected_box_id r; box_status := box_status r;
     box_price := box_price r; box_last_changed := box_last_changed r; last_publish_ms :=
     last_publish_ms r; discovery_sent := discovery_sent r; device_id := device_id r;
     shift_reg_state := shift_reg_state r; unlock_start_ms := unlock_start_ms r; unlocked_box_id
     := unlocked_box_id r; lcd_initialized := lcd_initialized r; mcp_initialized :=
     mcp_initialized r; last_button_state := last_button_state r |}.

Definition set_last_pulse_ms (x : Z) (r : vending_t) : vending_t :=
  {| pulse_count := pulse_count r; last_pulse_ms := x; first_pulse_ms := first_pulse_ms r;
     total_cents := total_cents r; last_coin_cents := last_coin_cents r; coins_detected :=
     coins_detected r; honey_available := honey_available r; initialized := initialized r;
     box_count := box_count r; selected_box_id := selected_box_id r; box_status := box_status r;
     box_price := box_price r; box_last_changed := box_last_changed r; last_publish_ms :=
     last_publish_ms r; discovery_sent := discovery_sent r; device_id := device_id r;
     shift_reg_state := shift_reg_state r; unlock_start_ms := unlock_start_ms r; unlocked_box_id
     := unlocked_box_id r; lcd_initialized := lcd_initialized r; mcp_initialized :=
     mcp_initialized r; last_button_state := last_button_state r |}.

Definition set_first_pulse_ms (x : Z) (r : vending_t) : vending_t :=
  {| pulse_count := pulse_count r; last_pulse_ms := last_pulse_ms r; first_pulse_ms := x;
     total_cents := total_cents r; last_coin_cents := last_coin_cents r; coins_detected :=
     coins_detected r; honey_available := honey_available r; initialized := initialized r;
     box_count := box_count r; selected_box_id := selected_box_id r; box_status := box_status r;
     box_price := box_price r; box_last_changed := box_last_changed r; last_publish_ms :=
     last_publish_ms r; discovery_sent := discovery_sent r; device_id := device_id r;
     shift_reg_state := shift_reg_state r; unlock_start_ms := unlock_start_ms r; unlocked_box_id
     := unlocked_box_id r; lcd_initialized := lcd_initialized r; mcp_initialized :=
     mcp_initialized r; last_button_state := last_button_state r |}.

Definition set_total_cents (x : Z) (r : vending_t) : vending_t :=
  {| pulse_count := pulse_count r; last_pulse_ms := last_pulse_ms r; first_pulse_ms :=
     first_pulse_ms r; total_cents := x; last_coin_cents := last_coin_cents r; coins_detected :=
     coins_detected r; honey_available := honey_available r; initialized := initialized r;
     box_count := box_count r; selected_box_id := selected_box_id r; box_status := box_status r;
     box_price := box_price r; box_last_changed := box_last_changed r; last_publish_ms :=
     last_publish_ms r; discovery_sent := discovery_sent r; device_id := device_id r;
     shift_reg_state := shift_reg_state r; unlock_start_ms := unlock_start_ms r; unlocked_box_id
     := unlocked_box_id r; lcd_initialized := lcd_initialized r; mcp_initialized :=
     mcp_initialized r; last_button_state := last_button_state r |}.

Definition set_last_coin_cents (x : Z) (r : vending_t) : vending_t :=
  {| pulse_count := pulse_count r; last_pulse_ms := last_pulse_ms r; first_pulse_ms :=
     first_pulse_ms r; total_cents := total_cents r; last_coin_cents := x; coins_detected :=
     coins_detected r; honey_available := honey_available r; initialized := initialized r;
     box_count := box_count r; selected_box_id := selected_box_id r; box_status := box_status r;
     box_price := box_price r; box_last_changed := box_last_changed r; last_publish_ms :=
     last_publish_ms r; discovery_sent := discovery_sent r; device_id := device_id r;
     shift_reg_state := shift_reg_state r; unlock_start_ms := unlock_start_ms r; unlocked_box_id
     := unlocked_box_id r; lcd_initialized := lcd_initialized r; mcp_initialized :=
     mcp_initialized r; last_button_state := last_button_state r |}.

Definition set_coins_detected (x : Z) (r : vending_t) : vending_t :=
  {| pulse_count := pulse_count r; last_pulse_ms := last_pulse_ms r; first_pulse_ms :=
     first_pulse_ms r; total_cents := total_cents r; last_coin_cents := last_coin_cents r;
     coins_detected := x; honey_available := honey_available r; initialized := initialized r;
     box_count := box_count r; selected_box_id := selected_box_id r; box_status := box_status r;
     box_price := box_price r; box_last_changed := box_last_changed r; last_publish_ms :=
     last_publish_ms r; discovery_sent := discovery_sent r; device_id := device_id r;
     shift_reg_state := shift_reg_state r; unlock_start_ms := unlock_start_ms r; unlocked_box_id
     := unlocked_box_id r; lcd_initialized := lcd_initialized r; mcp_initialized :=
     mcp_initialized r; last_button_state := last_button_state r |}.

Definition set_honey_available (x : bool) (r : vending_t) : vending_t :=
  {| pulse_count := pulse_count r; last_pulse_ms := last_pulse_ms r; first_pulse_ms :=
     first_pulse_ms r; total_cents := total_cents r; last_coin_cents := last_coin_cents r;
     coins_detected := coins_detected r; honey_available := x; initialized := initialized r;
     box_count := box_count r; selected_box_id := selected_box_id r; box_status := box_status r;
     box_price := box_price r; box_last_changed := box_last_changed r; last_publish_ms :=
     last_publish_ms r; discovery_sent := discovery_sent r; device_id := device_id r;
     shift_reg_state := shift_reg_state r; unlock_start_ms := unlock_start_ms r; unlocked_box_id
     := unlocked_box_id r; lcd_initialized := lcd_initialized r; mcp_initialized :=
     mcp_initialized r; last_button_state := last_button_state r |}.

Definition set_initialized (x : bool) (r : vending_t) : vending_t :=
  {| pulse_count := pulse_count r; last_pulse_ms := last_pulse_ms r; first_pulse_ms :=
     first_pulse_ms r; total_cents := total_cents r; last_coin_cents := last_coin_cents r;
     coins_detected := coins_detected r; honey_available := honey_available r; initialized := x;
     box_count := box_count r; selected_box_id := selected_box_id r; box_status := box_status r;
     box_price := box_price r; box_last_changed := box_last_changed r; last_publish_ms :=
     last_publish_ms r; discovery_sent := discovery_sent r; device_id := device_id r;
     shift_reg_state := shift_reg_state r; unlock_start_ms := unlock_start_ms r; unlocked_box_id
     := unlocked_box_id r; lcd_initialized := lcd_initialized r; mcp_initialized :=
     mcp_initialized r; last_button_state := last_button_state r |}.

Definition set_box_count (x : Z) (r : vending_t) : vending_t :=
  {| pulse_count := pulse_count r; last_pulse_ms := last_pulse_ms r; first_pulse_ms :=
     first_pulse_ms r; total_cents := total_cents r; last_coin_cents := last_coin_cents r;
     coins_detected := coins_detected r; honey_available := honey_available r; initialized :=
     initialized r; box_count := x; selected_box_id := selected_box_id r; box_status :=
     box_status r; box_price := box_price r; box_last_changed := box_last_changed r;
     last_publish_ms := last_publish_ms r; discovery_sent := discovery_sent r; device_id :=
     device_id r; shift_reg_state := shift_reg_state r; unlock_start_ms := unlock_start_ms r;
     unlocked_box_id := unlocked_box_id r; lcd_initialized := lcd_initialized r; mcp_initialized
     := mcp_initialized r; last_button_state := last_button_state r |}.

Definition set_selected_box_id (x : Z) (r : vending_t) : vending_t :=
  {| pulse_count := pulse_count r; last_pulse_ms := last_pulse_ms r; first_pulse_ms :=
     first_pulse_ms r; total_cents := total_cents r; last_coin_cents := last_coin_cents r;
     coins_detected := coins_detected r; honey_available := honey_available r; initialized :=
     initialized r; box_count := box_count r; selected_box_id := x; box_status := box_status r;
     box_price := box_price r; box_last_changed := box_last_changed r; last_publish_ms :=
     last_publish_ms r; discovery_sent := discovery_sent r; device_id := device_id r;
     shift_reg_state := shift_reg_state r; unlock_start_ms := unlock_start_ms r; unlocked_box_id
     := unlocked_box_id r; lcd_initialized := lcd_initialized r; mcp_initialized :=
     mcp_initialized r; last_button_state := last_button_state r |}.

Definition set_box_status (x : list bool) (r : vending_t) : vending_t :=
  {| pulse_count := pulse_count r; last_pulse_ms := last_pulse_ms r; first_pulse_ms :=
     first_pulse_ms r; total_cents := total_cents r; last_coin_cents := last_coin_cents r;
     coins_detected := coins_detected r; honey_available := honey_available r; initialized :=
     initialized r; box_count := box_count r; selected_box_id := selected_box_id r; box_status
     := x; box_price := box_price r; box_last_changed := box_last_changed r; last_publish_ms :=
     last_publish_ms r; discovery_sent := discovery_sent r; device_id := device_id r;
     shift_reg_state := shift_reg_state r; unlock_start_ms := unlock_start_ms r; unlocked_box_id
     := unlocked_box_id r; lcd_initialized := lcd_initialized r; mcp_initialized :=
     mcp_initialized r; last_button_state := last_button_state r |}.

Definition set_box_price (x : list Z) (r : vending_t) : vending_t :=
  {| pulse_count := pulse_count r; last_pulse_ms := last_pulse_ms r; first_pulse_ms :=
     first_pulse_ms r; total_cents := total_cents r; last_coin_cents := last_coin_cents r;
     coins_detected := coins_detected r; honey_available := honey_available r; initialized :=
     initialized r; box_count := box_count r; selected_box_id := selected_box_id r; box_status
     := box_status r; box_price := x; box_last_changed := box_last_changed r; last_publish_ms :=
     last_publish_ms r; discovery_sent := discovery_sent r; device_id := device_id r;
     shift_reg_state := shift_reg_state r; unlock_start_ms := unlock_start_ms r; unlocked_box_id
     := unlocked_box_id r; lcd_initialized := lcd_initialized r; mcp_initialized :=
     mcp_initialized r; last_button_state := last_button_state r |}.

Definition set_box_last_changed (x : list Z) (r : vending_t) : vending_t :=
  {| pulse_count := pulse_count r; last_pulse_ms := last_pulse_ms r; first_pulse_ms :=
     first_pulse_ms r; total_cents := total_cents r; last_coin_cents := last_coin_cents r;
     coins_detected := coins_detected r; honey_available := honey_available r; initialized :=
     initialized r; box_count := box_count r; selected_box_id := selected_box_id r; box_status
     := box_status r; box_price := box_price r; box_last_changed := x; last_publish_ms :=
     last_publish_ms r; discovery_sent := discovery_sent r; device_id := device_id r;
     shift_reg_state := shift_reg_state r; unlock_start_ms := unlock_start_ms r; unlocked_box_id
     := unlocked_box_id r; lcd_initialized := lcd_initialized r; mcp_initialized :=
     mcp_initialized r; last_button_state := last_button_state r |}.

Definition set_last_publish_ms (x : Z) (r : vending_t) : vending_t :=
  {| pulse_count := pulse_count r; last_pulse_ms := last_pulse_ms r; first_pulse_ms :=
     first_pulse_ms r; total_cents := total_cents r; last_coin_cents := last_coin_cents r;
     coins_detected := coins_detected r; honey_available := honey_available r; initialized :=
     initialized r; box_count := box_count r; selected_box_id := selected_box_id r; box_status
     := box_status r; box_price := box_price r; box_last_changed := box_last_changed r;
     last_publish_ms := x; discovery_sent := discovery_sent r; device_id := device_id r;
     shift_reg_state := shift_reg_state r; unlock_start_ms := unlock_start_ms r; unlocked_box_id
     := unlocked_box_id r; lcd_initialized := lcd_initialized r; mcp_initialized :=
     mcp_initialized r; last_button_state := last_button_state r |}.

Definition set_discovery_sent (x : bool) (r : vending_t) : vending_t :=
  {| pulse_count := pulse_count r; last_pulse_ms := last_pulse_ms r; first_pulse_ms :=
     first_pulse_ms r; total_cents := total_cents r; last_coin_cents := last_coin_cents r;
     coins_detected := coins_detected r; honey_available := honey_available r; initialized :=
     initialized r; box_count := box_count r; selected_box_id := selected_box_id r; box_status
     := box_status r; box_price := box_price r; box_last_changed := box_last_changed r;
     last_publish_ms := last_publish_ms r; discovery_sent := x; device_id := device_id r;
     shift_reg_state := shift_reg_state r; unlock_start_ms := unlock_start_ms r; unlocked_box_id
     := unlocked_box_id r; lcd_initialized := lcd_initialized r; mcp_initialized :=
     mcp_initialized r; last_button_state := last_button_state r |}.

Definition set_device_id (x : Z) (r : vending_t) : vending_t :=
  {| pulse_count := pulse_count r; last_pulse_ms := last_pulse_ms r; first_pulse_ms :=
     first_pulse_ms r; total_cents := total_cents r; last_coin_cents := last_coin_cents r;
     coins_detected := coins_detected r; honey_available := honey_available r; initialized :=
     initialized r; box_count := box_count r; selected_box_id := selected_box_id r; box_status
     := box_status r; box_price := box_price r; box_last_changed := box_last_changed r;
     last_publish_ms := last_publish_ms r; discovery_sent := discovery_sent r; device_id := x;
     shift_reg_state := shift_reg_state r; unlock_start_ms := unlock_start_ms r; unlocked_box_id
     := unlocked_box_id r; lcd_initialized := lcd_initialized r; mcp_initialized :=
     mcp_initialized r; last_button_state := last_button_state r |}.

Definition set_shift_reg_state (x : list Z) (r : vending_t) : vending_t :=
  {| pulse_count := pulse_count r; last_pulse_ms := last_pulse_ms r; first_pulse_ms :=
     first_pulse_ms r; total_cents := total_cents r; last_coin_cents := last_coin_cents r;
     coins_detected := coins_detected r; honey_available := honey_available r; initialized :=
     initialized r; box_count := box_count r; selected_box_id := selected_box_id r; box_status
     := box_status r; box_price := box_price r; box_last_changed := box_last_changed r;
     last_publish_ms := last_publish_ms r; discovery_sent := discovery_sent r; device_id :=
     device_id r; shift_reg_state := x; unlock_start_ms := unlock_start_ms r; unlocked_box_id :=
     unlocked_box_id r; lcd_initialized := lcd_initialized r; mcp_initialized := mcp_initialized
     r; last_button_state := last_button_state r |}.

Definition set_unlock_start_ms (x : Z) (r : vending_t) : vending_t :=
  {| pulse_count := pulse_count r; last_pulse_ms := last_pulse_ms r; first_pulse_ms :=
     first_pulse_ms r; total_cents := total_cents r; last_coin_cents := last_coin_cents r;
     coins_detected := coins_detected r; honey_available := honey_available r; initialized :=
     initialized r; box_count := box_count r; selected_box_id := selected_box_id r; box_status
     := box_status r; box_price := box_price r; box_last_changed := box_last_changed r;
     last_publish_ms := last_publish_ms r; discovery_sent := discovery_sent r; device_id :=
     device_id r; shift_reg_state := shift_reg_state r; unlock_start_ms := x; unlocked_box_id :=
     unlocked_box_id r; lcd_initialized := lcd_initialized r; mcp_initialized := mcp_initialized
     r; last_button_state := last_button_state r |}.

Definition set_unlocked_box_id (x : Z) (r : vending_t) : vending_t :=
  {| pulse_count := pulse_count r; last_pulse_ms := last_pulse_ms r; first_pulse_ms :=
     first_pulse_ms r; total_cents := total_cents r; last_coin_cents := last_coin_cents r;
     coins_detected := coins_detected r; honey_available := honey_available r; initialized :=
     initialized r; box_count := box_count r; selected_box_id := selected_box_id r; box_status
     := box_status r; box_price := box_price r; box_last_changed := box_last_changed r;
     last_publish_ms := last_publish_ms r; discovery_sent := discovery_sent r; device_id :=
     device_id r; shift_reg_state := shift_reg_state r; unlock_start_ms := unlock_start_ms r;
     unlocked_box_id := x; lcd_initialized := lcd_initialized r; mcp_initialized :=
     mcp_initialized r; last_button_state := last_button_state r |}.

Definition set_lcd_initialized (x : bool) (r : vending_t) : vending_t :=
  {| pulse_count := pulse_count r; last_pulse_ms := last_pulse_ms r; first_pulse_ms :=
     first_pulse_ms r; total_cents := total_cents r; last_coin_cents := last_coin_cents r;
     coins_detected := coins_detected r; honey_available := honey_available r; initialized :=
     initialized r; box_count := box_count r; selected_box_id := selected_box_id r; box_status
     := box_status r; box_price := box_price r; box_last_changed := box_last_changed r;
     last_publish_ms := last_publish_ms r; discovery_sent := discovery_sent r; device_id :=
     device_id r; shift_reg_state := shift_reg_state r; unlock_start_ms := unlock_start_ms r;
     unlocked_box_id := unlocked_box_id r; lcd_initialized := x; mcp_initialized :=
     mcp_initialized r; last_button_state := last_button_state r |}.

Definition set_mcp_initialized (x : bool) (r : vending_t) : vending_t :=
  {| pulse_count := pulse_count r; last_pulse_ms := last_pulse_ms r; first_pulse_ms :=
     first_pulse_ms r; total_cents := total_cents r; last_coin_cents := last_coin_cents r;
     coins_detected := coins_detected r; honey_available := honey_available r; initialized :=
     initialized r; box_count := box_count r; selected_box_id := selected_box_id r; box_status
     := box_status r; box_price := box_price r; box_last_changed := box_last_changed r;
     last_publish_ms := last_publish_ms r; discovery_sent := discovery_sent r; device_id :=
     device_id r; shift_reg_state := shift_reg_state r; unlock_start_ms := unlock_start_ms r;
     unlocked_box_id := unlocked_box_id r; lcd_initialized := lcd_initialized r; mcp_initialized
     := x; last_button_state := last_button_state r |}.

Definition set_last_button_state (x : Z) (r : vending_t) : vending_t :=
  {| pulse_count := pulse_count r; last_pulse_ms := last_pulse_ms r; first_pulse_ms :=
     first_pulse_ms r; total_cents := total_cents r; last_coin_cents := last_coin_cents r;
     coins_detected := coins_detected r; honey_available := honey_available r; initialized :=
     initialized r; box_count := box_count r; selected_box_id := selected_box_id r; box_status
     := box_status r; box_price := box_price r; box_last_changed := box_last_changed r;
     last_publish_ms := last_publish_ms r; discovery_sent := discovery_sent r; device_id :=
     device_id r; shift_reg_state := shift_reg_state r; unlock_start_ms := unlock_start_ms r;
     unlocked_box_id := unlocked_box_id r; lcd_initialized := lcd_initialized r; mcp_initialized
     := mcp_initialized r; last_button_state := x |}.

Definition with_vending (x : vending_t) (r : machine) : machine :=
  {| vending := x; motor_position_offset := motor_position_offset r; last_check := last_check r;
     millis := millis r; utc_time := utc_time r; MqttIsConnected := MqttIsConnected r;
     device_name_setting := device_name_setting r; XdrvMailbox := XdrvMailbox r; ResponseData :=
     ResponseData r; mqtt_published := mqtt_published r; settings_text := settings_text r;
     settings_flash := settings_flash r; gpio := gpio r; lcd := lcd r; mcp_port := mcp_port r
     |}.

Definition with_motor_position_offset (x : Z) (r : machine) : machine :=
  {| vending := vending r; motor_position_offset := x; last_check := last_check r; millis :=
     millis r; utc_time := utc_time r; MqttIsConnected := MqttIsConnected r; device_name_setting
     := device_name_setting r; XdrvMailbox := XdrvMailbox r; ResponseData := ResponseData r;
     mqtt_published := mqtt_published r; settings_text := settings_text r; settings_flash :=
     settings_flash r; gpio := gpio r; lcd := lcd r; mcp_port := mcp_port r |}.

Definition with_last_check (x : Z) (r : machine) : machine :=
  {| vending := vending r; motor_position_offset := motor_position_offset r; last_check := x;
     millis := millis r; utc_time := utc_time r; MqttIsConnected := MqttIsConnected r;
     device_name_setting := device_name_setting r; XdrvMailbox := XdrvMailbox r; ResponseData :=
     ResponseData r; mqtt_published := mqtt_published r; settings_text := settings_text r;
     settings_flash := settings_flash r; gpio := gpio r; lcd := lcd r; mcp_port := mcp_port r
     |}.

Definition with_millis (x : Z) (r : machine) : machine :=
  {| vending := vending r; motor_position_offset := motor_position_offset r; last_check :=
     last_check r; millis := x; utc_time := utc_time r; MqttIsConnected := MqttIsConnected r;
     device_name_setting := device_name_setting r; XdrvMailbox := XdrvMailbox r; ResponseData :=
     ResponseData r; mqtt_published := mqtt_published r; settings_text := settings_text r;
     settings_flash := settings_flash r; gpio := gpio r; lcd := lcd r; mcp_port := mcp_port r
     |}.

Definition with_utc_time (x : Z) (r : machine) : machine :=
  {| vending := vending r; motor_position_offset := motor_position_offset r; last_check :=
     last_check r; millis := millis r; utc_time := x; MqttIsConnected := MqttIsConnected r;
     device_name_setting := device_name_setting r; XdrvMailbox := XdrvMailbox r; ResponseData :=
     ResponseData r; mqtt_published := mqtt_published r; settings_text := settings_text r;
     settings_flash := settings_flash r; gpio := gpio r; lcd := lcd r; mcp_port := mcp_port r
     |}.

Definition with_MqttIsConnected (x : bool) (r : machine) : machine :=
  {| vending := vending r; motor_position_offset := motor_position_offset r; last_check :=
     last_check r; millis := millis r; utc_time := utc_time r; MqttIsConnected := x;
     device_name_setting := device_name_setting r; XdrvMailbox := XdrvMailbox r; ResponseData :=
     ResponseData r; mqtt_published := mqtt_published r; settings_text := settings_text r;
     settings_flash := settings_flash r; gpio := gpio r; lcd := lcd r; mcp_port := mcp_port r
     |}.

Definition with_device_name_setting (x : string) (r : machine) : machine :=
  {| vending := vending r; motor_position_offset := motor_position_offset r; last_check :=
     last_check r; millis := millis r; utc_time := utc_time r; MqttIsConnected :=
     MqttIsConnected r; device_name_setting := x; XdrvMailbox := XdrvMailbox r; ResponseData :=
     ResponseData r; mqtt_published := mqtt_published r; settings_text := settings_text r;
     settings_flash := settings_flash r; gpio := gpio r; lcd := lcd r; mcp_port := mcp_port r
     |}.

Definition with_XdrvMailbox (x : mailbox_t) (r : machine) : machine :=
  {| vending := vending r; motor_position_offset := motor_position_offset r; last_check :=
     last_check r; millis := millis r; utc_time := utc_time r; MqttIsConnected :=
     MqttIsConnected r; device_name_setting := device_name_setting r; XdrvMailbox := x;
     ResponseData := ResponseData r; mqtt_published := mqtt_published r; settings_text :=
     settings_text r; settings_flash := settings_flash r; gpio := gpio r; lcd := lcd r; mcp_port
     := mcp_port r |}.

Definition with_ResponseData (x : string) (r : machine) : machine :=
  {| vending := vending r; motor_position_offset := motor_position_offset r; last_check :=
     last_check r; millis := millis r; utc_time := utc_time r; MqttIsConnected :=
     MqttIsConnected r; device_name_setting := device_name_setting r; XdrvMailbox := XdrvMailbox
     r; ResponseData := x; mqtt_published := mqtt_published r; settings_text := settings_text r;
     settings_flash := settings_flash r; gpio := gpio r; lcd := lcd r; mcp_port := mcp_port r
     |}.

Definition with_mqtt_published (x : list mqtt_message) (r : machine) : machine :=
  {| vending := vending r; motor_position_offset := motor_position_offset r; last_check :=
     last_check r; millis := millis r; utc_time := utc_time r; MqttIsConnected :=
     MqttIsConnected r; device_name_setting := device_name_setting r; XdrvMailbox := XdrvMailbox
     r; ResponseData := ResponseData r; mqtt_published := x; settings_text := settings_text r;
     settings_flash := settings_flash r; gpio := gpio r; lcd := lcd r; mcp_port := mcp_port r
     |}.

Definition with_settings_text (x : Z -> string) (r : machine) : machine :=
  {| vending := vending r; motor_position_offset := motor_position_offset r; last_check :=
     last_check r; millis := millis r; utc_time := utc_time r; MqttIsConnected :=
     MqttIsConnected r; device_name_setting := device_name_setting r; XdrvMailbox := XdrvMailbox
     r; ResponseData := ResponseData r; mqtt_published := mqtt_published r; settings_text := x;
     settings_flash := settings_flash r; gpio := gpio r; lcd := lcd r; mcp_port := mcp_port r
     |}.

Definition with_settings_flash (x : Z -> string) (r : machine) : machine :=
  {| vending := vending r; motor_position_offset := motor_position_offset r; last_check :=
     last_check r; millis := millis r; utc_time := utc_time r; MqttIsConnected :=
     MqttIsConnected r; device_name_setting := device_name_setting r; XdrvMailbox := XdrvMailbox
     r; ResponseData := ResponseData r; mqtt_published := mqtt_published r; settings_text :=
     settings_text r; settings_flash := x; gpio := gpio r; lcd := lcd r; mcp_port := mcp_port r
     |}.

Definition with_gpio (x : list gpio_event) (r : machine) : machine :=
  {| vending := vending r; motor_position_offset := motor_position_offset r; last_check :=
     last_check r; millis := millis r; utc_time := utc_time r; MqttIsConnected :=
     MqttIsConnected r; device_name_setting := device_name_setting r; XdrvMailbox := XdrvMailbox
     r; ResponseData := ResponseData r; mqtt_published := mqtt_published r; settings_text :=
     settings_text r; settings_flash := settings_flash r; gpio := x; lcd := lcd r; mcp_port :=
     mcp_port r |}.

Definition with_lcd (x : lcd_t) (r : machine) : machine :=
  {| vending := vending r; motor_position_offset := motor_position_offset r; last_check :=
     last_check r; millis := millis r; utc_time := utc_time r; MqttIsConnected :=
     MqttIsConnected r; device_name_setting := device_name_setting r; XdrvMailbox := XdrvMailbox
     r; ResponseData := ResponseData r; mqtt_published := mqtt_published r; settings_text :=
     settings_text r; settings_flash := settings_flash r; gpio := gpio r; lcd := x; mcp_port :=
     mcp_port r |}.

Definition with_mcp_port (x : Z -> option Z) (r : machine) : machine :=
  {| vending := vending r; motor_position_offset := motor_position_offset r; last_check :=
     last_check r; millis := millis r; utc_time := utc_time r; MqttIsConnected :=
     MqttIsConnected r; device_name_setting := device_name_setting r; XdrvMailbox := XdrvMailbox
     r; ResponseData := ResponseData r; mqtt_published := mqtt_published r; settings_text :=
     settings_text r; settings_flash := settings_flash r; gpio := gpio r; lcd := lcd r; mcp_port
     := x |}.

Definition upd (f : vending_t -> vending_t) (st : machine) : machine :=
  with_vending (f (vending st)) st.

Definition for_each (l : list Z) (body : Z -> machine -> machine) (st : machine) : machine :=
  fold_left (fun s i => body i s) l st.

(** ** Host and peripheral primitives *)

Definition Response_P (text : string) (st : machine) : machine :=
  with_ResponseData text st.

(** The host formats the command name and the word Done. *)
Definition ResponseCmndDone (st : machine) : machine :=
  Response_P ("{" ++ quoted (command (XdrvMailbox st)) ++ ":" ++ quoted "Done" ++ "}") st.

Definition ResponseCmndError (st : machine) : machine :=
  Response_P ("{" ++ quoted (command (XdrvMailbox st)) ++ ":" ++ quoted "Error" ++ "}") st.

Definition MqttPublish (t : string) (r : bool) (st : machine) : machine :=
  with_mqtt_published
    (mqtt_published st ++ [ {| topic := t; payload := ResponseData st; retained := r |} ])%list st.

Definition SettingsUpdateText (index : Z) (text : string) (st : machine) : machine :=
  with_settings_text (fun i => if i =? index then text else settings_text st i) st.

Definition SettingsSave (st : machine) : machine :=
  with_settings_flash (settings_text st) st.

Definition gpio_emit (evs : list gpio_event) (st : machine) : machine :=
  with_gpio (gpio st ++ evs)%list st.

(** [lcd.setCursor] and [lcd.print]: a printed byte lands at the cursor when
    the cursor is on the visible part, and the cursor moves right. *)
Definition lcd_setCursor (col row : Z) (d : lcd_t) : lcd_t :=
  {| cursor_col := col; cursor_row := row; lcd_rows := lcd_rows d |}.

Definition lcd_putc (d : lcd_t) (c : ascii) : lcd_t :=
  {| cursor_col := cursor_col d + 1;
     cursor_row := cursor_row d;
     lcd_rows :=
       if (0 <=? cursor_row d) && (cursor_row d <? LCD_ROWS)
          && (0 <=? cursor_col d) && (cursor_col d <? LCD_COLS)
       then aset (lcd_rows d) (cursor_row d)
                 (aset (aget [] (lcd_rows d) (cursor_row d)) (cursor_col d) c)
       else lcd_rows d |}.

Definition lcd_print (s : list ascii) (d : lcd_t) : lcd_t := fold_left lcd_putc s d.

Definition lcd_char (d : lcd_t) (row col : Z) : ascii :=
  aget SPACE (aget [] (lcd_rows d) row) col.

(** ** The driver *)

Section Driver.

(** The host's calendar conversion, used for the ISO time stamp of a box. *)
Variable BreakTime : Z -> TIME_T.

Definition CentsToEuroString (cents : Z) (len : nat) : string :=
  let euros := cents / 100 in
  let cents_part := cents mod 100 in
  snprintf len (EURO ++ fmt_lu euros ++ "." ++ fmt_02lu cents_part).

(** *** MQTT functions *)

Definition device_name (st : machine) : string := snprintf 64 (device_name_setting st).

(** The device block that ends each of the three discovery documents. *)
Definition discovery_device (name : string) (id : Z) : string :=
  quoted "device" ++ ":{"
  ++ quoted "identifiers" ++ ":[" ++ quoted (name ++ "_honey_" ++ fmt_04X id) ++ "],"
  ++ quoted "name" ++ ":" ++ quoted ("Honey Vending " ++ fmt_04X id) ++ ","
  ++ quoted "model" ++ ":" ++ quoted "Custom Tasmota Driver" ++ ","
  ++ quoted "manufacturer" ++ ":" ++ quoted "Beekeeper"
  ++ "}".

Definition discovery_box_topic (name : string) (i : Z) : string :=
  snprintf 128 ("homeassistant/binary_sensor/" ++ name ++ "_box" ++ fmt_d i ++ "/config").

Definition discovery_box_config (name : string) (id i : Z) : string :=
  let unique_id := snprintf 64 ("honey_" ++ fmt_04X id ++ "_box_" ++ fmt_d i) in
  "{"
  ++ quoted "name" ++ ":" ++ quoted ("Honey Box " ++ fmt_d i) ++ ","
  ++ quoted "unique_id" ++ ":" ++ quoted unique_id ++ ","
  ++ quoted "state_topic" ++ ":"
  ++ quoted ("beekeeper_" ++ fmt_04X id ++ "/honey/all_boxes/box_" ++ fmt_d i) ++ ","
  ++ quoted "value_template" ++ ":" ++ quoted "{{ value_json.status }}" ++ ","
  ++ quoted "payload_on" ++ ":" ++ quoted "available" ++ ","
  ++ quoted "payload_off" ++ ":" ++ quoted "not_available" ++ ","
  ++ quoted "device_class" ++ ":" ++ quoted "occupancy" ++ ","
  ++ quoted "icon" ++ ":" ++ quoted "mdi:beehive" ++ ","
  ++ discovery_device name id
  ++ "}".

Definition discovery_summary_config (name : string) (id : Z) : string :=
  "{"
  ++ quoted "name" ++ ":" ++ quoted "Honey Boxes Available" ++ ","
  ++ quoted "unique_id" ++ ":" ++ quoted ("honey_" ++ fmt_04X id ++ "_boxes_available") ++ ","
  ++ quoted "state_topic" ++ ":" ++ quoted ("beekeeper_" ++ fmt_04X id ++ "/honey/summary") ++ ","
  ++ quoted "value_template" ++ ":" ++ quoted "{{ value_json.available }}" ++ ","
  ++ quoted "unit_of_measurement" ++ ":" ++ quoted "boxes" ++ ","
  ++ quoted "icon" ++ ":" ++ quoted "mdi:beehive-outline" ++ ","
  ++ discovery_device name id
  ++ "}".

Definition discovery_total_config (name : string) (id : Z) : string :=
  "{"
  ++ quoted "name" ++ ":" ++ quoted "Honey Vending Total" ++ ","
  ++ quoted "unique_id" ++ ":" ++ quoted ("honey_" ++ fmt_04X id ++ "_vending_total") ++ ","
  ++ quoted "state_topic" ++ ":" ++ quoted ("beekeeper_" ++ fmt_04X id ++ "/honey/system") ++ ","
  ++ quoted "value_template" ++ ":" ++ quoted "{{ value_json.total }}" ++ ","
  ++ quoted "icon" ++ ":" ++ quoted "mdi:currency-eur" ++ ","
  ++ discovery_device name id
  ++ "}".

Definition HoneyVending_PublishDiscovery (st : machine) : machine :=
  if negb (MqttIsConnected st) then st else
  let name := device_name st in
  let id := device_id (vending st) in
  let st := for_each (zrange 1 (box_count (vending st)))
              (fun i s => MqttPublish (discovery_box_topic name i) true
                            (Response_P (discovery_box_config name id i) s)) st in
  let st := Response_P (discovery_summary_config name id) st in
  let st := MqttPublish
              (snprintf 128 ("homeassistant/sensor/" ++ name ++ "_boxes_available/config"))
              true st in
  let st := Response_P (discovery_total_config name id) st in
  let st := MqttPublish
              (snprintf 128 ("homeassistant/sensor/" ++ name ++ "_vending_total/config"))
              true st in
  upd (set_discovery_sent true) st.

Definition box_time_str (timestamp : Z) : string :=
  if 0 <? timestamp then
    let tm := BreakTime timestamp in
    snprintf 32 (fmt_04d (year tm + 1970) ++ "-" ++ fmt_02d (month tm) ++ "-"
                 ++ fmt_02d (day_of_month tm) ++ "T" ++ fmt_02d (hour tm) ++ ":"
                 ++ fmt_02d (minute tm) ++ ":" ++ fmt_02d (second tm) ++ "Z")
  else snprintf 32 "1970-01-01T00:00:00Z".

Definition box_topic (id box_id : Z) : string :=
  snprintf 64 ("beekeeper_" ++ fmt_04X id ++ "/honey/all_boxes/box_" ++ fmt_d box_id).

Definition box_json (v : vending_t) (box_id : Z) : string :=
  let has_honey := aget false (box_status v) (box_id - 1) in
  let timestamp := aget 0 (box_last_changed v) (box_id - 1) in
  let price_cents := aget 0 (box_price v) (box_id - 1) in
  "{"
  ++ quoted "id" ++ ":" ++ fmt_d box_id ++ ","
  ++ quoted "status" ++ ":" ++ quoted (if has_honey then "available" else "not_available") ++ ","
  ++ quoted "price_cents" ++ ":" ++ fmt_lu price_cents ++ ","
  ++ quoted "price" ++ ":" ++ quoted (CentsToEuroString price_cents 16) ++ ","
  ++ quoted "timestamp" ++ ":" ++ quoted (box_time_str timestamp)
  ++ "}".

Definition HoneyVending_PublishBoxMQTT (box_id : Z) (st : machine) : machine :=
  if (box_id <? 1) || (box_count (vending st) <? box_id) then st else
  if negb (MqttIsConnected st) then st else
  let st := Response_P (box_json (vending st) box_id) st in
  MqttPublish (box_topic (device_id (vending st)) box_id) true st.

(** The number of boxes among the first [box_count] that hold honey. *)
Definition available_count (v : vending_t) : Z :=
  fold_left (fun n i => if aget false (box_status v) i then n + 1 else n)
            (zrange 0 (box_count v - 1)) 0.

Definition empty_count (v : vending_t) : Z :=
  fold_left (fun n i => if aget false (box_status v) i then n else n + 1)
            (zrange 0 (box_count v - 1)) 0.

Definition summary_topic (id : Z) : string :=
  snprintf 64 ("beekeeper_" ++ fmt_04X id ++ "/honey/summary").

Definition summary_json (total available empty : Z) : string :=
  "{" ++ quoted "total" ++ ":" ++ fmt_d total ++ ","
  ++ quoted "available" ++ ":" ++ fmt_d available ++ ","
  ++ quoted "empty" ++ ":" ++ fmt_d empty ++ "}".

Definition HoneyVending_PublishAllBoxesMQTT (st : machine) : machine :=
  if negb (MqttIsConnected st) then st else
  let st := for_each (zrange 1 (box_count (vending st)))
              (fun i s => HoneyVending_PublishBoxMQTT (u8 i) s) st in
  let v := vending st in
  let st := Response_P (summary_json (box_count v) (available_count v) (empty_count v)) st in
  let st := MqttPublish (summary_topic (device_id v)) true st in
  upd (set_last_publish_ms (millis st)) st.

Definition system_topic (id : Z) : string :=
  snprintf 64 ("beekeeper_" ++ fmt_04X id ++ "/honey/system").

Definition target_cents (v : vending_t) : Z :=
  if (0 <? selected_box_id v) && (selected_box_id v <=? box_count v)
  then aget 0 (box_price v) (selected_box_id v - 1)
  else 0.

Definition system_json (v : vending_t) : string :=
  "{"
  ++ quoted "total_cents" ++ ":" ++ fmt_lu (total_cents v) ++ ","
  ++ quoted "total" ++ ":" ++ quoted (CentsToEuroString (total_cents v) 16) ++ ","
  ++ quoted "target_cents" ++ ":" ++ fmt_lu (target_cents v) ++ ","
  ++ quoted "target" ++ ":" ++ quoted (CentsToEuroString (target_cents v) 16) ++ ","
  ++ quoted "selected_box" ++ ":" ++ fmt_d (selected_box_id v) ++ ","
  ++ quoted "coins_detected" ++ ":" ++ fmt_lu (coins_detected v) ++ ","
  ++ quoted "honey_available" ++ ":" ++ fmt_d (if honey_available v then 1 else 0) ++ ","
  ++ quoted "box_count" ++ ":" ++ fmt_d (box_count v)
  ++ "}".

Definition HoneyVending_PublishSystemMQTT (st : machine) : machine :=
  if negb (MqttIsConnected st) then st else
  let st := Response_P (system_json (vending st)) st in
  MqttPublish (system_topic (device_id (vending st))) true st.

(** *** Persistent storage *)

Definition HoneyVending_SaveBoxCount (st : machine) : machine :=
  let buffer := snprintf 10 ("C" ++ fmt_02d (box_count (vending st))) in
  SettingsSave (SettingsUpdateText HONEY_BOX_COUNT_INDEX buffer st).

(** The loops of [SavePrices] and [SaveStatus] append one number per box,
    with a comma before every number but the first. *)
Fixpoint comma_list (l : list Z) : string :=
  match l with
  | [] => EmptyString
  | [x] => fmt_lu x
  | x :: rest => fmt_lu x ++ "," ++ comma_list rest
  end.

Definition price_text (v : vending_t) : string :=
  snprintf 512 ("P:" ++ comma_list (map (aget 0 (box_price v)) (zrange 0 (box_count v - 1)))).

Definition HoneyVending_SavePrices (st : machine) : machine :=
  SettingsSave (SettingsUpdateText HONEY_PRICE_INDEX (price_text (vending st)) st).

Definition packed_status (v : vending_t) : Z :=
  fold_left (fun packed i =>
               if aget false (box_status v) i then u32 (Z.lor packed (Z.shiftl 1 i)) else packed)
            (zrange 0 (box_count v - 1)) 0.

Definition status_text (v : vending_t) : string :=
  snprintf 16 ("H" ++ fmt_08lX (packed_status v)).

Definition timestamp_text (v : vending_t) : string :=
  snprintf 512
    ("T:" ++ comma_list (map (aget 0 (box_last_changed v)) (zrange 0 (box_count v - 1)))).

Definition HoneyVending_SaveStatus (st : machine) : machine :=
  let st := SettingsUpdateText HONEY_SETTINGS_INDEX (status_text (vending st)) st in
  let st := SettingsUpdateText HONEY_TIMESTAMP_INDEX (timestamp_text (vending st)) st in
  SettingsSave st.

(** *** Box inventory *)

Definition HoneyVending_CleanupOldBoxes (old_count new_count : Z) (st : machine) : machine :=
  if old_count <=? new_count then st else
  if negb (MqttIsConnected st) then st else
  let name := device_name st in
  for_each (zrange (new_count + 1) old_count)
    (fun i s => MqttPublish (discovery_box_topic name i) true s) st.

Definition HoneyVending_SetBoxCount (count : Z) (st : machine) : machine :=
  if (count <? 1) || (MAX_HONEY_BOX_COUNT <? count) then st else
  let old_count := box_count (vending st) in
  let st := upd (set_box_count count) st in
  let st :=
    if old_count <? count then
      for_each (zrange old_count (count - 1))
        (fun i s =>
           let s := upd (fun v => set_box_status (aset (box_status v) i false) v) s in
           let s := upd (fun v => set_box_last_changed
                                    (aset (box_last_changed v) i (utc_time s)) v) s in
           upd (fun v => set_box_price (aset (box_price v) i DEFAULT_PRICE_CENTS) v) s) st
    else st in
  let st := HoneyVending_SaveBoxCount st in
  let st := HoneyVending_SaveStatus st in
  let st := HoneyVending_SavePrices st in
  let st := upd (set_discovery_sent false) st in
  if MqttIsConnected st then
    let st := HoneyVending_CleanupOldBoxes old_count count st in
    let st := HoneyVending_PublishDiscovery st in
    let st := HoneyVending_PublishAllBoxesMQTT st in
    HoneyVending_PublishSystemMQTT st
  else st.

Definition HoneyVending_SetStatus (box_id : Z) (has_honey : bool) (st : machine) : machine :=
  if (box_id <? 1) || (box_count (vending st) <? box_id) then st else
  let st := upd (fun v => set_box_status (aset (box_status v) (box_id - 1) has_honey) v) st in
  let st := upd (fun v => set_box_last_changed
                            (aset (box_last_changed v) (box_id - 1) (utc_time st)) v) st in
  let st := HoneyVending_SaveStatus st in
  let st := HoneyVending_PublishBoxMQTT box_id st in
  let v := vending st in
  let st := Response_P (summary_json (box_count v) (available_count v)
                          (box_count v - available_count v)) st in
  MqttPublish (summary_topic (device_id v)) true st.

Definition HoneyVending_SetPrice (box_id price_cents : Z) (st : machine) : machine :=
  if (box_id <? 1) || (box_count (vending st) <? box_id) then st else
  if (price_cents <? 10) || (10000 <? price_cents) then st else
  let st := upd (fun v => set_box_price (aset (box_price v) (box_id - 1) price_cents) v) st in
  let st := HoneyVending_SavePrices st in
  HoneyVending_PublishBoxMQTT box_id st.

Definition HoneyVending_GetPrice (box_id : Z) (st : machine) : Z :=
  if (box_id <? 1) || (box_count (vending st) <? box_id) then DEFAULT_PRICE_CENTS
  else aget 0 (box_price (vending st)) (box_id - 1).

Definition HoneyVending_GetStatus (box_id : Z) (st : machine) : bool :=
  if (box_id <? 1) || (box_count (vending st) <? box_id) then false
  else aget false (box_status (vending st)) (box_id - 1).

(** [HoneyVending_DisplayValues] only formats a log line. *)
Definition HoneyVending_DisplayValues (st : machine) : machine := st.

Definition HoneyVending_SelectBox (box_id : Z) (st : machine) : machine :=
  if (box_id <? 1) || (box_count (vending st) <? box_id) then st else
  if negb (aget false (box_status (vending st)) (box_id - 1)) then st else
  let st := upd (set_selected_box_id box_id) st in
  let st := upd (set_total_cents 0) st in
  let st := upd (set_coins_detected 0) st in
  let st := upd (set_honey_available false) st in
  let st := HoneyVending_PublishSystemMQTT st in
  HoneyVending_DisplayValues st.

(** *** Commands *)

Definition CmndVendingBoxCount (st : machine) : machine :=
  let reply s :=
    Response_P ("{" ++ quoted "BoxCount" ++ ":" ++ fmt_d (box_count (vending s)) ++ ","
                ++ quoted "Max" ++ ":" ++ fmt_d MAX_HONEY_BOX_COUNT ++ "}") s in
  if 0 <? data_len (XdrvMailbox st) then
    let new_count := u8 (atoi (data (XdrvMailbox st))) in
    if (1 <=? new_count) && (new_count <=? MAX_HONEY_BOX_COUNT) then
      reply (HoneyVending_SetBoxCount new_count st)
    else ResponseCmndError st
  else reply st.

Definition CmndVendingSelectBox (st : machine) : machine :=
  let deselect s :=
    let s := upd (set_selected_box_id 0) s in
    let s := upd (set_total_cents 0) s in
    let s := upd (set_coins_detected 0) s in
    let s := upd (set_honey_available false) s in
    Response_P ("{" ++ quoted "SelectedBox" ++ ":0," ++ quoted "Status" ++ ":"
                ++ quoted "Deselected" ++ "}") s in
  if 0 <? data_len (XdrvMailbox st) then
    let box_id := u8 (atoi (data (XdrvMailbox st))) in
    if (1 <=? box_id) && (box_id <=? box_count (vending st)) then
      if aget false (box_status (vending st)) (box_id - 1) then
        let st := HoneyVending_SelectBox box_id st in
        let price := HoneyVending_GetPrice box_id st in
        Response_P ("{" ++ quoted "SelectedBox" ++ ":" ++ fmt_d box_id ++ ","
                    ++ quoted "Price" ++ ":" ++ quoted (CentsToEuroString price 16) ++ ","
                    ++ quoted "PriceCents" ++ ":" ++ fmt_lu price ++ "}") st
      else
        Response_P ("{" ++ quoted "Error" ++ ":"
                    ++ quoted ("Box " ++ fmt_d box_id ++ " is EMPTY") ++ "}") st
    else deselect st
  else deselect st.

Definition CmndVendingReset (st : machine) : machine :=
  let st := upd (set_total_cents 0) st in
  let st := upd (set_coins_detected 0) st in
  let st := upd (set_honey_available false) st in
  let st := upd (set_pulse_count 0) st in
  let st := upd (set_selected_box_id 0) st in
  let st := HoneyVending_PublishSystemMQTT st in
  ResponseCmndDone st.

(** *** Pulse interrupt and coin decoding *)

Definition HoneyVending_PulseISR (st : machine) : machine :=
  let now := millis st in
  let v := vending st in
  if (0 <? pulse_count v) && (u32 (now - last_pulse_ms v) <? PULSE_DEBOUNCE_MS) then st else
  let st := if pulse_count v =? 0 then upd (set_first_pulse_ms now) st else st in
  let st := upd (fun v => set_pulse_count (u32 (pulse_count v + 1)) v) st in
  upd (set_last_pulse_ms now) st.

Definition PulsesToCents (pulses : Z) : Z :=
  match pulses with
  | 1 => 10
  | 2 => 20
  | 5 => 50
  | 10 => 100
  | 20 => 200
  | _ => 0
  end.

(** *** Shift register and locks *)

Definition ShiftReg_Write_events (regs : list Z) (num_registers : Z) : list gpio_event :=
  ([digitalWrite SHIFT_REG_LATCH_PIN LOW]
   ++ flat_map
        (fun reg =>
           flat_map
             (fun bit =>
                [digitalWrite SHIFT_REG_CLOCK_PIN LOW;
                 digitalWrite SHIFT_REG_DATA_PIN (Z.testbit (aget 0 regs reg) bit);
                 digitalWrite SHIFT_REG_CLOCK_PIN HIGH])
             (rev (zrange 0 7)))
        (rev (zrange 0 (num_registers - 1)))
   ++ [digitalWrite SHIFT_REG_LATCH_PIN HIGH; digitalWrite SHIFT_REG_LATCH_PIN LOW])%list.

Definition ShiftReg_Write (st : machine) : machine :=
  gpio_emit (ShiftReg_Write_events (shift_reg_state (vending st)) NUM_SHIFT_REGISTERS) st.

Definition locked_word : Z := if SOLENOID_ACTIVE_HIGH then 0 else 4294967295.

Definition ShiftReg_Init (st : machine) : machine :=
  let st := for_each (zrange 0 (NUM_SHIFT_REGISTERS - 1))
              (fun i s => upd (fun v => set_shift_reg_state
                                          (aset (shift_reg_state v) i locked_word) v) s) st in
  ShiftReg_Write st.

Definition ShiftReg_SetBit (bit_position : Z) (state : bool) (st : machine) : machine :=
  if NUM_SHIFT_REGISTERS * 8 <=? bit_position then st else
  let register_index := bit_position / 8 in
  let bit_index := bit_position mod 8 in
  let old := aget 0 (shift_reg_state (vending st)) register_index in
  let new :=
    if state then u32 (Z.lor old (Z.shiftl 1 bit_index))
    else u32 (Z.land old (Z.lnot (Z.shiftl 1 bit_index))) in
  let st := upd (fun v => set_shift_reg_state
                            (aset (shift_reg_state v) register_index new) v) st in
  ShiftReg_Write st.

Definition LockBoxKey (box_id : Z) (st : machine) : machine :=
  if (box_id <? 1) || (box_count (vending st) <? box_id) then st else
  let bit_position := u8 (box_id - 1) in
  let st := ShiftReg_SetBit bit_position (negb SOLENOID_ACTIVE_HIGH) st in
  if unlocked_box_id (vending st) =? box_id then
    upd (set_unlock_start_ms 0) (upd (set_unlocked_box_id 0) st)
  else st.

Definition UnlockBoxKey (box_id : Z) (st : machine) : machine :=
  if (box_id <? 1) || (box_count (vending st) <? box_id) then st else
  if NUM_SHIFT_REGISTERS * 8 <? box_id then st else
  let st := if 0 <? unlocked_box_id (vending st)
            then LockBoxKey (unlocked_box_id (vending st)) st else st in
  let bit_position := u8 (box_id - 1) in
  let st := ShiftReg_SetBit bit_position SOLENOID_ACTIVE_HIGH st in
  let st := upd (set_unlocked_box_id box_id) st in
  upd (set_unlock_start_ms (millis st)) st.

Definition LockAllBoxes (st : machine) : machine :=
  let st := for_each (zrange 0 (NUM_SHIFT_REGISTERS - 1))
              (fun i s => upd (fun v => set_shift_reg_state
                                          (aset (shift_reg_state v) i locked_word) v) s) st in
  let st := ShiftReg_Write st in
  let st := upd (set_unlocked_box_id 0) st in
  upd (set_unlock_start_ms 0) st.

Definition CheckUnlockTimeout (st : machine) : machine :=
  if 0 <? unlocked_box_id (vending st) then
    let elapsed := u32 (millis st - unlock_start_ms (vending st)) in
    if UNLOCK_DURATION_MS <=? elapsed then LockBoxKey (unlocked_box_id (vending st)) st
    else st
  else st.

(** *** Stepper motor *)

Definition Motor_Rotate_events (steps : Z) (clockwise : bool) : list gpio_event :=
  ([digitalWrite MOTOR_DIR_PIN (if clockwise then HIGH else LOW);
    digitalWrite MOTOR_ENABLE_PIN LOW;
    delayMicroseconds 10]
   ++ flat_map
        (fun _ =>
           [digitalWrite MOTOR_STEP_PIN HIGH; delayMicroseconds MOTOR_STEP_DELAY_US;
            digitalWrite MOTOR_STEP_PIN LOW; delayMicroseconds MOTOR_STEP_DELAY_US])
        (zrange 0 (steps - 1))
   ++ [digitalWrite MOTOR_ENABLE_PIN HIGH])%list.

Definition Motor_Rotate (steps : Z) (clockwise : bool) (st : machine) : machine :=
  if steps =? 0 then st else gpio_emit (Motor_Rotate_events steps clockwise) st.

Definition Motor_DoAction (action : MotorAction_t) (st : machine) : machine :=
  match action with
  | COIN_ACCEPT =>
      let st := Motor_Rotate MOTOR_45DEG_STEPS false st in
      with_motor_position_offset (i16 (motor_position_offset st - MOTOR_45DEG_STEPS)) st
  | COIN_REJECT =>
      let st := Motor_Rotate MOTOR_45DEG_STEPS true st in
      with_motor_position_offset (i16 (motor_position_offset st + MOTOR_45DEG_STEPS)) st
  | MOTOR_RESET =>
      if motor_position_offset st =? 0 then st else
      let go_left := 0 <? motor_position_offset st in
      let steps_back := u16 (if motor_position_offset st <? 0
                             then - motor_position_offset st
                             else motor_position_offset st) in
      let st := Motor_Rotate steps_back (negb go_left) st in
      with_motor_position_offset 0 st
  end.

(** *** LCD *)

(** The C library on a [char] buffer. *)
Definition memset (buf : list ascii) (c : ascii) (n : nat) : list ascii :=
  (repeat c n ++ skipn n buf)%list.

Definition poke (buf : list ascii) (i : nat) (c : ascii) : list ascii := aset_nat buf i c.

(** The [n] bytes [strncpy] writes: the source up to its end, then NUL
    bytes to make up the count. *)
Fixpoint strncpy_bytes (src : list ascii) (n : nat) : list ascii :=
  match n with
  | O => []
  | S n' =>
      match src with
      | c :: rest => if is_nul c then NUL :: strncpy_bytes [] n' else c :: strncpy_bytes rest n'
      | [] => NUL :: strncpy_bytes [] n'
      end
  end.

Definition strncpy (dest src : list ascii) (n : nat) : list ascii :=
  (strncpy_bytes src n ++ skipn n dest)%list.

(** The C string a buffer holds: the bytes before the first NUL. *)
Fixpoint c_str (buf : list ascii) : list ascii :=
  match buf with
  | [] => []
  | c :: rest => if is_nul c then [] else c :: c_str rest
  end.

Definition LCD_WriteText (row col : Z) (text : string) (st : machine) : machine :=
  if negb (lcd_initialized (vending st)) then st else
  if (LCD_ROWS <=? row) || (LCD_COLS <=? col) then st else
  let available := Z.to_nat (u8 (LCD_COLS - col)) in
  let padded := repeat NUL (Z.to_nat LCD_COLS + 1) in
  let padded := memset padded SPACE (Z.to_nat LCD_COLS) in
  let padded := poke padded (Z.to_nat LCD_COLS) NUL in
  let padded := strncpy padded (list_ascii_of_string text) available in
  let padded := poke padded available NUL in
  with_lcd (lcd_print (c_str padded) (lcd_setCursor col row (lcd st))) st.

(** *** Buttons *)

Definition MCP23017_ReadReg (reg : Z) (st : machine) : Z :=
  match mcp_port st reg with
  | Some b => u8 b
  | None => 255
  end.

Definition MCP23017_ReadButtons (st : machine) : Z :=
  if negb (mcp_initialized (vending st)) then 65535 else
  let gpa := MCP23017_ReadReg MCP23017_GPIOA st in
  let gpb := MCP23017_ReadReg MCP23017_GPIOB st in
  u16 (Z.lor gpa (Z.shiftl (u16 gpb) 8)).

(** *** The session and the 100 ms tick *)

Definition HoneyVending_HoneyAvailable (st : machine) : machine :=
  if 0 <? selected_box_id (vending st) then
    let st := UnlockBoxKey (selected_box_id (vending st)) st in
    let st := HoneyVending_PublishSystemMQTT st in
    let st := HoneyVending_SetStatus (selected_box_id (vending st)) false st in
    CmndVendingReset st
  else st.

(** The part of the tick that turns a finished pulse train into money. *)
Definition coin_step (now : Z) (st : machine) : machine :=
  if (0 <? pulse_count (vending st))
     && (COIN_TIMEOUT_MS <=? u32 (now - last_pulse_ms (vending st))) then
    let pulses := pulse_count (vending st) in
    let coin_value := PulsesToCents pulses in
    let st :=
      if 0 <? coin_value then
        let st := upd (fun v => set_total_cents (u32 (total_cents v + coin_value)) v) st in
        let st := upd (set_last_coin_cents coin_value) st in
        let st := upd (fun v => set_coins_detected (u32 (coins_detected v + 1)) v) st in
        let total_str := CentsToEuroString (total_cents (vending st)) 16 in
        let lcd_buf := snprintf 17 ("Total: " ++ total_str) in
        let st := LCD_WriteText 1 0 lcd_buf st in
        let st := HoneyVending_DisplayValues st in
        let st := HoneyVending_PublishSystemMQTT st in
        if (0 <? selected_box_id (vending st)) && negb (honey_available (vending st)) then
          let target_price := aget 0 (box_price (vending st))
                                   (selected_box_id (vending st) - 1) in
          if target_price <=? total_cents (vending st) then
            HoneyVending_HoneyAvailable (upd (set_honey_available true) st)
          else st
        else st
      else st in
    upd (set_pulse_count 0) st
  else st.

(** The part of the tick that reports newly pressed buttons. *)
Definition button_step (st : machine) : machine :=
  if mcp_initialized (vending st) then
    let current_state := MCP23017_ReadButtons st in
    let newly_pressed := u16 (Z.land (Z.lnot current_state) (last_button_state (vending st))) in
    let st :=
      if negb (newly_pressed =? 0) then
        for_each (zrange 0 15)
          (fun i s =>
             if negb (Z.land newly_pressed (Z.shiftl 1 i) =? 0) then
               let button_number := u8 (i + 1) in
               LCD_WriteText 1 0 (snprintf 17 ("Button " ++ fmt_d button_number ++ " pressed ")) s
             else s) st
      else st in
    upd (set_last_button_state current_state) st
  else st.

Definition HoneyVending_Every100ms (st : machine) : machine :=
  if negb (initialized (vending st)) then st else
  let now := millis st in
  if u32 (now - last_check st) <? 100 then st else
  let st := with_last_check now st in
  let st := CheckUnlockTimeout st in
  let st := coin_step now st in
  button_step st.

End Driver.

(** ** Sequences of calls and sample machines used below *)

(** The output line of box [box_id] in the mirror of the shift-register
    chain: box 1 is bit 0 of the first register. *)
Definition box_line (v : vending_t) (box_id : Z) : bool :=
  Z.testbit (aget 0 (shift_reg_state v) ((box_id - 1) / 8)) ((box_id - 1) mod 8).

(** A box is unlocked when its line is at the unlock polarity. *)
Definition line_unlocked (regs : list Z) (k : Z) : Prop :=
  0 <= k < NUM_SHIFT_REGISTERS * 8 /\
  Z.testbit (aget 0 regs (k / 8)) (k mod 8) = SOLENOID_ACTIVE_HIGH.

Definition at_most_one_unlocked (regs : list Z) : Prop :=
  forall j k, line_unlocked regs j -> line_unlocked regs k -> j = k.

(** The console argument names one of the configured boxes. *)
Definition names_a_box (st : machine) : bool :=
  (0 <? data_len (XdrvMailbox st))
  && (1 <=? u8 (atoi (data (XdrvMailbox st))))
  && (u8 (atoi (data (XdrvMailbox st))) <=? box_count (vending st)).

(** Timeout checks at the given clock readings, one after the other. *)
Definition timeout_checks (times : list Z) (st : machine) : machine :=
  fold_left (fun s now => CheckUnlockTimeout (with_millis now s)) times st.




Definition motor_actions (actions : list MotorAction_t) (st : machine) : machine :=
  fold_left (fun s a => Motor_DoAction a s) actions st.

(** A machine as it stands after start-up with fifteen filled boxes. *)
Definition epoch : TIME_T :=
  {| year := 0; month := 1; day_of_month := 1; hour := 0; minute := 0; second := 0 |}.

Definition sample_vending : vending_t :=
  {| pulse_count := 0; last_pulse_ms := 0; first_pulse_ms := 0;
     total_cents := 0; last_coin_cents := 0; coins_detected := 0;
     honey_available := false; initialized := true;
     box_count := 15; selected_box_id := 0;
     box_status := repeat true 30; box_price := repeat 500 30;
     box_last_changed := repeat 0 30;
     last_publish_ms := 0; discovery_sent := true; device_id := 48879;
     shift_reg_state := [0; 0; 0; 0]; unlock_start_ms := 0; unlocked_box_id := 0;
     lcd_initialized := true; mcp_initialized := true; last_button_state := 65535 |}.

Definition sample_machine : machine :=
  {| vending := sample_vending;
     motor_position_offset := 0; last_check := 0;
     millis := 1000; utc_time := 1700000000;
     MqttIsConnected := true; device_name_setting := "hive";
     XdrvMailbox := {| command := "VendingBoxCount"; data := "15"; data_len := 2 |};
     ResponseData := "_1";
     mqtt_published := [];
     settings_text := fun _ => EmptyString;
     settings_flash := fun _ => EmptyString;
     gpio := [];
     lcd := {| cursor_col := 0; cursor_row := 0;
               lcd_rows := [list_ascii_of_string "Select a box    ";
                            list_ascii_of_string "Box 3 = E5.00   "] |};
     mcp_port := fun _ => Some 255 |}.

(** The fields a lock operation may touch, set all at once. *)
Definition with_locks (regs : list Z) (unlocked start : Z) (evs : list gpio_event)
    (st : machine) : machine :=
  upd (fun v => set_unlock_start_ms start
                  (set_unlocked_box_id unlocked (set_shift_reg_state regs v)))
      (with_gpio evs st).

(** The mirror after [ShiftReg_SetBit] has set one line. *)
Definition mirror_set (regs : list Z) (bit_position : Z) (state : bool) : list Z :=
  let old := aget 0 regs (bit_position / 8) in
  aset regs (bit_position / 8)
       (if state then u32 (Z.lor old (Z.shiftl 1 (bit_position mod 8)))
        else u32 (Z.land old (Z.lnot (Z.shiftl 1 (bit_position mod 8))))).

(** A customer has chosen box 3 and a coin is halfway in: three pulses have
    arrived.  The operator then sends VendingSelectBox with no argument. *)
Definition deselect_sample : machine :=
  with_XdrvMailbox {| command := "VendingSelectBox"; data := EmptyString; data_len := 0 |}
    (upd (set_pulse_count 3) (upd (set_total_cents 200) (upd (set_coins_detected 1)
       (upd (set_selected_box_id 3) sample_machine)))).

(** The output-pin events of a series of full shift-outs, one per mirror. *)
Definition latched (frames : list (list Z)) : list gpio_event :=
  flat_map (fun regs => ShiftReg_Write_events regs NUM_SHIFT_REGISTERS) frames.

(** What the lock functions keep true: the only line that can be at the
    unlock level is the line of the tracked box, and the tracked box is one
    of the configured boxes within the capacity of the chain. *)
Definition lock_inv (st : machine) : Prop :=
  let v := vending st in
  List.length (shift_reg_state v) = 4%nat
  /\ (unlocked_box_id v = 0 \/ 1 <= unlocked_box_id v <= box_count v)
  /\ unlocked_box_id v <= NUM_SHIFT_REGISTERS * 8
  /\ (forall k, line_unlocked (shift_reg_state v) k -> unlocked_box_id v = k + 1).

Arguments ShiftReg_Write_events : simpl never.
Arguments Motor_Rotate_events : simpl never.
Arguments latched : simpl never.

(** The display of the sample machine shows a prompt; the driver then writes
    a two-letter text at the start of the top row. *)
Definition short_write_sample : machine := LCD_WriteText 0 0 "Hi" sample_machine.

Definition lcd_row_text (d : lcd_t) (row : Z) : string :=
  string_of_list_ascii (aget [] (lcd_rows d) row).

(** Twenty boxes are configured; the operator sends VendingBoxCount 15.  The
    response buffer holds what the command dispatcher put there. *)
Definition shrink_sample : machine := upd (set_box_count 20) sample_machine.

(** The message [MqttPublish] sends for the discovery topic of one box when
    the response buffer holds [text]. *)
Definition withdrawal_message (name text : string) (i : Z) : mqtt_message :=
  {| topic := discovery_box_topic name i; payload := text; retained := true |}.

(** The three retained state messages, as the driver builds them from the
    [vending] struct. *)
Definition system_message (v : vending_t) : mqtt_message :=
  {| topic := system_topic (device_id v); payload := system_json v; retained := true |}.

Definition summary_message (v : vending_t) : mqtt_message :=
  {| topic := summary_topic (device_id v);
     payload := summary_json (box_count v) (available_count v)
                             (box_count v - available_count v);
     retained := true |}.

Definition box_message (BreakTime : Z -> TIME_T) (v : vending_t) (box_id : Z) : mqtt_message :=
  {| topic := box_topic (device_id v) box_id;
     payload := box_json BreakTime v box_id;
     retained := true |}.

(** A machine given by the parts the driver writes; the inputs of the host
    and the hardware are taken from [st0]. *)
Definition mk (v : vending_t) (lc : Z) (resp : string) (pubs : list mqtt_message)
    (txt fl : Z -> string) (g : list gpio_event) (d : lcd_t) (st0 : machine) : machine :=
  {| vending := v;
     motor_position_offset := motor_position_offset st0;
     last_check := lc;
     millis := millis st0;
     utc_time := utc_time st0;
     MqttIsConnected := MqttIsConnected st0;
     device_name_setting := device_name_setting st0;
     XdrvMailbox := XdrvMailbox st0;
     ResponseData := resp;
     mqtt_published := pubs;
     settings_text := txt;
     settings_flash := fl;
     gpio := g;
     lcd := d;
     mcp_port := mcp_port st0 |}.

(** The session fields after [CmndVendingReset]. *)
Definition reset_session (v : vending_t) : vending_t :=
  set_selected_box_id 0 (set_pulse_count 0 (set_honey_available false
    (set_coins_detected 0 (set_total_cents 0 v)))).

(** The box tables after [HoneyVending_SetStatus]. *)
Definition mark_box (box_id : Z) (has_honey : bool) (now : Z) (v : vending_t) : vending_t :=
  set_box_last_changed (aset (box_last_changed v) (box_id - 1) now)
    (set_box_status (aset (box_status v) (box_id - 1) has_honey) v).

(** The text slots after [HoneyVending_SaveStatus]. *)
Definition saved_status (v : vending_t) (txt : Z -> string) : Z -> string :=
  fun i => if i =? HONEY_TIMESTAMP_INDEX then timestamp_text v
           else if i =? HONEY_SETTINGS_INDEX then status_text v
           else txt i.

(** The lock fields after a lock or unlock call. *)
Definition set_locks (regs : list Z) (unlocked start : Z) (v : vending_t) : vending_t :=
  set_unlock_start_ms start (set_unlocked_box_id unlocked (set_shift_reg_state regs v)).

(** The money fields after a coin has been counted. *)
Definition add_coin (coin : Z) (v : vending_t) : vending_t :=
  set_coins_detected (u32 (coins_detected v + 1))
    (set_last_coin_cents coin (set_total_cents (u32 (total_cents v + coin)) v)).

(** Box 3 at 5.00 is selected, 4.00 are in, and a one-euro coin (ten pulses)
    finished 300 ms ago. *)
Definition sale_sample : machine :=
  upd (set_last_pulse_ms 700) (upd (set_pulse_count 10)
    (upd (set_coins_detected 2) (upd (set_total_cents 400)
       (upd (set_selected_box_id 3) sample_machine)))).

(** Three pulses finished 300 ms ago: no coin has that count. *)
Definition unknown_coin_sample : machine :=
  upd (set_last_pulse_ms 700) (upd (set_pulse_count 3)
    (upd (set_total_cents 200) (upd (set_coins_detected 1) sample_machine))).

(** Box 3 was unlocked at clock reading 1000. *)
Definition unlocked_sample : machine := UnlockBoxKey 3 sample_machine.

(** The gate after 1310 accepts in a row from home. *)
Definition far_left_sample : machine :=
  Nat.iter 1310 (Motor_DoAction COIN_ACCEPT) sample_machine.

(** A calendar for the samples: every reading is the start of the epoch. *)
Definition epoch_time (_ : Z) : TIME_T := epoch.

(** Box 15 is unlocked, then the box count is set to 10. *)
Definition retired_sample : machine :=
  HoneyVending_SetBoxCount epoch_time 10 (UnlockBoxKey 15 sample_machine).

(** Box 15 was selected while fifteen boxes were configured and the box
    count was then set to 10; 4.00 are in and a one-euro coin (ten pulses)
    finished 300 ms ago. *)
Definition retired_sale_sample : machine :=
  upd (set_last_pulse_ms 700) (upd (set_pulse_count 10)
    (upd (set_coins_detected 2) (upd (set_total_cents 400)
       (HoneyVending_SetBoxCount epoch_time 10
          (HoneyVending_SelectBox 15 sample_machine))))).

(** ** The rest of the driver *)

(** *** More of the C library *)

(** [s + n]: the string from its [n]-th byte on. *)
Fixpoint str_skip (n : nat) (s : string) : string :=
  match n, s with
  | O, _ => s
  | S n', String _ rest => str_skip n' rest
  | S _, EmptyString => EmptyString
  end.

(** [s[i]]; past the last byte a C string reads as NUL. *)
Definition char_at (s : string) (i : nat) : ascii :=
  match String.get i s with
  | Some c => c
  | None => NUL
  end.

(** [strchr]: the string from the first occurrence of the byte on. *)
Fixpoint strchr (s : string) (c : ascii) : option string :=
  match s with
  | EmptyString => None
  | String x rest => if Ascii.eqb x c then Some s else strchr rest c
  end.

(** The bytes before the first occurrence of the byte: what the string
    reads as once that byte has been overwritten with NUL. *)
Fixpoint str_before (s : string) (c : ascii) : string :=
  match s with
  | EmptyString => EmptyString
  | String x rest => if Ascii.eqb x c then EmptyString else String x (str_before rest c)
  end.

Definition ULONG_MAX : Z := 4294967295.

(** The value [strtoul] gives a digit or letter; 36 for any other byte. *)
Definition digit_value (c : ascii) : Z :=
  let n := Z.of_nat (nat_of_ascii c) in
  if (48 <=? n) && (n <=? 57) then n - 48
  else if (65 <=? n) && (n <=? 90) then n - 55
  else if (97 <=? n) && (n <=? 122) then n - 87
  else 36.

Fixpoint strtoul_digits (base : Z) (s : string) (acc : Z) : Z :=
  match s with
  | String c rest =>
      if digit_value c <? base then strtoul_digits base rest (base * acc + digit_value c)
      else acc
  | EmptyString => acc
  end.

(** [strtoul(s, nullptr, base)] for base 10 and 16 with a 32-bit [unsigned
    long]: white space, an optional sign, for base 16 an optional 0x, then
    the digits; a number that does not fit reads as [ULONG_MAX], and a minus
    sign negates modulo 2^32. *)
Definition strtoul (s : string) (base : Z) : Z :=
  let s := skip_spaces s in
  let neg := match s with String "-"%char _ => true | _ => false end in
  let s := match s with
           | String "-"%char rest => rest
           | String "+"%char rest => rest
           | _ => s
           end in
  let s := if base =? 16 then
             match s with
             | String "0"%char (String "x"%char rest) => rest
             | String "0"%char (String "X"%char rest) => rest
             | _ => s
             end
           else s in
  let value := strtoul_digits base s 0 in
  if ULONG_MAX <? value then ULONG_MAX
  else if neg then u32 (- value) else value.

Definition to_lower (c : ascii) : ascii :=
  let n := nat_of_ascii c in
  if (65 <=? n)%nat && (n <=? 90)%nat then ascii_of_nat (n + 32) else c.

(** [strcasecmp(a, b) == 0] *)
Fixpoint strcaseeq (a b : string) : bool :=
  match a, b with
  | EmptyString, EmptyString => true
  | String x a', String y b' => Ascii.eqb (to_lower x) (to_lower y) && strcaseeq a' b'
  | _, _ => false
  end.

(** [%02X] of a byte. *)
Definition fmt_02X (n : Z) : string := zero_pad 2 (digits 8 16 hex_char (u32 n) EmptyString).

(** [lcd.clear()]: every position blank, cursor at home. *)
Definition lcd_clear (d : lcd_t) : lcd_t :=
  {| cursor_col := 0; cursor_row := 0;
     lcd_rows := repeat (repeat SPACE (Z.to_nat LCD_COLS)) (Z.to_nat LCD_ROWS) |}.

(** [*space_pos = 0] on the first space of the command argument: the
    argument now ends there. *)
Definition cut_data_at_space (st : machine) : machine :=
  with_XdrvMailbox
    {| command := command (XdrvMailbox st);
       data := str_before (data (XdrvMailbox st)) " ";
       data_len := data_len (XdrvMailbox st) |} st.

Section Driver_rest.

Variable BreakTime : Z -> TIME_T.

(** *** Persistent storage: loading *)

Definition HoneyVending_LoadBoxCount (st : machine) : machine :=
  let stored := settings_text st HONEY_BOX_COUNT_INDEX in
  let use_default s :=
    HoneyVending_SaveBoxCount (upd (set_box_count DEFAULT_HONEY_BOX_COUNT) s) in
  if (3 <=? strlen stored) && Ascii.eqb (char_at stored 0) "C" then
    let count := u8 (atoi (str_skip 1 stored)) in
    if (1 <=? count) && (count <=? MAX_HONEY_BOX_COUNT) then upd (set_box_count count) st
    else use_default st
  else use_default st.

(** The loop of [HoneyVending_LoadPrices] over the boxes still to fill, with
    [ptr] at the next number; when no comma follows, the boxes left get the
    default price. *)
Fixpoint LoadPrices_loop (boxes : list Z) (ptr : string) (st : machine) : machine :=
  match boxes with
  | [] => st
  | i :: rest =>
      let price := strtoul ptr 10 in
      let st := upd (fun v => set_box_price
                                (aset (box_price v) i
                                      (if 0 <? price then price else DEFAULT_PRICE_CENTS)) v) st in
      match strchr ptr "," with
      | Some p => LoadPrices_loop rest (str_skip 1 p) st
      | None =>
          for_each rest
            (fun j s => upd (fun v => set_box_price
                                        (aset (box_price v) j DEFAULT_PRICE_CENTS) v) s) st
      end
  end.

Definition HoneyVending_LoadPrices (st : machine) : machine :=
  let price_stored := settings_text st HONEY_PRICE_INDEX in
  let boxes := zrange 0 (box_count (vending st) - 1) in
  if (2 <? strlen price_stored)
     && Ascii.eqb (char_at price_stored 0) "P" && Ascii.eqb (char_at price_stored 1) ":" then
    LoadPrices_loop boxes (str_skip 2 price_stored) st
  else
    let st := for_each boxes
                (fun i s => upd (fun v => set_box_price
                                            (aset (box_price v) i DEFAULT_PRICE_CENTS) v) s) st in
    HoneyVending_SavePrices st.

(** The time-stamp loop of [HoneyVending_LoadStatus]; when no comma follows
    it stops and the boxes left keep what they have. *)
Fixpoint LoadStatus_loop (boxes : list Z) (ptr : string) (st : machine) : machine :=
  match boxes with
  | [] => st
  | i :: rest =>
      let st := upd (fun v => set_box_last_changed
                                (aset (box_last_changed v) i (strtoul ptr 10)) v) st in
      match strchr ptr "," with
      | Some p => LoadStatus_loop rest (str_skip 1 p) st
      | None => st
      end
  end.

Definition HoneyVending_LoadStatus (st : machine) : machine :=
  let stored := settings_text st HONEY_SETTINGS_INDEX in
  let boxes := zrange 0 (box_count (vending st) - 1) in
  if (5 <=? strlen stored) && Ascii.eqb (char_at stored 0) "H" then
    let packed := u32 (strtoul (str_skip 1 stored) 16) in
    let st := for_each boxes
                (fun i s => upd (fun v => set_box_status
                                            (aset (box_status v) i
                                                  (negb (Z.land packed (Z.shiftl 1 i) =? 0))) v) s)
                st in
    let ts_stored := settings_text st HONEY_TIMESTAMP_INDEX in
    if (2 <? strlen ts_stored)
       && Ascii.eqb (char_at ts_stored 0) "T" && Ascii.eqb (char_at ts_stored 1) ":" then
      LoadStatus_loop boxes (str_skip 2 ts_stored) st
    else
      for_each boxes
        (fun i s => upd (fun v => set_box_last_changed (aset (box_last_changed v) i 0) v) s) st
  else
    let st := for_each boxes
                (fun i s =>
                   let s := upd (fun v => set_box_status (aset (box_status v) i false) v) s in
                   upd (fun v => set_box_last_changed (aset (box_last_changed v) i 0) v) s) st in
    HoneyVending_SaveStatus st.

(** *** Box inventory *)

Definition HoneyVending_GetTimestamp (box_id : Z) (st : machine) : Z :=
  if (box_id <? 1) || (box_count (vending st) <? box_id) then 0
  else aget 0 (box_last_changed (vending st)) (box_id - 1).

Definition HoneyVending_ToggleStatus (box_id : Z) (st : machine) : machine :=
  if (box_id <? 1) || (box_count (vending st) <? box_id) then st else
  let new_status := negb (aget false (box_status (vending st)) (box_id - 1)) in
  HoneyVending_SetStatus BreakTime box_id new_status st.

(** *** Commands *)

Definition CmndVendingToggle (st : machine) : machine :=
  if 0 <? data_len (XdrvMailbox st) then
    let box_id := u8 (atoi (data (XdrvMailbox st))) in
    if (1 <=? box_id) && (box_id <=? box_count (vending st)) then
      let st := HoneyVending_ToggleStatus box_id st in
      let new_status := HoneyVending_GetStatus box_id st in
      let timestamp := HoneyVending_GetTimestamp box_id st in
      let price := HoneyVending_GetPrice box_id st in
      Response_P ("{" ++ quoted "Box" ++ ":" ++ fmt_d box_id ++ ","
                  ++ quoted "Status" ++ ":"
                  ++ quoted (if new_status then "AVAILABLE" else "EMPTY") ++ ","
                  ++ quoted "Price" ++ ":" ++ quoted (CentsToEuroString price 16) ++ ","
                  ++ quoted "PriceCents" ++ ":" ++ fmt_lu price ++ ","
                  ++ quoted "Timestamp" ++ ":" ++ fmt_lu timestamp ++ "}") st
    else ResponseCmndError st
  else ResponseCmndError st.

Definition CmndVendingSet (st : machine) : machine :=
  if 0 <? data_len (XdrvMailbox st) then
    match strchr (data (XdrvMailbox st)) " " with
    | Some space_pos =>
        let st := cut_data_at_space st in
        let box_id := u8 (atoi (data (XdrvMailbox st))) in
        let status := u8 (atoi (str_skip 1 space_pos)) in
        if (1 <=? box_id) && (box_id <=? box_count (vending st)) then
          ResponseCmndDone (HoneyVending_SetStatus BreakTime box_id (negb (status =? 0)) st)
        else ResponseCmndError st
    | None => ResponseCmndError st
    end
  else ResponseCmndError st.

Definition CmndVendingSetPrice (st : machine) : machine :=
  if 0 <? data_len (XdrvMailbox st) then
    match strchr (data (XdrvMailbox st)) " " with
    | Some space_pos =>
        let st := cut_data_at_space st in
        let box_id := u8 (atoi (data (XdrvMailbox st))) in
        let price_cents := u32 (atoi (str_skip 1 space_pos)) in
        if (1 <=? box_id) && (box_id <=? box_count (vending st)) then
          let st := HoneyVending_SetPrice BreakTime box_id price_cents st in
          Response_P ("{" ++ quoted "Box" ++ ":" ++ fmt_d box_id ++ ","
                      ++ quoted "Price" ++ ":" ++ quoted (CentsToEuroString price_cents 16) ++ ","
                      ++ quoted "PriceCents" ++ ":" ++ fmt_lu price_cents ++ "}") st
        else ResponseCmndError st
    | None => ResponseCmndError st
    end
  else ResponseCmndError st.

Definition CmndVendingTest (st : machine) : machine :=
  if 0 <? data_len (XdrvMailbox st) then
    let test_pulses := u32 (atoi (data (XdrvMailbox st))) in
    if 0 <? test_pulses then
      let st := upd (set_pulse_count test_pulses) st in
      let st := upd (set_last_pulse_ms (u32 (millis st - COIN_TIMEOUT_MS - 100))) st in
      ResponseCmndDone st
    else ResponseCmndError st
  else ResponseCmndError st.

(** The loop of [CmndVendingClearAll] and [CmndVendingFillAll]. *)
Definition set_all_boxes (has_honey : bool) (st : machine) : machine :=
  for_each (zrange 0 (box_count (vending st) - 1))
    (fun i s =>
       let s := upd (fun v => set_box_status (aset (box_status v) i has_honey) v) s in
       upd (fun v => set_box_last_changed (aset (box_last_changed v) i (utc_time s)) v) s) st.

Definition CmndVendingClearAll (st : machine) : machine :=
  let st := set_all_boxes false st in
  let st := HoneyVending_SaveStatus st in
  let st := HoneyVending_PublishAllBoxesMQTT BreakTime st in
  ResponseCmndDone st.

Definition CmndVendingFillAll (st : machine) : machine :=
  let st := set_all_boxes true st in
  let st := HoneyVending_SaveStatus st in
  let st := HoneyVending_PublishAllBoxesMQTT BreakTime st in
  ResponseCmndDone st.

Definition CmndVendingUnlock (st : machine) : machine :=
  if 0 <? data_len (XdrvMailbox st) then
    let box_id := u8 (atoi (data (XdrvMailbox st))) in
    if (1 <=? box_id) && (box_id <=? box_count (vending st)) then
      let st := UnlockBoxKey box_id st in
      Response_P ("{" ++ quoted "Box" ++ ":" ++ fmt_d box_id ++ ","
                  ++ quoted "Status" ++ ":" ++ quoted "Unlocked" ++ ","
                  ++ quoted "Duration" ++ ":" ++ fmt_d UNLOCK_DURATION_MS ++ "}") st
    else ResponseCmndError st
  else ResponseCmndError st.

Definition CmndVendingLock (st : machine) : machine :=
  if 0 <? data_len (XdrvMailbox st) then
    let box_id := u8 (atoi (data (XdrvMailbox st))) in
    if (1 <=? box_id) && (box_id <=? box_count (vending st)) then
      let st := LockBoxKey box_id st in
      Response_P ("{" ++ quoted "Box" ++ ":" ++ fmt_d box_id ++ ","
                  ++ quoted "Status" ++ ":" ++ quoted "Locked" ++ "}") st
    else ResponseCmndError st
  else ResponseCmndError st.

Definition CmndVendingLockAll (st : machine) : machine :=
  let st := LockAllBoxes st in
  Response_P ("{" ++ quoted "Status" ++ ":" ++ quoted "All boxes locked" ++ ","
              ++ quoted "Count" ++ ":" ++ fmt_d (box_count (vending st)) ++ "}") st.

Definition CmndVendingMotor (st : machine) : machine :=
  let usage s :=
    Response_P ("{" ++ quoted "Error" ++ ":"
                ++ quoted "Usage: VendingMotor COIN_ACCEPT|COIN_REJECT|RESET" ++ "}") s in
  if 0 <? data_len (XdrvMailbox st) then
    if strcaseeq (data (XdrvMailbox st)) "COIN_ACCEPT" then
      let st := Motor_DoAction COIN_ACCEPT st in
      Response_P ("{" ++ quoted "Motor" ++ ":" ++ quoted "COIN_ACCEPT" ++ ","
                  ++ quoted "Steps" ++ ":" ++ fmt_d MOTOR_45DEG_STEPS ++ ","
                  ++ quoted "Offset" ++ ":" ++ fmt_d (motor_position_offset st) ++ "}") st
    else if strcaseeq (data (XdrvMailbox st)) "COIN_REJECT" then
      let st := Motor_DoAction COIN_REJECT st in
      Response_P ("{" ++ quoted "Motor" ++ ":" ++ quoted "COIN_REJECT" ++ ","
                  ++ quoted "Steps" ++ ":" ++ fmt_d MOTOR_45DEG_STEPS ++ ","
                  ++ quoted "Offset" ++ ":" ++ fmt_d (motor_position_offset st) ++ "}") st
    else if strcaseeq (data (XdrvMailbox st)) "RESET" then
      let st := Motor_DoAction MOTOR_RESET st in
      Response_P ("{" ++ quoted "Motor" ++ ":" ++ quoted "RESET" ++ ","
                  ++ quoted "Offset" ++ ":" ++ fmt_d (motor_position_offset st) ++ "}") st
    else usage st
  else usage st.

Definition CmndVendingLCDWrite (st : machine) : machine :=
  let usage s :=
    Response_P ("{" ++ quoted "Error" ++ ":"
                ++ quoted "Usage: VendingLCDWrite <row 0|1> <text>" ++ "}") s in
  if 0 <? data_len (XdrvMailbox st) then
    match strchr (data (XdrvMailbox st)) " " with
    | Some space_pos =>
        let st := cut_data_at_space st in
        let row := u8 (atoi (data (XdrvMailbox st))) in
        let text := str_skip 1 space_pos in
        if row <? LCD_ROWS then
          let st := LCD_WriteText row 0 text st in
          Response_P ("{" ++ quoted "LCD" ++ ":" ++ quoted "OK" ++ ","
                      ++ quoted "Row" ++ ":" ++ fmt_d row ++ ","
                      ++ quoted "Text" ++ ":" ++ quoted text ++ "}") st
        else usage st
    | None => usage st
    end
  else usage st.

(** *** Motor, LCD and buttons: start-up and the rest *)

Definition Motor_Init (st : machine) : machine :=
  let st := gpio_emit [digitalWrite MOTOR_ENABLE_PIN HIGH] st in
  with_motor_position_offset 0 st.

Definition LCD_Init (st : machine) : machine :=
  let st := with_lcd (lcd_clear (lcd st)) st in
  let st := upd (set_lcd_initialized true) st in
  let st := LCD_WriteText 0 0 "  Honey Vending " st in
  LCD_WriteText 1 0 "   Starting...  " st.

Definition LCD_Clear (st : machine) : machine :=
  if negb (lcd_initialized (vending st)) then st else with_lcd (lcd_clear (lcd st)) st.

Definition CmndVendingLCDClear (st : machine) : machine :=
  ResponseCmndDone (LCD_Clear st).

Definition MCP23017_Init (st : machine) : machine :=
  let st := upd (set_mcp_initialized true) st in
  upd (set_last_button_state 65535) st.

Definition HoneyVending_PrintPressedButtons (st : machine) : machine :=
  if negb (mcp_initialized (vending st)) then st else
  let state := MCP23017_ReadButtons st in
  for_each (zrange 0 15)
    (fun i s =>
       if Z.land state (Z.shiftl 1 i) =? 0 then
         let button_number := u8 (i + 1) in
         LCD_WriteText 1 0 (snprintf 17 ("Button " ++ fmt_d button_number ++ " pressed ")) s
       else s) st.

Definition CmndVendingButtons (st : machine) : machine :=
  let st := HoneyVending_PrintPressedButtons st in
  let state := MCP23017_ReadButtons st in
  Response_P ("{" ++ quoted "Buttons" ++ ":" ++ quoted ("0x" ++ fmt_04X state) ++ ","
              ++ quoted "GPA" ++ ":" ++ quoted ("0x" ++ fmt_02X (u8 (Z.land state 255))) ++ ","
              ++ quoted "GPB" ++ ":"
              ++ quoted ("0x" ++ fmt_02X (u8 (Z.land (Z.shiftr state 8) 255))) ++ "}") st.

(** *** Start-up and the periodic publish *)

(** [memset(&vending, 0, sizeof(vending))] *)
Definition zero_vending : vending_t :=
  {| pulse_count := 0; last_pulse_ms := 0; first_pulse_ms := 0;
     total_cents := 0; last_coin_cents := 0; coins_detected := 0;
     honey_available := false; initialized := false;
     box_count := 0; selected_box_id := 0;
     box_status := repeat false (Z.to_nat MAX_HONEY_BOX_COUNT);
     box_price := repeat 0 (Z.to_nat MAX_HONEY_BOX_COUNT);
     box_last_changed := repeat 0 (Z.to_nat MAX_HONEY_BOX_COUNT);
     last_publish_ms := 0; discovery_sent := false; device_id := 0;
     shift_reg_state := repeat 0 (Z.to_nat NUM_SHIFT_REGISTERS);
     unlock_start_ms := 0; unlocked_box_id := 0;
     lcd_initialized := false; mcp_initialized := false; last_button_state := 0 |}.

(** [chip_id] is what [ESP.getEfuseMac()] returns. *)
Definition HoneyVending_Init (chip_id : Z) (st : machine) : machine :=
  let st := with_vending zero_vending st in
  let st := upd (set_device_id (u32 (Z.land chip_id 65535))) st in
  let st := upd (set_initialized true) st in
  let st := HoneyVending_LoadBoxCount st in
  let st := HoneyVending_LoadStatus st in
  let st := HoneyVending_LoadPrices st in
  let st := ShiftReg_Init st in
  let st := Motor_Init st in
  let st := LCD_Init st in
  MCP23017_Init st.

(** The static [last_periodic_check] goes in and comes out. *)
Definition HoneyVending_Every250ms (last_periodic_check : Z) (st : machine) : Z * machine :=
  if negb (initialized (vending st)) then (last_periodic_check, st) else
  if negb (MqttIsConnected st) then (last_periodic_check, st) else
  let now := millis st in
  if u32 (now - last_periodic_check) <? 250 then (last_periodic_check, st) else
  if HONEY_PUBLISH_INTERVAL <=? u32 (now - last_publish_ms (vending st)) then
    (now, HoneyVending_PublishSystemMQTT
            (HoneyVending_PublishAllBoxesMQTT BreakTime st))
  else (now, st).

Definition HoneyVending_MqttConnected (st : machine) : machine :=
  if negb (initialized (vending st)) then st else
  let st := if negb (discovery_sent (vending st))
            then HoneyVending_PublishDiscovery st else st in
  let st := HoneyVending_PublishAllBoxesMQTT BreakTime st in
  HoneyVending_PublishSystemMQTT st.

End Driver_rest.

(** ** Definitions for the statements about the rest of the driver *)

(** Every byte of a string passes a test. *)
Fixpoint all_chars (P : ascii -> bool) (s : string) : bool :=
  match s with
  | EmptyString => true
  | String c rest => P c && all_chars P rest
  end.

(** The digits [%lX] prints. *)
Definition is_HEX (c : ascii) : bool :=
  let n := nat_of_ascii c in
  ((48 <=? n)%nat && (n <=? 57)%nat) || ((65 <=? n)%nat && (n <=? 70)%nat).

(** The first byte of a string, if any, passes a test. *)
Definition head_is (P : ascii -> bool) (s : string) : bool :=
  match s with
  | EmptyString => false
  | String c _ => P c
  end.

(** The stock a machine keeps across a restart: how many boxes, and for
    each box whether it holds honey, its price and when it last changed. *)
Definition inventory (v : vending_t) : Z * list bool * list Z * list Z :=
  (box_count v, box_status v, box_price v, box_last_changed v).

(** Everything the save functions write, saved. *)
Definition save_all (st : machine) : machine :=
  HoneyVending_SavePrices (HoneyVending_SaveStatus (HoneyVending_SaveBoxCount st)).

(** The machine with the tables and the settings store replaced. *)
Definition with_inventory (n : Z) (s : list bool) (p c : list Z) (txt fl : Z -> string)
    (st : machine) : machine :=
  with_settings_flash fl
    (with_settings_text txt
       (upd (fun v => set_box_last_changed c (set_box_price p
                        (set_box_status s (set_box_count n v)))) st)).

(** What the lock functions read and write: the mirror, the tracked box,
    the start of the unlock, the box count and the output pins. *)
Definition lock_view (st : machine) : list Z * Z * Z * Z * list gpio_event :=
  (shift_reg_state (vending st), unlocked_box_id (vending st),
   unlock_start_ms (vending st), box_count (vending st), gpio st).

(** One thing that happens to the machine while the box count stays as it
    is: the host changes what it supplies (clock, mailbox, connection, port
    reading, response buffer), the pulse interrupt fires, a tick runs, or
    one of the console commands that do not drive the motor runs. *)
Inductive step (BreakTime : Z -> TIME_T) : machine -> machine -> Prop :=
  | step_host st st' : vending st' = vending st -> gpio st' = gpio st -> step BreakTime st st'
  | step_pulse st : step BreakTime st (HoneyVending_PulseISR st)
  | step_tick st : step BreakTime st (HoneyVending_Every100ms BreakTime st)
  | step_unlock st : step BreakTime st (CmndVendingUnlock st)
  | step_lock st : step BreakTime st (CmndVendingLock st)
  | step_lock_all st : step BreakTime st (CmndVendingLockAll st)
  | step_select st : step BreakTime st (CmndVendingSelectBox st)
  | step_reset st : step BreakTime st (CmndVendingReset st)
  | step_toggle st : step BreakTime st (CmndVendingToggle BreakTime st)
  | step_set st : step BreakTime st (CmndVendingSet BreakTime st)
  | step_set_price st : step BreakTime st (CmndVendingSetPrice BreakTime st)
  | step_clear_all st : step BreakTime st (CmndVendingClearAll BreakTime st)
  | step_fill_all st : step BreakTime st (CmndVendingFillAll BreakTime st)
  | step_test st : step BreakTime st (CmndVendingTest st)
  | step_lcd_write st : step BreakTime st (CmndVendingLCDWrite st)
  | step_lcd_clear st : step BreakTime st (CmndVendingLCDClear st)
  | step_buttons st : step BreakTime st (CmndVendingButtons st).

Inductive steps (BreakTime : Z -> TIME_T) : machine -> machine -> Prop :=
  | steps_none st : steps BreakTime st st
  | steps_more st st1 st2 :
      steps BreakTime st st1 -> step BreakTime st1 st2 -> steps BreakTime st st2.

(** A move that keeps the lock invariant and the box count and shifts out
    only mirrors with at most one line unlocked. *)
Definition lock_safe (st st' : machine) : Prop :=
  lock_inv st'
  /\ box_count (vending st') = box_count (vending st)
  /\ exists frames,
       gpio st' = (gpio st ++ latched frames)%list
       /\ Forall at_most_one_unlocked frames.

(** The sample machine with nothing in the settings store for the box
    count: a first start. *)
Definition first_start_sample : machine := sample_machine.

(** The sample machine with box 3 sold out at a known time and box 5 at 7.50. *)
Definition stocked_sample : machine :=
  upd (fun v => set_box_price (aset (box_price v) 4 750)
                 (set_box_last_changed (aset (box_last_changed v) 2 1700000000)
                    (set_box_status (aset (box_status v) 2 false) v))) sample_machine.

(** The pulse interrupt at clock reading [t]. *)
Definition pulse_at (st : machine) (t : Z) : machine :=
  HoneyVending_PulseISR (with_millis t st).

(** A coin as the acceptor signals it: a train of pulses, each a falling
    edge at its clock reading followed by the readings at which the contact
    bounced and the interrupt fired again. *)
Definition edges (train : list (Z * list Z)) : list Z :=
  flat_map (fun p => fst p :: snd p) train.

Definition pulses (times : list Z) (st : machine) : machine := fold_left pulse_at times st.

(** The pulses are at least the debounce time apart and every bounce comes
    less than the debounce time after its pulse; [prev] is the pulse before
    the train, if any.  The clock does not wrap during the train. *)
Fixpoint well_spaced (prev : option Z) (train : list (Z * list Z)) : Prop :=
  match train with
  | [] => True
  | (t, bounces) :: rest =>
      0 <= t /\ t + PULSE_DEBOUNCE_MS <= 4294967296
      /\ match prev with
         | Some p => p + PULSE_DEBOUNCE_MS <= t
         | None => True
         end
      /\ Forall (fun b => t <= b < t + PULSE_DEBOUNCE_MS) bounces
      /\ well_spaced (Some t) rest
  end.

(** The clock reading of the last pulse of a train. *)
Definition last_edge (train : list (Z * list Z)) : Z :=
  fst (last train (0, [])).

(** A ten-pulse coin with a bounce after the first and the fourth pulse. *)
Definition euro_train : list (Z * list Z) :=
  [(1000, [1001; 1003]); (1100, []); (1200, []); (1300, [1304]); (1400, []);
   (1500, []); (1600, []); (1700, []); (1800, []); (1900, [])].

(** A display with its two rows of sixteen characters. *)
Definition wf_lcd (d : lcd_t) : Prop :=
  List.length (lcd_rows d) = 2%nat
  /\ forall r, 0 <= r < LCD_ROWS -> List.length (aget [] (lcd_rows d) r) = 16%nat.

(** The text holds no NUL byte, as every C string. *)
Definition no_nul (text : string) : bool := all_chars (fun c => negb (is_nul c)) text.

(** What [HoneyVending_Every100ms] and [HoneyVending_PrintPressedButtons]
    write on the bottom row for a button. *)
Definition button_text (button_number : Z) : string :=
  snprintf 17 ("Button " ++ fmt_d button_number ++ " pressed ").

(** What the stock functions read and write: the tables and the settings
    store, in RAM and as last written to flash. *)
Definition stock_view (st : machine)
  : (Z * list bool * list Z * list Z) * (Z -> string) * (Z -> string) :=
  (inventory (vending st), settings_text st, settings_flash st).

(** The settings store holds what the save functions write for the tables
    as they are, and the copy in flash is up to date. *)
Definition store_matches (st : machine) : Prop :=
  let v := vending st in
  settings_text st HONEY_BOX_COUNT_INDEX = snprintf 10 ("C" ++ fmt_02d (box_count v))
  /\ settings_text st HONEY_SETTINGS_INDEX = status_text v
  /\ settings_text st HONEY_TIMESTAMP_INDEX = timestamp_text v
  /\ settings_text st HONEY_PRICE_INDEX = price_text v
  /\ forall i, settings_flash st i = settings_text st i.

(** The topics of everything published so far, oldest first. *)
Definition published_topics (st : machine) : list string := map topic (mqtt_published st).

(** The topics of one full state publish: every configured box, then the
    summary, then the system state. *)
Definition state_topics (v : vending_t) : list string :=
  (map (box_topic (device_id v)) (zrange 1 (box_count v))
   ++ [summary_topic (device_id v); system_topic (device_id v)])%list.

(** The topics of the Home Assistant discovery: one configuration per box,
    then the two sensors. *)
Definition discovery_topics (st : machine) : list string :=
  let name := device_name st in
  (map (discovery_box_topic name) (zrange 1 (box_count (vending st)))
   ++ [snprintf 128 ("homeassistant/sensor/" ++ name ++ "_boxes_available/config");
       snprintf 128 ("homeassistant/sensor/" ++ name ++ "_vending_total/config")])%list.

(** ** Basic facts *)

Section Proofs.

Variable BreakTime : Z -> TIME_T.

Lemma u32_small x : 0 <= x < 4294967296 -> u32 x = x.
Proof. intros H. unfold u32. apply Z.mod_small. exact H. Qed.

Lemma u32_range x : 0 <= u32 x < 4294967296.
Proof. unfold u32. apply Z.mod_pos_bound. lia. Qed.

Lemma u8_small x : 0 <= x < 256 -> u8 x = x.
Proof. intros H. unfold u8. apply Z.mod_small. exact H. Qed.

Lemma u16_small x : 0 <= x < 65536 -> u16 x = x.
Proof. intros H. unfold u16. apply Z.mod_small. exact H. Qed.

Lemma u16_small_abs x y : 0 <= x < 65536 -> x = Z.abs y -> u16 x = Z.abs y.
Proof. intros H E. rewrite <- E. apply u16_small. exact H. Qed.

Lemma i16_small x : -32768 <= x <= 32767 -> i16 x = x.
Proof. intros H. unfold i16. rewrite Z.mod_small by lia. lia. Qed.

Lemma u32_elapsed T d :
  0 <= T < 4294967296 -> 0 <= d < 4294967296 -> u32 (u32 (T + d) - T) = d.
Proof.
  intros HT Hd. unfold u32.
  rewrite Zminus_mod_idemp_l.
  replace (T + d - T) with d by lia.
  apply Z.mod_small. exact Hd.
Qed.

Lemma aset_nat_length {A} (l : list A) i x : List.length (aset_nat l i x) = List.length l.
Proof.
  revert i. induction l as [|h t IH]; intros [|i]; simpl; try reflexivity.
  rewrite IH. reflexivity.
Qed.

Lemma aset_nat_same {A} (d : A) l i x :
  (i < List.length l)%nat -> nth i (aset_nat l i x) d = x.
Proof.
  revert i. induction l as [|h t IH]; intros [|i] H; simpl in *; try lia; try reflexivity.
  apply IH. lia.
Qed.

Lemma aset_nat_other {A} (d : A) l i j x :
  i <> j -> nth j (aset_nat l i x) d = nth j l d.
Proof.
  revert i j. induction l as [|h t IH]; intros [|i] [|j] H; simpl; try reflexivity;
    try congruence.
  apply IH. congruence.
Qed.

Lemma aset_length {A} (l : list A) i x : List.length (aset l i x) = List.length l.
Proof. unfold aset. destruct (i <? 0); [reflexivity | apply aset_nat_length]. Qed.

Lemma aget_aset_same {A} (d : A) l i x :
  0 <= i < Z.of_nat (List.length l) -> aget d (aset l i x) i = x.
Proof.
  intros H. unfold aget, aset.
  destruct (Z.ltb_spec i 0); [lia|].
  apply aset_nat_same. lia.
Qed.

Lemma aget_aset_other {A} (d : A) l i j x :
  0 <= i -> 0 <= j -> i <> j -> aget d (aset l i x) j = aget d l j.
Proof.
  intros Hi Hj H. unfold aget, aset.
  destruct (Z.ltb_spec i 0); [lia|].
  apply aset_nat_other. lia.
Qed.

Lemma for_each_app l1 l2 body st :
  for_each (l1 ++ l2)%list body st = for_each l2 body (for_each l1 body st).
Proof. unfold for_each. apply fold_left_app. Qed.

Lemma zrange_empty a b : b < a -> zrange a b = [].
Proof. intros H. unfold zrange. replace (Z.to_nat (b + 1 - a)) with 0%nat by lia. reflexivity. Qed.

Lemma zrange_cons a b : a <= b -> zrange a b = a :: zrange (a + 1) b.
Proof.
  intros H. unfold zrange.
  replace (Z.to_nat (b + 1 - a)) with (S (Z.to_nat (b + 1 - (a + 1)))) by lia.
  simpl. f_equal; [lia|].
  rewrite <- seq_shift, map_map. apply map_ext. intros k. lia.
Qed.

Lemma In_zrange a b k : In k (zrange a b) <-> a <= k <= b.
Proof.
  unfold zrange. rewrite in_map_iff. split.
  - intros [n [<- Hn]]. apply in_seq in Hn. lia.
  - intros H. exists (Z.to_nat (k - a)). split; [lia|]. apply in_seq. lia.
Qed.

Lemma PulsesToCents_zero p :
  p <> 1 -> p <> 2 -> p <> 5 -> p <> 10 -> p <> 20 -> PulsesToCents p = 0.
Proof.
  intros H1 H2 H5 H10 H20.
  destruct p as [|q|q]; try reflexivity.
  unfold PulsesToCents.
  repeat (destruct q as [q|q|]; try reflexivity; try congruence).
Qed.

(** ** What each function may change *)

Lemma with_lcd_eta st : st = with_lcd (lcd st) st.
Proof. destruct st; reflexivity. Qed.

Lemma with_locks_eta st :
  st = with_locks (shift_reg_state (vending st)) (unlocked_box_id (vending st))
                  (unlock_start_ms (vending st)) (gpio st) st.
Proof. destruct st as [v]; destruct v; reflexivity. Qed.

Lemma LCD_WriteText_shape row col text st :
  exists d, LCD_WriteText row col text st = with_lcd d st.
Proof.
  unfold LCD_WriteText.
  destruct (negb (lcd_initialized (vending st))); [exists (lcd st); apply with_lcd_eta|].
  destruct ((LCD_ROWS <=? row) || (LCD_COLS <=? col)); [exists (lcd st); apply with_lcd_eta|].
  eexists; reflexivity.
Qed.

Lemma for_each_lcd_shape l body :
  (forall i s, exists d, body i s = with_lcd d s) ->
  forall st, exists d, for_each l body st = with_lcd d st.
Proof.
  intros Hbody. induction l as [|i l IH]; intros st.
  - exists (lcd st). apply with_lcd_eta.
  - change (for_each (i :: l) body st) with (for_each l body (body i st)).
    destruct (Hbody i st) as [d1 ->]. destruct (IH (with_lcd d1 st)) as [d2 ->].
    exists d2. reflexivity.
Qed.

Lemma button_step_shape st :
  exists d b, button_step st = upd (set_last_button_state b) (with_lcd d st).
Proof.
  unfold button_step.
  destruct (mcp_initialized (vending st)).
  - set (np := u16 _).
    destruct (negb (np =? 0)).
    + match goal with |- context [for_each ?l ?body st] =>
        destruct (for_each_lcd_shape l body) with (st := st) as [d ->] end.
      * intros i s. destruct (negb _); [apply LCD_WriteText_shape|].
        exists (lcd s). apply with_lcd_eta.
      * eexists; eexists; reflexivity.
    + exists (lcd st). eexists.
      rewrite (with_lcd_eta st) at 1. reflexivity.
  - exists (lcd st), (last_button_state (vending st)).
    destruct st as [v]; destruct v; reflexivity.
Qed.

Lemma ShiftReg_SetBit_eq bit state st :
  ShiftReg_SetBit bit state st
  = if NUM_SHIFT_REGISTERS * 8 <=? bit then st
    else
      let regs := mirror_set (shift_reg_state (vending st)) bit state in
      with_locks regs (unlocked_box_id (vending st)) (unlock_start_ms (vending st))
                 (gpio st ++ ShiftReg_Write_events regs NUM_SHIFT_REGISTERS)%list st.
Proof.
  unfold ShiftReg_SetBit.
  destruct (NUM_SHIFT_REGISTERS * 8 <=? bit); [reflexivity|].
  destruct st as [v]; destruct v. reflexivity.
Qed.

Lemma ShiftReg_SetBit_shape bit state st :
  exists regs evs,
    ShiftReg_SetBit bit state st
    = with_locks regs (unlocked_box_id (vending st)) (unlock_start_ms (vending st)) evs st.
Proof.
  rewrite ShiftReg_SetBit_eq.
  destruct (NUM_SHIFT_REGISTERS * 8 <=? bit).
  - eexists; eexists. apply with_locks_eta.
  - eexists; eexists. reflexivity.
Qed.

Lemma LockBoxKey_shape box_id st :
  exists regs u s evs, LockBoxKey box_id st = with_locks regs u s evs st.
Proof.
  unfold LockBoxKey.
  destruct ((box_id <? 1) || (box_count (vending st) <? box_id)).
  - do 4 eexists. apply with_locks_eta.
  - destruct (ShiftReg_SetBit_shape (u8 (box_id - 1)) (negb SOLENOID_ACTIVE_HIGH) st)
      as [regs [evs ->]].
    destruct (_ =? _); do 4 eexists; reflexivity.
Qed.

Lemma UnlockBoxKey_shape box_id st :
  exists regs u s evs, UnlockBoxKey box_id st = with_locks regs u s evs st.
Proof.
  unfold UnlockBoxKey.
  destruct ((box_id <? 1) || (box_count (vending st) <? box_id)).
  { do 4 eexists. apply with_locks_eta. }
  destruct (NUM_SHIFT_REGISTERS * 8 <? box_id).
  { do 4 eexists. apply with_locks_eta. }
  destruct (0 <? unlocked_box_id (vending st)).
  - destruct (LockBoxKey_shape (unlocked_box_id (vending st)) st) as [r [u [s [e ->]]]].
    destruct (ShiftReg_SetBit_shape (u8 (box_id - 1)) SOLENOID_ACTIVE_HIGH
                (with_locks r u s e st)) as [regs [evs ->]].
    do 4 eexists. reflexivity.
  - destruct (ShiftReg_SetBit_shape (u8 (box_id - 1)) SOLENOID_ACTIVE_HIGH st)
      as [regs [evs ->]].
    do 4 eexists. reflexivity.
Qed.

Lemma CheckUnlockTimeout_shape st :
  exists regs u s evs, CheckUnlockTimeout st = with_locks regs u s evs st.
Proof.
  unfold CheckUnlockTimeout.
  destruct (0 <? unlocked_box_id (vending st)); [|do 4 eexists; apply with_locks_eta].
  destruct (UNLOCK_DURATION_MS <=? _); [apply LockBoxKey_shape|].
  do 4 eexists; apply with_locks_eta.
Qed.

(** ** The pulse decoder (C2) *)

Lemma coin_step_unknown now st :
  PulsesToCents (pulse_count (vending st)) = 0 ->
  coin_step BreakTime now st = st \/ coin_step BreakTime now st = upd (set_pulse_count 0) st.
Proof.
  intros H. unfold coin_step. rewrite H. simpl.
  destruct (_ && _); [right | left]; reflexivity.
Qed.

(** C2. The decoder maps 1, 2, 5, 10 and 20 pulses to 10, 20, 50, 100 and 200
    cents and every other count between 0 and 100 to 0; a tick that meets a
    pulse count decoding to 0 leaves the session total and the coin counter
    as they were. *)
Theorem C2_pulse_decoding (p : Z) (st : machine) :
  0 <= p <= 100 ->
  pulse_count (vending st) = p ->
  (PulsesToCents 1 = 10 /\ PulsesToCents 2 = 20 /\ PulsesToCents 5 = 50
   /\ PulsesToCents 10 = 100 /\ PulsesToCents 20 = 200)
  /\ (p <> 1 -> p <> 2 -> p <> 5 -> p <> 10 -> p <> 20 ->
      PulsesToCents p = 0
      /\ total_cents (vending (HoneyVending_Every100ms BreakTime st)) = total_cents (vending st)
      /\ coins_detected (vending (HoneyVending_Every100ms BreakTime st))
         = coins_detected (vending st)).
Proof.
  intros Hp Hst. split; [repeat split; reflexivity|].
  intros H1 H2 H5 H10 H20.
  assert (Hz : PulsesToCents p = 0) by (apply PulsesToCents_zero; assumption).
  split; [exact Hz|].
  unfold HoneyVending_Every100ms.
  destruct (negb (initialized (vending st))); [split; reflexivity|].
  destruct (u32 (millis st - last_check st) <? 100); [split; reflexivity|].
  destruct (CheckUnlockTimeout_shape (with_last_check (millis st) st)) as [r [u [s [e ->]]]].
  set (st1 := with_locks r u s e (with_last_check (millis st) st)).
  assert (Hp1 : PulsesToCents (pulse_count (vending st1)) = 0).
  { subst st1. simpl. rewrite Hst. exact Hz. }
  destruct (button_step_shape (coin_step BreakTime (millis st) st1)) as [d [b ->]].
  destruct (coin_step_unknown (millis st) st1 Hp1) as [-> | ->]; split; reflexivity.
Qed.

(** ** Reset and deselection (C5) *)

Lemma PublishSystemMQTT_vending st :
  vending (HoneyVending_PublishSystemMQTT st) = vending st.
Proof.
  unfold HoneyVending_PublishSystemMQTT.
  destruct (negb (MqttIsConnected st)); reflexivity.
Qed.

Lemma CmndVendingReset_vending st :
  vending (CmndVendingReset st)
  = set_selected_box_id 0 (set_pulse_count 0 (set_honey_available false
      (set_coins_detected 0 (set_total_cents 0 (vending st))))).
Proof.
  unfold CmndVendingReset, ResponseCmndDone, Response_P.
  simpl. rewrite PublishSystemMQTT_vending. reflexivity.
Qed.

Lemma CmndVendingSelectBox_deselect st :
  names_a_box st = false ->
  vending (CmndVendingSelectBox st)
  = set_honey_available false (set_coins_detected 0 (set_total_cents 0
      (set_selected_box_id 0 (vending st)))).
Proof.
  unfold names_a_box, CmndVendingSelectBox. intros H.
  destruct (0 <? data_len (XdrvMailbox st)); [|reflexivity].
  simpl in H. rewrite H. reflexivity.
Qed.

(** C5, as the code has it.  VendingReset zeroes the total, the coin counter,
    the pulse counter, the honey flag and the selected box, whatever the
    command argument.  VendingSelectBox with no valid box argument zeroes the
    total, the coin counter, the honey flag and the selected box, and leaves
    the pulse counter as it is. *)
Theorem C5_reset_and_deselect (st : machine) :
  let r := vending (CmndVendingReset st) in
  let d := vending (CmndVendingSelectBox st) in
  (total_cents r = 0 /\ coins_detected r = 0 /\ pulse_count r = 0
   /\ honey_available r = false /\ selected_box_id r = 0)
  /\ (names_a_box st = false ->
      total_cents d = 0 /\ coins_detected d = 0 /\ honey_available d = false
      /\ selected_box_id d = 0 /\ pulse_count d = pulse_count (vending st)).
Proof.
  intros r d. subst r d. split.
  - rewrite CmndVendingReset_vending. repeat split; reflexivity.
  - intros H. rewrite (CmndVendingSelectBox_deselect st H). repeat split; reflexivity.
Qed.

(** ** Price bounds (C8) *)

Lemma PublishBoxMQTT_vending box_id st :
  vending (HoneyVending_PublishBoxMQTT BreakTime box_id st) = vending st.
Proof.
  unfold HoneyVending_PublishBoxMQTT.
  destruct (_ || _); [reflexivity|].
  destruct (negb _); reflexivity.
Qed.

Lemma PublishBoxMQTT_settings box_id st :
  settings_flash (HoneyVending_PublishBoxMQTT BreakTime box_id st) = settings_flash st
  /\ settings_text (HoneyVending_PublishBoxMQTT BreakTime box_id st) = settings_text st.
Proof.
  unfold HoneyVending_PublishBoxMQTT.
  destruct (_ || _); [split; reflexivity|].
  destruct (negb _); split; reflexivity.
Qed.

Lemma PublishBoxMQTT_connected box_id st :
  1 <= box_id <= box_count (vending st) ->
  MqttIsConnected st = true ->
  mqtt_published (HoneyVending_PublishBoxMQTT BreakTime box_id st)
  = (mqtt_published st
     ++ [ {| topic := box_topic (device_id (vending st)) box_id;
             payload := box_json BreakTime (vending st) box_id;
             retained := true |} ])%list.
Proof.
  intros Hb Hc. unfold HoneyVending_PublishBoxMQTT.
  destruct (Z.ltb_spec box_id 1); [lia|].
  destruct (Z.ltb_spec (box_count (vending st)) box_id); [lia|].
  rewrite Hc. reflexivity.
Qed.

(** C8. With a box id in range, a price under 10 or over 10000 cents changes
    nothing at all: the price table, the settings store and the list of
    published messages stay as they were.  A price from 10 to 10000, the two
    bounds included, is stored, saved to the price slot and published. *)
Theorem C8_price_bounds (box_id price_cents : Z) (st : machine) :
  1 <= box_id <= box_count (vending st) ->
  let st' := HoneyVending_SetPrice BreakTime box_id price_cents st in
  (price_cents < 10 \/ 10000 < price_cents -> st' = st)
  /\ (10 <= price_cents <= 10000 ->
      box_id <= Z.of_nat (List.length (box_price (vending st))) ->
      aget 0 (box_price (vending st')) (box_id - 1) = price_cents
      /\ settings_flash st' HONEY_PRICE_INDEX = price_text (vending st')
      /\ (MqttIsConnected st = true ->
          mqtt_published st'
          = (mqtt_published st
             ++ [ {| topic := box_topic (device_id (vending st)) box_id;
                     payload := box_json BreakTime (vending st') box_id;
                     retained := true |} ])%list)).
Proof.
  intros Hb st'. subst st'. unfold HoneyVending_SetPrice.
  destruct (Z.ltb_spec box_id 1); [lia|].
  destruct (Z.ltb_spec (box_count (vending st)) box_id); [lia|].
  simpl. split.
  - intros [Hlo | Hhi].
    + destruct (Z.ltb_spec price_cents 10); [reflexivity | lia].
    + destruct (Z.ltb_spec price_cents 10); [reflexivity|].
      destruct (Z.ltb_spec 10000 price_cents); [reflexivity | lia].
  - intros Hp Hlen.
    destruct (Z.ltb_spec price_cents 10); [lia|].
    destruct (Z.ltb_spec 10000 price_cents); [lia|].
    simpl.
    rewrite PublishBoxMQTT_vending.
    destruct (PublishBoxMQTT_settings box_id
                (HoneyVending_SavePrices
                   (upd (fun v => set_box_price
                                    (aset (box_price v) (box_id - 1) price_cents) v) st)))
      as [Hflash _].
    rewrite Hflash.
    split; [|split].
    + simpl. apply aget_aset_same. lia.
    + reflexivity.
    + intros Hc. rewrite PublishBoxMQTT_connected; [reflexivity | simpl; lia | exact Hc].
Qed.

(** ** The coin gate (C9) *)

Lemma Motor_Rotate_gpio steps clockwise st :
  steps <> 0 ->
  Motor_Rotate steps clockwise st = gpio_emit (Motor_Rotate_events steps clockwise) st.
Proof.
  intros H. unfold Motor_Rotate. destruct (Z.eqb_spec steps 0); [contradiction | reflexivity].
Qed.

Lemma Motor_reset_offset st : motor_position_offset (Motor_DoAction MOTOR_RESET st) = 0.
Proof.
  unfold Motor_DoAction.
  destruct (Z.eqb_spec (motor_position_offset st) 0) as [H | H]; [exact H | reflexivity].
Qed.

Lemma Motor_accept_offset st :
  motor_position_offset (Motor_DoAction COIN_ACCEPT st) = i16 (motor_position_offset st - 25).
Proof. reflexivity. Qed.

Lemma Motor_reject_offset st :
  motor_position_offset (Motor_DoAction COIN_REJECT st) = i16 (motor_position_offset st + 25).
Proof. reflexivity. Qed.

(** After [n] accepts from home the gate stands at [-25 n], as long as that
    fits the 16-bit offset. *)
Lemma accepts_from_home (n : nat) st :
  motor_position_offset st = 0 ->
  (n <= 1310)%nat ->
  motor_position_offset (Nat.iter n (Motor_DoAction COIN_ACCEPT) st) = - 25 * Z.of_nat n.
Proof.
  intros H0. induction n as [|n IH]; intros Hn.
  - simpl. exact H0.
  - rewrite Nat.iter_succ, Motor_accept_offset, IH by lia.
    rewrite i16_small by lia. lia.
Qed.

(** C9, as the code has it.  The offset is a 16-bit signed number.  Accept
    turns 25 steps left and subtracts exactly 25 as long as the result is not
    below -32768; reject turns 25 steps right and adds exactly 25 as long as
    the result is not above 32767.  Reset turns by the absolute value of a
    non-zero offset against its sign and leaves the offset at 0; at offset 0 it
    does nothing.  Any sequence of actions followed by reset ends at 0. *)
Theorem C9_motor_actions (st : machine) (actions : list MotorAction_t) :
  -32768 <= motor_position_offset st <= 32767 ->
  let off := motor_position_offset st in
  (-32768 <= off - 25 ->
   motor_position_offset (Motor_DoAction COIN_ACCEPT st) = off - 25)
  /\ gpio (Motor_DoAction COIN_ACCEPT st) = (gpio st ++ Motor_Rotate_events 25 false)%list
  /\ (off + 25 <= 32767 ->
      motor_position_offset (Motor_DoAction COIN_REJECT st) = off + 25)
  /\ gpio (Motor_DoAction COIN_REJECT st) = (gpio st ++ Motor_Rotate_events 25 true)%list
  /\ motor_position_offset (Motor_DoAction MOTOR_RESET st) = 0
  /\ (off <> 0 ->
      gpio (Motor_DoAction MOTOR_RESET st)
      = (gpio st ++ Motor_Rotate_events (Z.abs off) (off <? 0))%list)
  /\ (off = 0 -> Motor_DoAction MOTOR_RESET st = st)
  /\ motor_position_offset (Motor_DoAction MOTOR_RESET (motor_actions actions st)) = 0.
Proof.
  intros Hr off. subst off.
  split; [|split; [|split; [|split; [|split; [|split; [|split]]]]]].
  - intros H. rewrite Motor_accept_offset. apply i16_small. lia.
  - reflexivity.
  - intros H. rewrite Motor_reject_offset. apply i16_small. lia.
  - reflexivity.
  - apply Motor_reset_offset.
  - intros H. unfold Motor_DoAction.
    destruct (Z.eqb_spec (motor_position_offset st) 0); [contradiction|].
    assert (Hs : u16 (if motor_position_offset st <? 0
                      then - motor_position_offset st else motor_position_offset st)
                 = Z.abs (motor_position_offset st)).
    { destruct (Z.ltb_spec (motor_position_offset st) 0); apply u16_small_abs; lia. }
    rewrite Hs, Motor_Rotate_gpio by lia.
    simpl. do 2 f_equal.
    destruct (Z.ltb_spec 0 (motor_position_offset st));
      destruct (Z.ltb_spec (motor_position_offset st) 0); try reflexivity; lia.
  - intros H. unfold Motor_DoAction. rewrite H. reflexivity.
  - apply Motor_reset_offset.
Qed.

(** ** Locks: what [LockBoxKey] and [UnlockBoxKey] do *)

Lemma LockBoxKey_beyond_count box_id st :
  box_count (vending st) < box_id -> LockBoxKey box_id st = st.
Proof.
  intros H. unfold LockBoxKey.
  destruct (Z.ltb_spec (box_count (vending st)) box_id); [|lia].
  rewrite orb_true_r. reflexivity.
Qed.

Lemma LockBoxKey_in_range box_id st :
  1 <= box_id <= box_count (vending st) ->
  box_id <= NUM_SHIFT_REGISTERS * 8 ->
  LockBoxKey box_id st
  = let regs := mirror_set (shift_reg_state (vending st)) (box_id - 1) false in
    let same := unlocked_box_id (vending st) =? box_id in
    with_locks regs
      (if same then 0 else unlocked_box_id (vending st))
      (if same then 0 else unlock_start_ms (vending st))
      (gpio st ++ ShiftReg_Write_events regs NUM_SHIFT_REGISTERS)%list st.
Proof.
  intros Hb Hcap. unfold LockBoxKey. unfold NUM_SHIFT_REGISTERS in Hcap.
  destruct (Z.ltb_spec box_id 1); [lia|].
  destruct (Z.ltb_spec (box_count (vending st)) box_id); [lia|].
  simpl orb. cbv iota.
  rewrite (u8_small (box_id - 1)) by lia.
  rewrite ShiftReg_SetBit_eq.
  destruct (Z.leb_spec (NUM_SHIFT_REGISTERS * 8) (box_id - 1));
    [unfold NUM_SHIFT_REGISTERS in *; lia|].
  simpl.
  destruct (unlocked_box_id (vending st) =? box_id); reflexivity.
Qed.

Lemma UnlockBoxKey_fresh box_id st :
  1 <= box_id <= box_count (vending st) ->
  box_id <= NUM_SHIFT_REGISTERS * 8 ->
  unlocked_box_id (vending st) = 0 ->
  UnlockBoxKey box_id st
  = let regs := mirror_set (shift_reg_state (vending st)) (box_id - 1) true in
    with_locks regs box_id (millis st)
      (gpio st ++ ShiftReg_Write_events regs NUM_SHIFT_REGISTERS)%list st.
Proof.
  intros Hb Hcap Hu. unfold UnlockBoxKey. unfold NUM_SHIFT_REGISTERS in Hcap.
  destruct (Z.ltb_spec box_id 1); [lia|].
  destruct (Z.ltb_spec (box_count (vending st)) box_id); [lia|].
  simpl orb. cbv iota.
  destruct (Z.ltb_spec (NUM_SHIFT_REGISTERS * 8) box_id);
    [unfold NUM_SHIFT_REGISTERS in *; lia|].
  rewrite Hu. simpl (0 <? 0). cbv iota.
  rewrite (u8_small (box_id - 1)) by lia.
  rewrite ShiftReg_SetBit_eq.
  destruct (Z.leb_spec (NUM_SHIFT_REGISTERS * 8) (box_id - 1));
    [unfold NUM_SHIFT_REGISTERS in *; lia|].
  reflexivity.
Qed.

Lemma UnlockBoxKey_after_lock box_id st :
  1 <= box_id <= box_count (vending st) ->
  box_id <= NUM_SHIFT_REGISTERS * 8 ->
  0 < unlocked_box_id (vending st) ->
  UnlockBoxKey box_id st
  = let st1 := LockBoxKey (unlocked_box_id (vending st)) st in
    let regs := mirror_set (shift_reg_state (vending st1)) (box_id - 1) true in
    with_locks regs box_id (millis st)
      (gpio st1 ++ ShiftReg_Write_events regs NUM_SHIFT_REGISTERS)%list st.
Proof.
  intros Hb Hcap Hu. unfold UnlockBoxKey. unfold NUM_SHIFT_REGISTERS in Hcap.
  destruct (Z.ltb_spec box_id 1); [lia|].
  destruct (Z.ltb_spec (box_count (vending st)) box_id); [lia|].
  simpl orb. cbv iota.
  destruct (Z.ltb_spec (NUM_SHIFT_REGISTERS * 8) box_id);
    [unfold NUM_SHIFT_REGISTERS in *; lia|].
  destruct (Z.ltb_spec 0 (unlocked_box_id (vending st))); [|lia].
  rewrite (u8_small (box_id - 1)) by lia.
  rewrite ShiftReg_SetBit_eq.
  destruct (Z.leb_spec (NUM_SHIFT_REGISTERS * 8) (box_id - 1));
    [unfold NUM_SHIFT_REGISTERS in *; lia|].
  destruct (LockBoxKey_shape (unlocked_box_id (vending st)) st) as [r [u [s [e ->]]]].
  reflexivity.
Qed.

(** ** A retired box is never locked again by the timeout (C10) *)

Lemma CheckUnlockTimeout_retired st :
  box_count (vending st) < unlocked_box_id (vending st) ->
  CheckUnlockTimeout st = st.
Proof.
  intros H. unfold CheckUnlockTimeout.
  destruct (0 <? unlocked_box_id (vending st)); [|reflexivity].
  destruct (UNLOCK_DURATION_MS <=? _); [|reflexivity].
  apply LockBoxKey_beyond_count. exact H.
Qed.

Lemma timeout_checks_retired times : forall st,
  box_count (vending st) < unlocked_box_id (vending st) ->
  vending (timeout_checks times st) = vending st
  /\ gpio (timeout_checks times st) = gpio st.
Proof.
  induction times as [|now times IH]; intros st H.
  - split; reflexivity.
  - unfold timeout_checks. simpl.
    rewrite CheckUnlockTimeout_retired by exact H.
    destruct (IH (with_millis now st) H) as [Hv Hg].
    unfold timeout_checks in Hv, Hg. rewrite Hv, Hg. split; reflexivity.
Qed.

(** C10. When the box tracked as unlocked has an id above the box count,
    [LockBoxKey] returns at its range check with no effect, so timeout checks
    at any clock readings leave the mirror, the tracked box, the unlock time
    and the output pins as they are: the box is never locked again by the
    timeout. *)
Theorem C10_retired_box_stays_unlocked (st : machine) (times : list Z) :
  box_count (vending st) < unlocked_box_id (vending st) ->
  LockBoxKey (unlocked_box_id (vending st)) st = st
  /\ (forall now, CheckUnlockTimeout (with_millis now st) = with_millis now st)
  /\ shift_reg_state (vending (timeout_checks times st)) = shift_reg_state (vending st)
  /\ unlocked_box_id (vending (timeout_checks times st)) = unlocked_box_id (vending st)
  /\ unlock_start_ms (vending (timeout_checks times st)) = unlock_start_ms (vending st)
  /\ gpio (timeout_checks times st) = gpio st.
Proof.
  intros H.
  destruct (timeout_checks_retired times st H) as [Hv Hg].
  split; [apply LockBoxKey_beyond_count; exact H|].
  split; [intros now; apply CheckUnlockTimeout_retired; exact H|].
  rewrite Hv, Hg. repeat split; reflexivity.
Qed.

(** ** The lines of the mirror *)

Lemma testbit_one p : Z.testbit 1 p = (p =? 0).
Proof. destruct p; reflexivity. Qed.

Lemma u32_testbit x n : 0 <= n < 32 -> Z.testbit (u32 x) n = Z.testbit x n.
Proof.
  intros H. unfold u32. change 4294967296 with (2 ^ 32).
  apply Z.mod_pow2_bits_low. lia.
Qed.

Lemma mirror_set_length regs bit state :
  List.length (mirror_set regs bit state) = List.length regs.
Proof. unfold mirror_set. apply aset_length. Qed.

Lemma mirror_set_line regs bit state k :
  List.length regs = 4%nat ->
  0 <= bit < 32 -> 0 <= k < 32 ->
  Z.testbit (aget 0 (mirror_set regs bit state) (k / 8)) (k mod 8)
  = if k =? bit then state else Z.testbit (aget 0 regs (k / 8)) (k mod 8).
Proof.
  intros Hlen Hbit Hk. unfold mirror_set.
  assert (Hkm : 0 <= k mod 8 < 8) by (apply Z.mod_pos_bound; lia).
  assert (Hbm : 0 <= bit mod 8 < 8) by (apply Z.mod_pos_bound; lia).
  assert (Hkd : 0 <= k / 8 < 4) by (split; [apply Z.div_pos; lia | apply Z.div_lt_upper_bound; lia]).
  assert (Hbd : 0 <= bit / 8 < 4) by (split; [apply Z.div_pos; lia | apply Z.div_lt_upper_bound; lia]).
  destruct (Z.eq_dec (k / 8) (bit / 8)) as [Hd | Hd].
  - rewrite Hd, aget_aset_same by (rewrite Hlen; simpl; lia).
    assert (Heq : (k =? bit) = (k mod 8 - bit mod 8 =? 0)).
    { pose proof (Z.div_mod k 8). pose proof (Z.div_mod bit 8).
      destruct (Z.eqb_spec k bit); destruct (Z.eqb_spec (k mod 8 - bit mod 8) 0);
        try reflexivity; lia. }
    rewrite Heq.
    destruct state.
    + rewrite u32_testbit, Z.lor_spec, Z.shiftl_spec, testbit_one by lia.
      destruct (k mod 8 - bit mod 8 =? 0); [apply orb_true_r | apply orb_false_r].
    + rewrite u32_testbit, Z.land_spec, Z.lnot_spec, Z.shiftl_spec, testbit_one by lia.
      destruct (k mod 8 - bit mod 8 =? 0); [apply andb_false_r | apply andb_true_r].
  - rewrite aget_aset_other by lia.
    destruct (Z.eqb_spec k bit) as [-> | _]; [contradiction | reflexivity].
Qed.

Lemma box_line_mirror_set v regs bit state box_id :
  shift_reg_state v = mirror_set regs bit state ->
  List.length regs = 4%nat ->
  0 <= bit < 32 -> 1 <= box_id <= 32 ->
  box_line v box_id
  = if box_id - 1 =? bit then state
    else Z.testbit (aget 0 regs ((box_id - 1) / 8)) ((box_id - 1) mod 8).
Proof.
  intros E Hlen Hbit Hb. unfold box_line. rewrite E.
  apply mirror_set_line; [exact Hlen | exact Hbit | lia].
Qed.

(** ** The unlock timeout (C4) *)

(** A tick with no box selected leaves the locks alone after its timeout
    check. *)
Lemma PublishSystemMQTT_shape st :
  exists resp pubs,
    HoneyVending_PublishSystemMQTT st = with_mqtt_published pubs (with_ResponseData resp st).
Proof.
  unfold HoneyVending_PublishSystemMQTT.
  destruct (negb (MqttIsConnected st)).
  - exists (ResponseData st), (mqtt_published st). destruct st; reflexivity.
  - eexists; eexists; reflexivity.
Qed.

Lemma coin_step_no_session now st :
  selected_box_id (vending st) = 0 ->
  let st' := coin_step BreakTime now st in
  shift_reg_state (vending st') = shift_reg_state (vending st)
  /\ unlocked_box_id (vending st') = unlocked_box_id (vending st)
  /\ unlock_start_ms (vending st') = unlock_start_ms (vending st)
  /\ gpio st' = gpio st.
Proof.
  intros Hsel st'. subst st'. unfold coin_step.
  destruct (_ && _); [|repeat split; reflexivity].
  destruct (0 <? PulsesToCents (pulse_count (vending st))); [|repeat split; reflexivity].
  unfold HoneyVending_DisplayValues.
  match goal with
  | |- context [LCD_WriteText ?r ?c ?t ?s] =>
      destruct (LCD_WriteText_shape r c t s) as [d ->]
  end.
  match goal with
  | |- context [HoneyVending_PublishSystemMQTT ?s] =>
      destruct (PublishSystemMQTT_shape s) as [resp [pubs ->]]
  end.
  simpl. rewrite Hsel. simpl. repeat split; reflexivity.
Qed.

Lemma button_step_locks st :
  vending (button_step st)
  = set_last_button_state (last_button_state (vending (button_step st))) (vending st)
  /\ gpio (button_step st) = gpio st.
Proof.
  destruct (button_step_shape st) as [d [b ->]]. split; reflexivity.
Qed.

(** C4. A box unlocked at clock reading [T] and within the box count: a
    timeout check [d] ms later changes nothing while [d < 60000], and at the
    first check with [d >= 60000] it drives the line of the box back to the
    locked level, shifts the new mirror out and clears the tracking.  The
    100 ms tick runs this check first; with no box selected the rest of the
    tick leaves the locks as the check left them. *)
Theorem C4_auto_relock (st : machine) (b T d : Z) :
  unlocked_box_id (vending st) = b ->
  unlock_start_ms (vending st) = T ->
  1 <= b <= box_count (vending st) ->
  b <= NUM_SHIFT_REGISTERS * 8 ->
  List.length (shift_reg_state (vending st)) = 4%nat ->
  0 <= T < 4294967296 ->
  0 <= d < 4294967296 ->
  millis st = u32 (T + d) ->
  let st' := CheckUnlockTimeout st in
  let tick := HoneyVending_Every100ms BreakTime st in
  (d < UNLOCK_DURATION_MS ->
   st' = st
   /\ (selected_box_id (vending st) = 0 ->
       shift_reg_state (vending tick) = shift_reg_state (vending st)
       /\ unlocked_box_id (vending tick) = b
       /\ unlock_start_ms (vending tick) = T
       /\ gpio tick = gpio st))
  /\ (UNLOCK_DURATION_MS <= d ->
      (box_line (vending st') b = negb SOLENOID_ACTIVE_HIGH
       /\ unlocked_box_id (vending st') = 0
       /\ unlock_start_ms (vending st') = 0
       /\ gpio st'
          = (gpio st ++ ShiftReg_Write_events (shift_reg_state (vending st'))
                          NUM_SHIFT_REGISTERS)%list)
      /\ (initialized (vending st) = true ->
          100 <= u32 (millis st - last_check st) ->
          selected_box_id (vending st) = 0 ->
          box_line (vending tick) b = negb SOLENOID_ACTIVE_HIGH
          /\ unlocked_box_id (vending tick) = 0
          /\ unlock_start_ms (vending tick) = 0
          /\ gpio tick
             = (gpio st ++ ShiftReg_Write_events (shift_reg_state (vending tick))
                             NUM_SHIFT_REGISTERS)%list)).
Proof.
  intros Hu Hs Hb Hcap Hlen HT Hd Hnow st' tick.
  assert (Hel : forall s, millis s = millis st ->
                unlock_start_ms (vending s) = T ->
                u32 (millis s - unlock_start_ms (vending s)) = d).
  { intros s Hm Hst. rewrite Hm, Hst, Hnow. apply u32_elapsed; assumption. }
  assert (Hcheck_early : forall s, millis s = millis st -> vending s = vending st ->
                          d < UNLOCK_DURATION_MS -> CheckUnlockTimeout s = s).
  { intros s Hm Hv Hlt. unfold CheckUnlockTimeout.
    rewrite (Hel s Hm) by (rewrite Hv; exact Hs).
    destruct (0 <? unlocked_box_id (vending s)); [|reflexivity].
    destruct (Z.leb_spec UNLOCK_DURATION_MS d); [lia | reflexivity]. }
  assert (Hcheck_late : forall s, millis s = millis st -> vending s = vending st ->
                         UNLOCK_DURATION_MS <= d ->
                         CheckUnlockTimeout s = LockBoxKey b s).
  { intros s Hm Hv Hge. unfold CheckUnlockTimeout.
    rewrite (Hel s Hm) by (rewrite Hv; exact Hs).
    rewrite Hv, Hu.
    destruct (Z.ltb_spec 0 b); [|lia].
    destruct (Z.leb_spec UNLOCK_DURATION_MS d); [reflexivity | lia]. }
  assert (Hlock : forall s, vending s = vending st ->
                  let s' := LockBoxKey b s in
                  box_line (vending s') b = negb SOLENOID_ACTIVE_HIGH
                  /\ unlocked_box_id (vending s') = 0
                  /\ unlock_start_ms (vending s') = 0
                  /\ gpio s' = (gpio s ++ ShiftReg_Write_events (shift_reg_state (vending s'))
                                            NUM_SHIFT_REGISTERS)%list).
  { intros s Hv s'. subst s'.
    rewrite LockBoxKey_in_range by (rewrite ?Hv; assumption).
    rewrite Hv, Hu, Z.eqb_refl. simpl.
    split; [|repeat split; reflexivity].
    unfold NUM_SHIFT_REGISTERS in Hcap.
    erewrite box_line_mirror_set; [|reflexivity | exact Hlen | lia | lia].
    rewrite Z.eqb_refl. reflexivity. }
  split.
  - intros Hlt. split.
    + apply Hcheck_early; [reflexivity | reflexivity | exact Hlt].
    + intros Hsel. subst tick. unfold HoneyVending_Every100ms.
      destruct (negb (initialized (vending st))); [repeat split; [exact Hu | exact Hs]|].
      destruct (u32 (millis st - last_check st) <? 100); [repeat split; [exact Hu | exact Hs]|].
      rewrite (Hcheck_early (with_last_check (millis st) st)); [|reflexivity|reflexivity|exact Hlt].
      destruct (button_step_locks
                  (coin_step BreakTime (millis st) (with_last_check (millis st) st)))
        as [-> ->].
      destruct (coin_step_no_session (millis st) (with_last_check (millis st) st) Hsel)
        as [H1 [H2 [H3 H4]]].
      simpl. rewrite H1, H2, H3, H4. simpl.
      repeat split; [exact Hu | exact Hs].
  - intros Hge. split.
    + subst st'. rewrite (Hcheck_late st) by (reflexivity || exact Hge).
      apply Hlock. reflexivity.
    + intros Hinit Hthr Hsel. subst tick. unfold HoneyVending_Every100ms.
      rewrite Hinit. simpl negb. cbv iota.
      destruct (Z.ltb_spec (u32 (millis st - last_check st)) 100); [lia|].
      rewrite (Hcheck_late (with_last_check (millis st) st)); [|reflexivity|reflexivity|exact Hge].
      destruct (Hlock (with_last_check (millis st) st) eq_refl) as [L1 [L2 [L3 L4]]].
      set (s1 := LockBoxKey b (with_last_check (millis st) st)) in *.
      assert (Hsel1 : selected_box_id (vending s1) = 0).
      { subst s1. destruct (LockBoxKey_shape b (with_last_check (millis st) st))
          as [r [u [s [e ->]]]]. exact Hsel. }
      destruct (button_step_locks (coin_step BreakTime (millis st) s1)) as [-> ->].
      destruct (coin_step_no_session (millis st) s1 Hsel1) as [H1 [H2 [H3 H4]]].
      unfold box_line in *. simpl. rewrite H1, H2, H3, H4.
      repeat split; assumption.
Qed.

(** ** One box unlocked at a time (C3) *)

Lemma latched_one regs : latched [regs] = ShiftReg_Write_events regs NUM_SHIFT_REGISTERS.
Proof. unfold latched. cbn [flat_map]. apply app_nil_r. Qed.

Lemma latched_app f1 f2 : latched (f1 ++ f2) = (latched f1 ++ latched f2)%list.
Proof. unfold latched. apply flat_map_app. Qed.

Lemma latched_two a b :
  latched [a; b] = (latched [a] ++ ShiftReg_Write_events b NUM_SHIFT_REGISTERS)%list.
Proof. change [a; b] with ([a] ++ [b])%list. rewrite latched_app, (latched_one b). reflexivity. Qed.

Lemma latched_nil_r evs : (evs ++ latched [])%list = evs.
Proof. unfold latched. simpl. apply app_nil_r. Qed.

Lemma lock_inv_at_most_one st : lock_inv st -> at_most_one_unlocked (shift_reg_state (vending st)).
Proof.
  intros [_ [_ [_ H]]] j k Hj Hk.
  apply H in Hj. apply H in Hk. lia.
Qed.

Lemma line_unlocked_mirror_set regs bit state k :
  List.length regs = 4%nat -> 0 <= bit < 32 ->
  line_unlocked (mirror_set regs bit state) k ->
  (k = bit /\ state = true) \/ (k <> bit /\ line_unlocked regs k).
Proof.
  intros Hlen Hbit [Hk Ht]. unfold NUM_SHIFT_REGISTERS in Hk.
  rewrite mirror_set_line in Ht by (assumption || lia).
  destruct (Z.eqb_spec k bit) as [-> | Hne].
  - left. split; [reflexivity | exact Ht].
  - right. split; [exact Hne|]. split; [exact Hk | exact Ht].
Qed.

Lemma LockBoxKey_over_capacity box_id st :
  NUM_SHIFT_REGISTERS * 8 < box_id < 256 ->
  unlocked_box_id (vending st) <> box_id ->
  LockBoxKey box_id st = st.
Proof.
  intros Hb Hu. unfold LockBoxKey. unfold NUM_SHIFT_REGISTERS in Hb.
  destruct ((box_id <? 1) || (box_count (vending st) <? box_id)); [reflexivity|].
  rewrite (u8_small (box_id - 1)) by lia.
  rewrite ShiftReg_SetBit_eq.
  destruct (Z.leb_spec (NUM_SHIFT_REGISTERS * 8) (box_id - 1));
    [|unfold NUM_SHIFT_REGISTERS in *; lia].
  destruct (Z.eqb_spec (unlocked_box_id (vending st)) box_id); [contradiction | reflexivity].
Qed.

Lemma LockBoxKey_inv box_id st :
  lock_inv st ->
  1 <= box_id <= box_count (vending st) ->
  box_id <= NUM_SHIFT_REGISTERS * 8 ->
  let st' := LockBoxKey box_id st in
  lock_inv st'
  /\ gpio st' = (gpio st ++ latched [shift_reg_state (vending st')])%list
  /\ shift_reg_state (vending st')
     = mirror_set (shift_reg_state (vending st)) (box_id - 1) false
  /\ (unlocked_box_id (vending st) = box_id -> unlocked_box_id (vending st') = 0).
Proof.
  intros [Hlen [Hrange [Hcap Hlines]]] Hb Hbcap st'. subst st'.
  rewrite LockBoxKey_in_range by assumption.
  unfold NUM_SHIFT_REGISTERS in *.
  split; [|split; [|split]].
  - unfold lock_inv. simpl. rewrite mirror_set_length.
    split; [exact Hlen|].
    destruct (Z.eqb_spec (unlocked_box_id (vending st)) box_id) as [E | E].
    + split; [left; reflexivity|]. split; [lia|].
      intros k Hk.
      apply line_unlocked_mirror_set in Hk; [|exact Hlen | lia].
      destruct Hk as [[_ Hf] | [Hne Hold]]; [discriminate|].
      apply Hlines in Hold. lia.
    + split; [exact Hrange|]. split; [exact Hcap|].
      intros k Hk.
      apply line_unlocked_mirror_set in Hk; [|exact Hlen | lia].
      destruct Hk as [[_ Hf] | [Hne Hold]]; [discriminate|].
      apply Hlines. exact Hold.
  - rewrite latched_one. reflexivity.
  - reflexivity.
  - intros E. simpl. rewrite E, Z.eqb_refl. reflexivity.
Qed.

Lemma lock_inv_idle_no_line st k :
  lock_inv st -> unlocked_box_id (vending st) = 0 ->
  ~ line_unlocked (shift_reg_state (vending st)) k.
Proof.
  intros [_ [_ [_ H]]] Hu Hk. pose proof (H k Hk) as E. destruct Hk as [Hk _]. lia.
Qed.

Lemma unlock_idle_inv box_id now st :
  lock_inv st ->
  unlocked_box_id (vending st) = 0 ->
  1 <= box_id <= box_count (vending st) ->
  box_id <= NUM_SHIFT_REGISTERS * 8 ->
  let regs := mirror_set (shift_reg_state (vending st)) (box_id - 1) true in
  forall evs, lock_inv (with_locks regs box_id now evs st).
Proof.
  intros Hinv Hu Hb Hcap regs evs.
  pose proof (fun k => lock_inv_idle_no_line st k Hinv Hu) as Hnone.
  destruct Hinv as [Hlen [Hrange [_ Hlines]]].
  unfold NUM_SHIFT_REGISTERS in *.
  unfold lock_inv. simpl. subst regs. rewrite mirror_set_length.
  split; [exact Hlen|]. split; [right; exact Hb|]. split; [exact Hcap|].
  intros k Hk.
  apply line_unlocked_mirror_set in Hk; [|exact Hlen | lia].
  destruct Hk as [[-> _] | [_ Hold]]; [lia|].
  exfalso. exact (Hnone k Hold).
Qed.

Lemma UnlockBoxKey_inv box_id st :
  lock_inv st ->
  1 <= box_id <= box_count (vending st) ->
  box_id <= NUM_SHIFT_REGISTERS * 8 ->
  let st' := UnlockBoxKey box_id st in
  lock_inv st'
  /\ exists frames,
       gpio st' = (gpio st ++ latched frames)%list
       /\ Forall at_most_one_unlocked frames.
Proof.
  intros Hinv Hb Hcap st'. subst st'.
  destruct (Z.eq_dec (unlocked_box_id (vending st)) 0) as [Hu | Hu].
  - rewrite UnlockBoxKey_fresh by assumption.
    pose proof (unlock_idle_inv box_id (millis st) st Hinv Hu Hb Hcap) as Hnew.
    cbv zeta in *.
    split; [apply Hnew|].
    exists [mirror_set (shift_reg_state (vending st)) (box_id - 1) true].
    split; [rewrite latched_one; reflexivity|].
    constructor; [|constructor].
    apply (lock_inv_at_most_one _ (Hnew [])).
  - assert (Hpos : 1 <= unlocked_box_id (vending st) <= box_count (vending st)).
    { destruct Hinv as [_ [[E | R] _]]; [contradiction | exact R]. }
    assert (Hucap : unlocked_box_id (vending st) <= NUM_SHIFT_REGISTERS * 8).
    { destruct Hinv as [_ [_ [C _]]]. exact C. }
    rewrite UnlockBoxKey_after_lock by (assumption || lia).
    destruct (LockBoxKey_inv (unlocked_box_id (vending st)) st Hinv Hpos Hucap)
      as [Hinv1 [Hg1 [Hr1 Hu1]]].
    specialize (Hu1 eq_refl).
    set (st1 := LockBoxKey (unlocked_box_id (vending st)) st) in *.
    assert (Hc1 : box_count (vending st1) = box_count (vending st)).
    { subst st1. destruct (LockBoxKey_shape (unlocked_box_id (vending st)) st)
        as [r [u [s [e ->]]]]. reflexivity. }
    assert (Hb1 : 1 <= box_id <= box_count (vending st1)) by (rewrite Hc1; exact Hb).
    pose proof (unlock_idle_inv box_id (millis st) st1 Hinv1 Hu1 Hb1 Hcap) as Hnew.
    cbv zeta in *.
    split.
    + specialize (Hnew []). unfold lock_inv in *. simpl in *. rewrite <- Hc1. exact Hnew.
    + exists [shift_reg_state (vending st1);
              mirror_set (shift_reg_state (vending st1)) (box_id - 1) true].
      split.
      * simpl. rewrite Hg1, latched_two, app_assoc. reflexivity.
      * constructor; [apply lock_inv_at_most_one; exact Hinv1|].
        constructor; [|constructor].
        apply (lock_inv_at_most_one _ (Hnew [])).
Qed.

Lemma locked_mirror_eq regs :
  List.length regs = 4%nat ->
  fold_left (fun r i => aset r i locked_word) (zrange 0 (NUM_SHIFT_REGISTERS - 1)) regs
  = [0; 0; 0; 0].
Proof.
  intros H.
  destruct regs as [|a [|b [|c [|d [|e t]]]]]; simpl in H; try discriminate.
  reflexivity.
Qed.

Lemma for_each_mirror l x : forall st,
  for_each l (fun i s => upd (fun v => set_shift_reg_state (aset (shift_reg_state v) i x) v) s) st
  = upd (set_shift_reg_state (fold_left (fun r i => aset r i x) l (shift_reg_state (vending st))))
        st.
Proof.
  induction l as [|i l IH]; intros st.
  - destruct st as [v]; destruct v; reflexivity.
  - change (for_each (i :: l) ?f st) with (for_each l f (f i st)).
    rewrite IH. reflexivity.
Qed.

Lemma LockAllBoxes_eq st :
  List.length (shift_reg_state (vending st)) = 4%nat ->
  LockAllBoxes st
  = with_locks [0; 0; 0; 0] 0 0 (gpio st ++ latched [[0; 0; 0; 0]])%list st.
Proof.
  intros H. unfold LockAllBoxes. rewrite for_each_mirror, locked_mirror_eq by exact H.
  reflexivity.
Qed.

Lemma ShiftReg_Init_eq st :
  List.length (shift_reg_state (vending st)) = 4%nat ->
  ShiftReg_Init st
  = with_locks [0; 0; 0; 0] (unlocked_box_id (vending st)) (unlock_start_ms (vending st))
               (gpio st ++ latched [[0; 0; 0; 0]])%list st.
Proof.
  intros H. unfold ShiftReg_Init. rewrite for_each_mirror, locked_mirror_eq by exact H.
  destruct st as [v]; destruct v; reflexivity.
Qed.

Lemma all_locked_no_line k : ~ line_unlocked [0; 0; 0; 0] k.
Proof.
  intros [Hk Ht]. unfold NUM_SHIFT_REGISTERS in Hk.
  assert (Hd : 0 <= k / 8 < 4)
    by (split; [apply Z.div_pos; lia | apply Z.div_lt_upper_bound; lia]).
  assert (E : aget 0 [0; 0; 0; 0] (k / 8) = 0).
  { assert (C : k / 8 = 0 \/ k / 8 = 1 \/ k / 8 = 2 \/ k / 8 = 3) by lia.
    destruct C as [-> | [-> | [-> | ->]]]; reflexivity. }
  rewrite E, Z.bits_0 in Ht. discriminate.
Qed.

Lemma all_locked_inv s evs st :
  lock_inv (with_locks [0; 0; 0; 0] 0 s evs st)
  /\ at_most_one_unlocked [0; 0; 0; 0].
Proof.
  split.
  - unfold lock_inv. simpl. split; [reflexivity|]. split; [left; reflexivity|].
    split; [unfold NUM_SHIFT_REGISTERS; lia|].
    intros k Hk. exfalso. exact (all_locked_no_line k Hk).
  - intros j k Hj _. exfalso. exact (all_locked_no_line j Hj).
Qed.




(** ** The LCD write (C6) *)

Lemma c_str_strncpy src rest : forall n,
  c_str (strncpy_bytes src n ++ NUL :: rest)%list = firstn n (c_str src).
Proof.
  induction src as [|c src IH]; intros n.
  - destruct n; [reflexivity|]. simpl. reflexivity.
  - destruct n as [|n]; [simpl; destruct (is_nul c); reflexivity|].
    simpl. destruct (is_nul c) eqn:E.
    + simpl. reflexivity.
    + simpl. rewrite E. f_equal. apply IH.
Qed.

Lemma strncpy_bytes_length src : forall n, List.length (strncpy_bytes src n) = n.
Proof.
  intros n. revert src. induction n as [|n IH]; intros src; [reflexivity|].
  simpl. destruct src as [|c src]; [|destruct (is_nul c)]; simpl; rewrite IH; reflexivity.
Qed.

Lemma poke_after {A} (pre : list A) x rest c :
  aset_nat (pre ++ x :: rest)%list (List.length pre) c = (pre ++ c :: rest)%list.
Proof. induction pre as [|h t IH]; simpl; [reflexivity|]. rewrite IH. reflexivity. Qed.

(** What reaches the display: the text cut to the room left on the row, and
    nothing after it. *)
Lemma LCD_WriteText_prints row col text st :
  lcd_initialized (vending st) = true ->
  0 <= row < LCD_ROWS -> 0 <= col < LCD_COLS ->
  lcd (LCD_WriteText row col text st)
  = lcd_print (firstn (Z.to_nat (LCD_COLS - col)) (c_str (list_ascii_of_string text)))
              (lcd_setCursor col row (lcd st)).
Proof.
  intros Hinit Hrow Hcol. unfold LCD_WriteText. unfold LCD_ROWS, LCD_COLS in *.
  rewrite Hinit. simpl negb. cbv iota.
  destruct (Z.leb_spec 2 row); [lia|].
  destruct (Z.leb_spec 16 col); [lia|].
  simpl orb. cbv iota.
  rewrite (u8_small (16 - col)) by lia.
  change (Z.to_nat 16) with 16%nat.
  match goal with |- lcd (with_lcd ?d _) = _ => change (d = lcd_print
     (firstn (Z.to_nat (16 - col)) (c_str (list_ascii_of_string text)))
     (lcd_setCursor col row (lcd st))) end.
  f_equal.
  set (n := Z.to_nat (16 - col)).
  assert (Hn : (n <= 16)%nat) by (subst n; lia).
  unfold strncpy, poke.
  set (dest := aset_nat (memset _ _ _) _ _).
  assert (Hd : List.length dest = 17%nat) by reflexivity.
  assert (Hskip : exists x rest, skipn n dest = x :: rest).
  { destruct (skipn n dest) as [|x rest] eqn:E.
    - apply (f_equal (@List.length ascii)) in E. rewrite length_skipn, Hd in E.
      change (List.length (@nil ascii)) with 0%nat in E. lia.
    - eauto. }
  destruct Hskip as [x [rest ->]].
  rewrite <- (strncpy_bytes_length (list_ascii_of_string text) n) at 2.
  rewrite poke_after. apply c_str_strncpy.
Qed.

(** C6 at a failing input.  The top row of the display shows a prompt of
    twelve letters.  Writing the two-letter text Hi at row 0, column 0
    replaces two characters only: the rest of the old prompt stays on the
    display, and no space is written after the text. *)
Theorem C6_short_text_leaves_old_characters :
  lcd_row_text (lcd sample_machine) 0 = "Select a box    "
  /\ lcd_row_text (lcd short_write_sample) 0 = "Hilect a box    "
  /\ lcd_char (lcd short_write_sample) 0 2 <> SPACE.
Proof.
  split; [reflexivity|]. split; [vm_compute; reflexivity|].
  vm_compute. discriminate.
Qed.

(** ** Withdrawal of discovery on a smaller box count (C7) *)

Lemma for_each_publish name l : forall st,
  for_each l (fun i s => MqttPublish (discovery_box_topic name i) true s) st
  = with_mqtt_published
      (mqtt_published st ++ map (withdrawal_message name (ResponseData st)) l)%list st.
Proof.
  induction l as [|i l IH]; intros st.
  - simpl. rewrite app_nil_r. destruct st; reflexivity.
  - change (for_each (i :: l) ?f st) with (for_each l f (f i st)).
    rewrite IH. unfold MqttPublish. simpl. rewrite <- app_assoc. reflexivity.
Qed.

(** What the withdrawal sends: one retained message per retired box, to the
    discovery topic of that box, carrying whatever the response buffer holds
    at that moment.  The function never sets the buffer itself. *)
Lemma CleanupOldBoxes_published old_count new_count st :
  new_count < old_count ->
  MqttIsConnected st = true ->
  HoneyVending_CleanupOldBoxes old_count new_count st
  = with_mqtt_published
      (mqtt_published st
       ++ map (withdrawal_message (device_name st) (ResponseData st))
              (zrange (new_count + 1) old_count))%list st.
Proof.
  intros Hlt Hc. unfold HoneyVending_CleanupOldBoxes.
  destruct (Z.leb_spec old_count new_count); [lia|].
  rewrite Hc. simpl negb. cbv iota.
  apply for_each_publish.
Qed.

(** C7 at a failing input.  With twenty boxes, MQTT connected and the text
    _1 pending in the response buffer, the withdrawal for a new count of
    fifteen sends that text, not an empty payload, to the discovery topics of
    boxes 16 to 20, retained, and to none of the topics of boxes 1 to 15. *)
Theorem C7_withdrawal_sends_pending_response :
  mqtt_published (HoneyVending_CleanupOldBoxes 20 15 shrink_sample)
  = map (withdrawal_message "hive" "_1") [16; 17; 18; 19; 20]
  /\ map topic (mqtt_published (HoneyVending_CleanupOldBoxes 20 15 shrink_sample))
     = [ "homeassistant/binary_sensor/hive_box16/config";
         "homeassistant/binary_sensor/hive_box17/config";
         "homeassistant/binary_sensor/hive_box18/config";
         "homeassistant/binary_sensor/hive_box19/config";
         "homeassistant/binary_sensor/hive_box20/config" ]
  /\ Forall (fun m => payload m <> EmptyString)
            (mqtt_published (HoneyVending_CleanupOldBoxes 20 15 shrink_sample))
  /\ forallb (fun j => negb (existsb (String.eqb (discovery_box_topic "hive" j))
                                     (map topic (mqtt_published
                                        (HoneyVending_CleanupOldBoxes 20 15 shrink_sample)))))
             (zrange 1 15) = true
  /\ firstn 5 (mqtt_published (HoneyVending_SetBoxCount BreakTime 15 shrink_sample))
     = map (withdrawal_message "hive" "_1") [16; 17; 18; 19; 20].
Proof.
  split; [vm_compute; reflexivity|].
  split; [vm_compute; reflexivity|].
  split; [|split; vm_compute; reflexivity].
  rewrite CleanupOldBoxes_published by (reflexivity || lia).
  unfold with_mqtt_published, mqtt_published at 1.
  apply Forall_app. split; [constructor|].
  apply Forall_forall. intros m Hm.
  apply in_map_iff in Hm. destruct Hm as [i [<- _]]. discriminate.
Qed.

(** ** A sale completes within one tick (C1) *)

Arguments u8 : simpl never.
Arguments u16 : simpl never.
Arguments u32 : simpl never.
Arguments aget : simpl never.
Arguments aset : simpl never.
Arguments mirror_set : simpl never.
Arguments system_json : simpl never.
Arguments system_topic : simpl never.
Arguments summary_json : simpl never.
Arguments summary_topic : simpl never.
Arguments box_json : simpl never.
Arguments box_topic : simpl never.
Arguments status_text : simpl never.
Arguments timestamp_text : simpl never.
Arguments available_count : simpl never.
Arguments CentsToEuroString : simpl never.
Arguments snprintf : simpl never.
Arguments PulsesToCents : simpl never.

Lemma system_json_ext v w :
  total_cents v = total_cents w -> selected_box_id v = selected_box_id w ->
  box_count v = box_count w -> box_price v = box_price w ->
  coins_detected v = coins_detected w -> honey_available v = honey_available w ->
  system_json v = system_json w.
Proof.
  intros H1 H2 H3 H4 H5 H6. unfold system_json, target_cents.
  rewrite H1, H2, H3, H4, H5, H6. reflexivity.
Qed.

Lemma box_json_ext v w box_id :
  box_status v = box_status w -> box_last_changed v = box_last_changed w ->
  box_price v = box_price w ->
  box_json BreakTime v box_id = box_json BreakTime w box_id.
Proof. intros H1 H2 H3. unfold box_json. rewrite H1, H2, H3. reflexivity. Qed.

Lemma available_count_ext v w :
  box_status v = box_status w -> box_count v = box_count w ->
  available_count v = available_count w.
Proof. intros H1 H2. unfold available_count. rewrite H1, H2. reflexivity. Qed.

Lemma status_text_ext v w :
  box_status v = box_status w -> box_count v = box_count w ->
  status_text v = status_text w.
Proof. intros H1 H2. unfold status_text, packed_status. rewrite H1, H2. reflexivity. Qed.

Lemma timestamp_text_ext v w :
  box_last_changed v = box_last_changed w -> box_count v = box_count w ->
  timestamp_text v = timestamp_text w.
Proof. intros H1 H2. unfold timestamp_text. rewrite H1, H2. reflexivity. Qed.

(** The bit of a box in the packed status word is clear when the box is
    empty. *)
Lemma fold_packed_clear (status : Z -> bool) k l : forall acc,
  0 <= k < 32 ->
  (forall i, In i l -> 0 <= i) ->
  status k = false ->
  Z.testbit acc k = false ->
  Z.testbit (fold_left (fun packed i =>
                          if status i then u32 (Z.lor packed (Z.shiftl 1 i)) else packed)
                       l acc) k = false.
Proof.
  induction l as [|a l IH]; intros acc Hk Hpos Hs Hacc; [exact Hacc|].
  simpl. apply IH; try assumption.
  - intros i Hi. apply Hpos. right. exact Hi.
  - destruct (status a) eqn:Ea; [|exact Hacc].
    rewrite u32_testbit, Z.lor_spec, Hacc, Z.shiftl_spec, testbit_one by lia.
    destruct (Z.eqb_spec (k - a) 0) as [E | E]; [|reflexivity].
    assert (a = k) by lia. subst a. congruence.
Qed.

Lemma packed_status_clear v k :
  0 <= k < 32 ->
  aget false (box_status v) k = false ->
  Z.testbit (packed_status v) k = false.
Proof.
  intros Hk Hs. unfold packed_status.
  apply (fold_packed_clear (aget false (box_status v))); try assumption.
  - intros i Hi. apply In_zrange in Hi. lia.
  - apply Z.bits_0.
Qed.

Lemma system_message_ext v w :
  device_id v = device_id w ->
  total_cents v = total_cents w -> selected_box_id v = selected_box_id w ->
  box_count v = box_count w -> box_price v = box_price w ->
  coins_detected v = coins_detected w -> honey_available v = honey_available w ->
  system_message v = system_message w.
Proof.
  intros H0 H1 H2 H3 H4 H5 H6. unfold system_message.
  rewrite H0, (system_json_ext v w) by assumption. reflexivity.
Qed.

Lemma box_message_ext v w box_id :
  device_id v = device_id w ->
  box_status v = box_status w -> box_last_changed v = box_last_changed w ->
  box_price v = box_price w ->
  box_message BreakTime v box_id = box_message BreakTime w box_id.
Proof.
  intros H0 H1 H2 H3. unfold box_message.
  rewrite H0, (box_json_ext v w) by assumption. reflexivity.
Qed.

Lemma summary_message_ext v w :
  device_id v = device_id w ->
  box_status v = box_status w -> box_count v = box_count w ->
  summary_message v = summary_message w.
Proof.
  intros H0 H1 H2. unfold summary_message.
  rewrite H0, H2, (available_count_ext v w) by assumption. reflexivity.
Qed.

Lemma LockBoxKey_length box_id st :
  List.length (shift_reg_state (vending (LockBoxKey box_id st)))
  = List.length (shift_reg_state (vending st)).
Proof.
  unfold LockBoxKey.
  destruct ((box_id <? 1) || (box_count (vending st) <? box_id)); [reflexivity|].
  rewrite ShiftReg_SetBit_eq.
  destruct (NUM_SHIFT_REGISTERS * 8 <=? u8 (box_id - 1)).
  - destruct (unlocked_box_id (vending st) =? box_id); reflexivity.
  - cbv zeta.
    destruct (unlocked_box_id (vending _) =? box_id); simpl; apply mirror_set_length.
Qed.

Lemma LockBoxKey_gpio_grows box_id st :
  exists evs, gpio (LockBoxKey box_id st) = (gpio st ++ evs)%list.
Proof.
  unfold LockBoxKey.
  destruct ((box_id <? 1) || (box_count (vending st) <? box_id));
    [exists []; rewrite app_nil_r; reflexivity|].
  rewrite ShiftReg_SetBit_eq.
  destruct (NUM_SHIFT_REGISTERS * 8 <=? u8 (box_id - 1)).
  - exists []. rewrite app_nil_r.
    destruct (unlocked_box_id (vending st) =? box_id); reflexivity.
  - cbv zeta. eexists.
    destruct (unlocked_box_id (vending _) =? box_id); simpl; reflexivity.
Qed.

Lemma CheckUnlockTimeout_length st :
  List.length (shift_reg_state (vending (CheckUnlockTimeout st)))
  = List.length (shift_reg_state (vending st)).
Proof.
  unfold CheckUnlockTimeout.
  destruct (0 <? unlocked_box_id (vending st)); [|reflexivity].
  destruct (UNLOCK_DURATION_MS <=? _); [apply LockBoxKey_length | reflexivity].
Qed.

(** Unlocking a configured box: whatever was tracked before, the line of the
    box ends at the unlock level, the box and the time are recorded, and the
    last thing shifted out is the new mirror. *)
Lemma UnlockBoxKey_effect box_id st :
  1 <= box_id <= box_count (vending st) ->
  box_id <= NUM_SHIFT_REGISTERS * 8 ->
  List.length (shift_reg_state (vending st)) = 4%nat ->
  exists regs evs,
    UnlockBoxKey box_id st
    = with_locks regs box_id (millis st)
        (gpio st ++ evs ++ ShiftReg_Write_events regs NUM_SHIFT_REGISTERS)%list st
    /\ Z.testbit (aget 0 regs ((box_id - 1) / 8)) ((box_id - 1) mod 8) = SOLENOID_ACTIVE_HIGH.
Proof.
  intros Hb Hcap Hlen.
  assert (Hline : forall regs, List.length regs = 4%nat ->
            Z.testbit (aget 0 (mirror_set regs (box_id - 1) true) ((box_id - 1) / 8))
                      ((box_id - 1) mod 8) = SOLENOID_ACTIVE_HIGH).
  { intros regs Hr. unfold NUM_SHIFT_REGISTERS in Hcap.
    rewrite mirror_set_line by (assumption || lia).
    rewrite Z.eqb_refl. reflexivity. }
  destruct (Z_lt_dec 0 (unlocked_box_id (vending st))) as [Hu | Hu].
  - rewrite UnlockBoxKey_after_lock by assumption. cbv zeta.
    pose proof (LockBoxKey_length (unlocked_box_id (vending st)) st) as Hl1.
    destruct (LockBoxKey_shape (unlocked_box_id (vending st)) st) as [r [u [s [e E]]]].
    rewrite E in *. simpl in Hl1. simpl.
    exists (mirror_set r (box_id - 1) true).
    destruct (LockBoxKey_gpio_grows (unlocked_box_id (vending st)) st) as [evs Hg].
    rewrite E in Hg. simpl in Hg. subst e.
    exists evs. split; [rewrite <- app_assoc; reflexivity|].
    apply Hline. rewrite Hl1. exact Hlen.
  - unfold UnlockBoxKey. unfold NUM_SHIFT_REGISTERS in Hcap.
    destruct (Z.ltb_spec box_id 1); [lia|].
    destruct (Z.ltb_spec (box_count (vending st)) box_id); [lia|].
    simpl orb. cbv iota.
    destruct (Z.ltb_spec (NUM_SHIFT_REGISTERS * 8) box_id);
      [unfold NUM_SHIFT_REGISTERS in *; lia|].
    destruct (Z.ltb_spec 0 (unlocked_box_id (vending st))); [lia|].
    rewrite (u8_small (box_id - 1)) by lia.
    rewrite ShiftReg_SetBit_eq.
    destruct (Z.leb_spec (NUM_SHIFT_REGISTERS * 8) (box_id - 1));
      [unfold NUM_SHIFT_REGISTERS in *; lia|].
    cbv zeta.
    exists (mirror_set (shift_reg_state (vending st)) (box_id - 1) true), [].
    split; [reflexivity|]. apply Hline. exact Hlen.
Qed.

Lemma cons_eq {A} (a b : A) l m : a = b -> l = m -> a :: l = b :: m.
Proof. intros -> ->. reflexivity. Qed.

Lemma mk_eta st :
  st = mk (vending st) (last_check st) (ResponseData st) (mqtt_published st)
          (settings_text st) (settings_flash st) (gpio st) (lcd st) st.
Proof. destruct st; reflexivity. Qed.

Lemma CheckUnlockTimeout_gpio_grows st :
  exists evs, gpio (CheckUnlockTimeout st) = (gpio st ++ evs)%list.
Proof.
  unfold CheckUnlockTimeout.
  destruct (0 <? unlocked_box_id (vending st)); [|exists []; rewrite app_nil_r; reflexivity].
  destruct (UNLOCK_DURATION_MS <=? _); [apply LockBoxKey_gpio_grows|].
  exists []. rewrite app_nil_r. reflexivity.
Qed.


Lemma CheckUnlockTimeout_mk v lc resp pubs txt fl g d st0 :
  exists r u s e0,
    CheckUnlockTimeout (mk v lc resp pubs txt fl g d st0)
    = mk (set_locks r u s v) lc resp pubs txt fl (g ++ e0)%list d st0
    /\ List.length r = List.length (shift_reg_state v).
Proof.
  pose proof (CheckUnlockTimeout_length (mk v lc resp pubs txt fl g d st0)) as Hl.
  destruct (CheckUnlockTimeout_gpio_grows (mk v lc resp pubs txt fl g d st0)) as [e0 He].
  destruct (CheckUnlockTimeout_shape (mk v lc resp pubs txt fl g d st0)) as [r [u [s [e E]]]].
  rewrite E in *. simpl in Hl, He. subst e.
  exists r, u, s, e0. split; [reflexivity | exact Hl].
Qed.

Lemma LCD_WriteText_mk row col text v lc resp pubs txt fl g d st0 :
  exists d', LCD_WriteText row col text (mk v lc resp pubs txt fl g d st0)
             = mk v lc resp pubs txt fl g d' st0.
Proof.
  destruct (LCD_WriteText_shape row col text (mk v lc resp pubs txt fl g d st0)) as [d' ->].
  exists d'. reflexivity.
Qed.

Lemma button_step_mk v lc resp pubs txt fl g d st0 :
  exists d' bs, button_step (mk v lc resp pubs txt fl g d st0)
                = mk (set_last_button_state bs v) lc resp pubs txt fl g d' st0.
Proof.
  destruct (button_step_shape (mk v lc resp pubs txt fl g d st0)) as [d' [bs ->]].
  exists d', bs. reflexivity.
Qed.

Lemma PublishSystemMQTT_mk v lc resp pubs txt fl g d st0 :
  HoneyVending_PublishSystemMQTT (mk v lc resp pubs txt fl g d st0)
  = mk v lc (if MqttIsConnected st0 then system_json v else resp)
       (pubs ++ (if MqttIsConnected st0 then [system_message v] else []))%list
       txt fl g d st0.
Proof.
  unfold HoneyVending_PublishSystemMQTT. simpl.
  destruct (MqttIsConnected st0); simpl.
  - reflexivity.
  - rewrite app_nil_r. reflexivity.
Qed.

Lemma PublishBoxMQTT_mk box_id v lc resp pubs txt fl g d st0 :
  1 <= box_id <= box_count v ->
  HoneyVending_PublishBoxMQTT BreakTime box_id (mk v lc resp pubs txt fl g d st0)
  = mk v lc (if MqttIsConnected st0 then box_json BreakTime v box_id else resp)
       (pubs ++ (if MqttIsConnected st0 then [box_message BreakTime v box_id] else []))%list
       txt fl g d st0.
Proof.
  intros Hb. unfold HoneyVending_PublishBoxMQTT. simpl.
  destruct (Z.ltb_spec box_id 1); [lia|].
  destruct (Z.ltb_spec (box_count v) box_id); [lia|].
  destruct (MqttIsConnected st0); simpl.
  - reflexivity.
  - rewrite app_nil_r. reflexivity.
Qed.

Lemma UnlockBoxKey_mk box_id v lc resp pubs txt fl g d st0 :
  1 <= box_id <= box_count v ->
  box_id <= NUM_SHIFT_REGISTERS * 8 ->
  List.length (shift_reg_state v) = 4%nat ->
  exists regs evs,
    UnlockBoxKey box_id (mk v lc resp pubs txt fl g d st0)
    = mk (set_locks regs box_id (millis st0) v) lc resp pubs txt fl
         (g ++ evs ++ ShiftReg_Write_events regs NUM_SHIFT_REGISTERS)%list d st0
    /\ Z.testbit (aget 0 regs ((box_id - 1) / 8)) ((box_id - 1) mod 8) = SOLENOID_ACTIVE_HIGH.
Proof.
  intros Hb Hcap Hlen.
  destruct (UnlockBoxKey_effect box_id (mk v lc resp pubs txt fl g d st0))
    as [regs [evs [E Hbit]]]; [exact Hb | exact Hcap | exact Hlen|].
  exists regs, evs. split; [rewrite E; reflexivity | exact Hbit].
Qed.

Lemma SaveStatus_mk v lc resp pubs txt fl g d st0 :
  HoneyVending_SaveStatus (mk v lc resp pubs txt fl g d st0)
  = mk v lc resp pubs (saved_status v txt) (saved_status v txt) g d st0.
Proof. reflexivity. Qed.

Lemma SetStatus_mk box_id has_honey v lc resp pubs txt fl g d st0 :
  1 <= box_id <= box_count v ->
  let v1 := mark_box box_id has_honey (utc_time st0) v in
  HoneyVending_SetStatus BreakTime box_id has_honey (mk v lc resp pubs txt fl g d st0)
  = mk v1 lc (payload (summary_message v1))
       ((pubs ++ (if MqttIsConnected st0 then [box_message BreakTime v1 box_id] else []))
        ++ [summary_message v1])%list
       (saved_status v1 txt) (saved_status v1 txt) g d st0.
Proof.
  intros Hb v1. unfold HoneyVending_SetStatus.
  change (vending (mk v lc resp pubs txt fl g d st0)) with v.
  destruct (Z.ltb_spec box_id 1); [lia|].
  destruct (Z.ltb_spec (box_count v) box_id); [lia|].
  simpl orb. cbv iota.
  change (upd (fun v0 => set_box_last_changed
                 (aset (box_last_changed v0) (box_id - 1)
                    (utc_time (upd (fun v2 => set_box_status
                                 (aset (box_status v2) (box_id - 1) has_honey) v2)
                                 (mk v lc resp pubs txt fl g d st0)))) v0)
              (upd (fun v2 => set_box_status (aset (box_status v2) (box_id - 1) has_honey) v2)
                   (mk v lc resp pubs txt fl g d st0)))
    with (mk v1 lc resp pubs txt fl g d st0).
  rewrite SaveStatus_mk, PublishBoxMQTT_mk by exact Hb.
  reflexivity.
Qed.

Lemma upd_mk f v lc resp pubs txt fl g d st0 :
  upd f (mk v lc resp pubs txt fl g d st0) = mk (f v) lc resp pubs txt fl g d st0.
Proof. reflexivity. Qed.

Lemma vending_mk v lc resp pubs txt fl g d st0 :
  vending (mk v lc resp pubs txt fl g d st0) = v.
Proof. reflexivity. Qed.

Lemma CmndVendingReset_mk v lc resp pubs txt fl g d st0 :
  CmndVendingReset (mk v lc resp pubs txt fl g d st0)
  = mk (reset_session v) lc
       ("{" ++ quoted (command (XdrvMailbox st0)) ++ ":" ++ quoted "Done" ++ "}")
       (pubs ++ (if MqttIsConnected st0 then [system_message (reset_session v)] else []))%list
       txt fl g d st0.
Proof.
  unfold CmndVendingReset.
  rewrite !upd_mk, PublishSystemMQTT_mk. reflexivity.
Qed.

Lemma HoneyAvailable_mk box v lc resp pubs txt fl g d st0 :
  selected_box_id v = box ->
  1 <= box <= box_count v ->
  box <= NUM_SHIFT_REGISTERS * 8 ->
  List.length (shift_reg_state v) = 4%nat ->
  exists regs evs,
    let v1 := set_locks regs box (millis st0) v in
    let v2 := mark_box box false (utc_time st0) v1 in
    let c := MqttIsConnected st0 in
    HoneyVending_HoneyAvailable BreakTime (mk v lc resp pubs txt fl g d st0)
    = mk (reset_session v2) lc
         ("{" ++ quoted (command (XdrvMailbox st0)) ++ ":" ++ quoted "Done" ++ "}")
         ((((pubs ++ (if c then [system_message v1] else []))
            ++ (if c then [box_message BreakTime v2 box] else []))
           ++ [summary_message v2])
          ++ (if c then [system_message (reset_session v2)] else []))%list
         (saved_status v2 txt) (saved_status v2 txt)
         (g ++ evs ++ ShiftReg_Write_events regs NUM_SHIFT_REGISTERS)%list d st0
    /\ Z.testbit (aget 0 regs ((box - 1) / 8)) ((box - 1) mod 8) = SOLENOID_ACTIVE_HIGH.
Proof.
  intros Hsel Hb Hcap Hlen.
  destruct (UnlockBoxKey_mk box v lc resp pubs txt fl g d st0 Hb Hcap Hlen)
    as [regs [evs [E Hbit]]].
  exists regs, evs. cbv zeta. split; [|exact Hbit].
  unfold HoneyVending_HoneyAvailable.
  rewrite !vending_mk, Hsel.
  destruct (Z.ltb_spec 0 box); [|lia].
  rewrite E, PublishSystemMQTT_mk, !vending_mk.
  change (selected_box_id (set_locks regs box (millis st0) v)) with (selected_box_id v).
  rewrite Hsel.
  rewrite SetStatus_mk by exact Hb.
  rewrite CmndVendingReset_mk. reflexivity.
Qed.

Lemma coin_step_mk box coin now v lc resp pubs txt fl g d st0 :
  0 < pulse_count v ->
  COIN_TIMEOUT_MS <= u32 (now - last_pulse_ms v) ->
  PulsesToCents (pulse_count v) = coin ->
  0 < coin ->
  selected_box_id v = box ->
  1 <= box <= box_count v ->
  box <= NUM_SHIFT_REGISTERS * 8 ->
  honey_available v = false ->
  List.length (shift_reg_state v) = 4%nat ->
  aget 0 (box_price v) (box - 1) <= u32 (total_cents v + coin) ->
  exists d' regs evs,
    let v0 := add_coin coin v in
    let v1 := set_locks regs box (millis st0) (set_honey_available true v0) in
    let v2 := mark_box box false (utc_time st0) v1 in
    let c := MqttIsConnected st0 in
    coin_step BreakTime now (mk v lc resp pubs txt fl g d st0)
    = mk (set_pulse_count 0 (reset_session v2)) lc
         ("{" ++ quoted (command (XdrvMailbox st0)) ++ ":" ++ quoted "Done" ++ "}")
         (((((pubs ++ (if c then [system_message v0] else []))
             ++ (if c then [system_message v1] else []))
            ++ (if c then [box_message BreakTime v2 box] else []))
           ++ [summary_message v2])
          ++ (if c then [system_message (reset_session v2)] else []))%list
         (saved_status v2 txt) (saved_status v2 txt)
         (g ++ evs ++ ShiftReg_Write_events regs NUM_SHIFT_REGISTERS)%list d' st0
    /\ Z.testbit (aget 0 regs ((box - 1) / 8)) ((box - 1) mod 8) = SOLENOID_ACTIVE_HIGH.
Proof.
  intros Hpulse Hdone Hcoin Hpos Hsel Hb Hcap Hhoney Hlen Hprice.
  unfold coin_step.
  rewrite !vending_mk.
  destruct (Z.ltb_spec 0 (pulse_count v)); [|lia].
  destruct (Z.leb_spec COIN_TIMEOUT_MS (u32 (now - last_pulse_ms v))); [|lia].
  change (true && true) with true. cbv iota zeta.
  rewrite Hcoin.
  destruct (Z.ltb_spec 0 coin); [|lia].
  rewrite !upd_mk.
  change (set_coins_detected _ (set_last_coin_cents coin (set_total_cents _ v)))
    with (add_coin coin v).
  rewrite !vending_mk.
  match goal with |- context [LCD_WriteText ?r0 ?c0 ?t0 _] =>
    destruct (LCD_WriteText_mk r0 c0 t0 (add_coin coin v) lc resp pubs txt fl g d st0)
      as [d' ->] end.
  unfold HoneyVending_DisplayValues.
  rewrite PublishSystemMQTT_mk, !vending_mk, !upd_mk.
  change (selected_box_id (add_coin coin v)) with (selected_box_id v).
  change (honey_available (add_coin coin v)) with (honey_available v).
  change (box_price (add_coin coin v)) with (box_price v).
  change (total_cents (add_coin coin v)) with (u32 (total_cents v + coin)).
  rewrite Hsel, Hhoney.
  destruct (Z.ltb_spec 0 box); [|lia].
  change (true && negb false) with true. cbv iota.
  destruct (Z.leb_spec (aget 0 (box_price v) (box - 1)) (u32 (total_cents v + coin))); [|lia].
  match goal with |- context [HoneyVending_HoneyAvailable _ (mk ?a ?b ?c ?e ?f ?h ?i ?j ?k)] =>
    destruct (HoneyAvailable_mk box a b c e f h i j k) as [regs [evs [E Hbit]]];
      [exact Hsel | exact Hb | exact Hcap | exact Hlen|] end.
  exists d', regs, evs. cbv zeta in *. split; [|exact Hbit].
  rewrite E, upd_mk. reflexivity.
Qed.

Lemma saved_status_settings v txt :
  saved_status v txt HONEY_SETTINGS_INDEX = status_text v.
Proof. reflexivity. Qed.

Lemma saved_status_timestamp v txt :
  saved_status v txt HONEY_TIMESTAMP_INDEX = timestamp_text v.
Proof. reflexivity. Qed.

Lemma with_last_check_mk x v lc resp pubs txt fl g d st0 :
  with_last_check x (mk v lc resp pubs txt fl g d st0) = mk v x resp pubs txt fl g d st0.
Proof. reflexivity. Qed.

Lemma tick_sale_mk box coin v lc resp pubs txt fl g d st0 :
  initialized v = true ->
  100 <= u32 (millis st0 - lc) ->
  0 < pulse_count v ->
  COIN_TIMEOUT_MS <= u32 (millis st0 - last_pulse_ms v) ->
  PulsesToCents (pulse_count v) = coin ->
  0 < coin ->
  selected_box_id v = box ->
  1 <= box <= box_count v ->
  box <= NUM_SHIFT_REGISTERS * 8 ->
  honey_available v = false ->
  List.length (shift_reg_state v) = 4%nat ->
  aget 0 (box_price v) (box - 1) <= u32 (total_cents v + coin) ->
  exists r u s e0 d' bs regs evs,
    let v0 := add_coin coin (set_locks r u s v) in
    let v1 := set_locks regs box (millis st0) (set_honey_available true v0) in
    let v2 := mark_box box false (utc_time st0) v1 in
    let c := MqttIsConnected st0 in
    HoneyVending_Every100ms BreakTime (mk v lc resp pubs txt fl g d st0)
    = mk (set_last_button_state bs (set_pulse_count 0 (reset_session v2))) (millis st0)
         ("{" ++ quoted (command (XdrvMailbox st0)) ++ ":" ++ quoted "Done" ++ "}")
         (((((pubs ++ (if c then [system_message v0] else []))
             ++ (if c then [system_message v1] else []))
            ++ (if c then [box_message BreakTime v2 box] else []))
           ++ [summary_message v2])
          ++ (if c then [system_message (reset_session v2)] else []))%list
         (saved_status v2 txt) (saved_status v2 txt)
         ((g ++ e0) ++ evs ++ ShiftReg_Write_events regs NUM_SHIFT_REGISTERS)%list d' st0
    /\ Z.testbit (aget 0 regs ((box - 1) / 8)) ((box - 1) mod 8) = SOLENOID_ACTIVE_HIGH.
Proof.
  intros Hinit Hthr Hpulse Hdone Hcoin Hpos Hsel Hb Hcap Hhoney Hlen Hprice.
  unfold HoneyVending_Every100ms.
  rewrite !vending_mk, Hinit.
  change (negb true) with false. cbv iota zeta.
  change (millis (mk v lc resp pubs txt fl g d st0)) with (millis st0).
  change (last_check (mk v lc resp pubs txt fl g d st0)) with lc.
  destruct (Z.ltb_spec (u32 (millis st0 - lc)) 100); [lia|].
  rewrite with_last_check_mk.
  destruct (CheckUnlockTimeout_mk v (millis st0) resp pubs txt fl g d st0)
    as [r [u [s [e0 [-> Hl]]]]].
  destruct (coin_step_mk box coin (millis st0) (set_locks r u s v) (millis st0)
              resp pubs txt fl (g ++ e0)%list d st0)
    as [d1 [regs [evs [E Hbit]]]]; try assumption.
  { rewrite <- Hlen. exact Hl. }
  cbv zeta in E. rewrite E.
  match goal with |- context [button_step (mk ?a ?b ?c ?e ?f ?h ?i ?j ?k)] =>
    destruct (button_step_mk a b c e f h i j k) as [d' [bs ->]] end.
  exists r, u, s, e0, d', bs, regs, evs. cbv zeta. split; [reflexivity | exact Hbit].
Qed.

(** C1. A box is selected, the session is still collecting, and the tick
    meets a finished pulse train of a known coin that lifts the total to the
    price of the box or above.  When the tick handler returns, the line of
    the box is at the unlock level and the new mirror has been shifted out,
    the box is marked empty with the current time and both are saved to the
    settings store (the bit of the box in the saved status word is clear), the
    session is back at its idle values, and, with MQTT
    connected, the system state, the box and the summary have been published;
    the last system message shows the idle session. *)
Theorem C1_sale_completes_within_tick (st : machine) (box coin : Z) :
  initialized (vending st) = true ->
  100 <= u32 (millis st - last_check st) ->
  0 < pulse_count (vending st) ->
  COIN_TIMEOUT_MS <= u32 (millis st - last_pulse_ms (vending st)) ->
  PulsesToCents (pulse_count (vending st)) = coin ->
  0 < coin ->
  selected_box_id (vending st) = box ->
  1 <= box <= box_count (vending st) ->
  box_count (vending st) <= MAX_HONEY_BOX_COUNT ->
  honey_available (vending st) = false ->
  List.length (box_status (vending st)) = 30%nat ->
  List.length (box_last_changed (vending st)) = 30%nat ->
  List.length (shift_reg_state (vending st)) = 4%nat ->
  aget 0 (box_price (vending st)) (box - 1) <= u32 (total_cents (vending st) + coin) ->
  let st' := HoneyVending_Every100ms BreakTime st in
  let v' := vending st' in
  let paid := set_coins_detected (u32 (coins_detected (vending st) + 1))
                (set_total_cents (u32 (total_cents (vending st) + coin)) (vending st)) in
  (box_line v' box = SOLENOID_ACTIVE_HIGH
   /\ unlocked_box_id v' = box
   /\ unlock_start_ms v' = millis st
   /\ exists evs,
        gpio st' = (gpio st ++ evs
                    ++ ShiftReg_Write_events (shift_reg_state v') NUM_SHIFT_REGISTERS)%list)
  /\ (aget false (box_status v') (box - 1) = false
      /\ aget 0 (box_last_changed v') (box - 1) = utc_time st
      /\ settings_flash st' HONEY_SETTINGS_INDEX = status_text v'
      /\ settings_flash st' HONEY_TIMESTAMP_INDEX = timestamp_text v'
      /\ Z.testbit (packed_status v') (box - 1) = false)
  /\ (selected_box_id v' = 0 /\ total_cents v' = 0 /\ coins_detected v' = 0
      /\ honey_available v' = false /\ pulse_count v' = 0)
  /\ (MqttIsConnected st = true ->
      mqtt_published st'
      = (mqtt_published st
         ++ [ system_message paid;
              system_message (set_honey_available true paid);
              box_message BreakTime v' box;
              summary_message v';
              system_message v' ])%list).
Proof.
  intros Hinit Hthr Hpulse Hdone Hcoin Hpos Hsel Hbox Hmax Hhoney Hls Hlt Hlr Hprice st' v' paid.
  unfold MAX_HONEY_BOX_COUNT in Hmax.
  assert (Hcap : box <= NUM_SHIFT_REGISTERS * 8) by (unfold NUM_SHIFT_REGISTERS; lia).
  destruct (tick_sale_mk box coin (vending st) (last_check st) (ResponseData st)
              (mqtt_published st) (settings_text st) (settings_flash st) (gpio st) (lcd st) st)
    as [r [u [s [e0 [d' [bs [regs [evs [E Hbit]]]]]]]]]; try assumption.
  cbv zeta in E. rewrite <- mk_eta in E.
  subst v' st'. rewrite E. rewrite vending_mk.
  split; [|split; [|split]].
  - split; [unfold box_line; simpl; exact Hbit|].
    split; [reflexivity|]. split; [reflexivity|].
    exists (e0 ++ evs)%list. simpl. rewrite <- !app_assoc. reflexivity.
  - split; [simpl; apply aget_aset_same; lia|].
    split; [simpl; apply aget_aset_same; lia|].
    cbn [settings_flash mk].
    rewrite saved_status_settings, saved_status_timestamp.
    split; [apply status_text_ext; simpl; reflexivity|].
    split; [apply timestamp_text_ext; simpl; reflexivity|].
    apply packed_status_clear; [lia|].
    simpl. apply aget_aset_same. lia.
  - simpl. repeat split; reflexivity.
  - intros Hc. cbn [mqtt_published mk]. rewrite Hc. rewrite <- !app_assoc.
    apply (f_equal (app (mqtt_published st))).
    apply cons_eq; [apply system_message_ext; simpl; reflexivity|].
    apply cons_eq; [apply system_message_ext; simpl; reflexivity|].
    apply cons_eq; [apply box_message_ext; simpl; reflexivity|].
    apply cons_eq; [apply summary_message_ext; simpl; reflexivity|].
    apply cons_eq; [apply system_message_ext; simpl; reflexivity | reflexivity].
Qed.

(** ** Numbers as text and back *)

Lemma length_append s t : String.length (s ++ t) = (String.length s + String.length t)%nat.
Proof. induction s as [|c s IH]; simpl; [reflexivity | rewrite IH; reflexivity]. Qed.

Lemma append_nil_r s : (s ++ EmptyString)%string = s.
Proof. induction s as [|c s IH]; simpl; [reflexivity | rewrite IH; reflexivity]. Qed.

Lemma append_assoc s t u : ((s ++ t) ++ u)%string = (s ++ t ++ u)%string.
Proof. induction s as [|c s IH]; simpl; [reflexivity | rewrite IH; reflexivity]. Qed.

Lemma substring_fits s : forall n, (String.length s <= n)%nat -> substring 0 n s = s.
Proof.
  induction s as [|c s IH]; intros [|n] H; simpl in *; try reflexivity; try lia.
  f_equal. apply IH. lia.
Qed.

Lemma snprintf_fits size text : (String.length text < size)%nat -> snprintf size text = text.
Proof. intros H. unfold snprintf. apply substring_fits. lia. Qed.

Lemma all_chars_app P s t :
  all_chars P (s ++ t) = all_chars P s && all_chars P t.
Proof.
  induction s as [|c s IH]; simpl; [reflexivity|].
  rewrite IH. apply andb_assoc.
Qed.

Lemma digits_app fuel base ch : forall n acc rest,
  (digits fuel base ch n acc ++ rest)%string = digits fuel base ch n (acc ++ rest).
Proof.
  induction fuel as [|f IH]; intros n acc rest; simpl; [reflexivity|].
  destruct (n / base =? 0); [reflexivity|]. rewrite IH. reflexivity.
Qed.

Lemma digits_all_chars P fuel base ch :
  0 < base -> (forall d, 0 <= d < base -> P (ch d) = true) ->
  forall n acc, all_chars P acc = true -> all_chars P (digits fuel base ch n acc) = true.
Proof.
  intros Hb Hch. induction fuel as [|f IH]; intros n acc Hacc; simpl; [exact Hacc|].
  assert (H1 : all_chars P (String (ch (n mod base)) acc) = true).
  { simpl. rewrite Hch, Hacc; [reflexivity|]. apply Z.mod_pos_bound. exact Hb. }
  destruct (n / base =? 0); [exact H1|]. apply IH. exact H1.
Qed.

Lemma digits_length fuel base ch : forall n acc,
  (String.length (digits fuel base ch n acc) <= fuel + String.length acc)%nat.
Proof.
  induction fuel as [|f IH]; intros n acc; simpl; [lia|].
  destruct (n / base =? 0); [simpl; lia|].
  specialize (IH (n / base) (String (ch (n mod base)) acc)). simpl in IH. lia.
Qed.

Lemma digits_longer fuel base ch : forall n acc,
  (String.length acc < String.length (digits (S fuel) base ch n acc))%nat.
Proof.
  induction fuel as [|f IH]; intros n acc.
  - simpl. destruct (n / base =? 0); simpl; lia.
  - change (digits (S (S f)) base ch n acc)
      with (if n / base =? 0 then String (ch (n mod base)) acc
            else digits (S f) base ch (n / base) (String (ch (n mod base)) acc)).
    destruct (n / base =? 0); [simpl; lia|].
    specialize (IH (n / base) (String (ch (n mod base)) acc)). simpl in IH. simpl. lia.
Qed.

(** Reading back what [digits] wrote. *)
Lemma strtoul_digits_digits base ch :
  1 < base -> (forall d, 0 <= d < base -> digit_value (ch d) = d) ->
  forall fuel n acc a, 0 <= n < base ^ Z.of_nat fuel ->
  exists m, strtoul_digits base (digits fuel base ch n acc) a
            = strtoul_digits base acc (a * m + n).
Proof.
  intros Hb Hch. induction fuel as [|f IH]; intros n acc a Hn.
  - exists 1. change (Z.of_nat 0) with 0 in Hn. rewrite Z.pow_0_r in Hn.
    simpl. f_equal. lia.
  - assert (Hmod : 0 <= n mod base < base) by (apply Z.mod_pos_bound; lia).
    assert (Hdiv : n = base * (n / base) + n mod base) by (apply Z.div_mod; lia).
    simpl digits.
    destruct (Z.eqb_spec (n / base) 0) as [E | E].
    + exists base. simpl. rewrite (Hch _ Hmod).
      destruct (Z.ltb_spec (n mod base) base); [|lia].
      f_equal. rewrite E in Hdiv. lia.
    + assert (Hq : 0 <= n / base < base ^ Z.of_nat f).
      { split; [apply Z.div_pos; lia|].
        apply Z.div_lt_upper_bound; [lia|].
        replace (Z.of_nat (S f)) with (Z.of_nat f + 1) in Hn by lia.
        rewrite Z.pow_add_r, Z.pow_1_r in Hn by lia. lia. }
      destruct (IH (n / base) (String (ch (n mod base)) acc) a Hq) as [m Hm].
      exists (base * m). rewrite Hm. simpl. rewrite (Hch _ Hmod).
      destruct (Z.ltb_spec (n mod base) base); [|lia].
      f_equal. lia.
Qed.

Lemma digit_value_digit_char d : 0 <= d < 10 -> digit_value (digit_char d) = d.
Proof.
  intros H.
  assert (C : d = 0 \/ d = 1 \/ d = 2 \/ d = 3 \/ d = 4 \/ d = 5 \/ d = 6 \/ d = 7
              \/ d = 8 \/ d = 9) by lia.
  repeat (destruct C as [-> | C]; [reflexivity|]). subst d. reflexivity.
Qed.

Lemma digit_value_hex_char d : 0 <= d < 16 -> digit_value (hex_char d) = d.
Proof.
  intros H.
  assert (C : d = 0 \/ d = 1 \/ d = 2 \/ d = 3 \/ d = 4 \/ d = 5 \/ d = 6 \/ d = 7
              \/ d = 8 \/ d = 9 \/ d = 10 \/ d = 11 \/ d = 12 \/ d = 13 \/ d = 14
              \/ d = 15) by lia.
  repeat (destruct C as [-> | C]; [reflexivity|]). subst d. reflexivity.
Qed.

Lemma is_digit_digit_char d : 0 <= d < 10 -> is_digit (digit_char d) = true.
Proof.
  intros H.
  assert (C : d = 0 \/ d = 1 \/ d = 2 \/ d = 3 \/ d = 4 \/ d = 5 \/ d = 6 \/ d = 7
              \/ d = 8 \/ d = 9) by lia.
  repeat (destruct C as [-> | C]; [reflexivity|]). subst d. reflexivity.
Qed.

Lemma is_HEX_hex_char d : 0 <= d < 16 -> is_HEX (hex_char d) = true.
Proof.
  intros H.
  assert (C : d = 0 \/ d = 1 \/ d = 2 \/ d = 3 \/ d = 4 \/ d = 5 \/ d = 6 \/ d = 7
              \/ d = 8 \/ d = 9 \/ d = 10 \/ d = 11 \/ d = 12 \/ d = 13 \/ d = 14
              \/ d = 15) by lia.
  repeat (destruct C as [-> | C]; [reflexivity|]). subst d. reflexivity.
Qed.

Lemma fmt_lu_digits x : all_chars is_digit (fmt_lu x) = true.
Proof.
  unfold fmt_lu. apply digits_all_chars; [lia | apply is_digit_digit_char | reflexivity].
Qed.

Lemma fmt_lu_length x : (1 <= String.length (fmt_lu x) <= 10)%nat.
Proof.
  unfold fmt_lu. split.
  - pose proof (digits_longer 9 10 digit_char (u32 x) EmptyString). lia.
  - pose proof (digits_length 10 10 digit_char (u32 x) EmptyString). simpl in *. lia.
Qed.

(** A string that starts with a decimal digit is read without sign or
    white space. *)
Lemma is_digit_cases c :
  is_digit c = true ->
  c = "0"%char \/ c = "1"%char \/ c = "2"%char \/ c = "3"%char \/ c = "4"%char
  \/ c = "5"%char \/ c = "6"%char \/ c = "7"%char \/ c = "8"%char \/ c = "9"%char.
Proof.
  destruct c as [[] [] [] [] [] [] [] []]; intros H; try discriminate H; tauto.
Qed.

Lemma is_HEX_cases c :
  is_HEX c = true ->
  is_digit c = true
  \/ c = "A"%char \/ c = "B"%char \/ c = "C"%char \/ c = "D"%char \/ c = "E"%char
  \/ c = "F"%char.
Proof.
  destruct c as [[] [] [] [] [] [] [] []]; intros H; try discriminate H; tauto.
Qed.

Lemma strtoul_dec c r :
  is_digit c = true ->
  strtoul (String c r) 10
  = let value := strtoul_digits 10 (String c r) 0 in
    if ULONG_MAX <? value then ULONG_MAX else value.
Proof.
  intros H. apply is_digit_cases in H.
  repeat (destruct H as [-> | H]; [reflexivity|]). subst c. reflexivity.
Qed.

Lemma strtoul_hex s :
  all_chars is_HEX s = true ->
  strtoul s 16
  = let value := strtoul_digits 16 s 0 in
    if ULONG_MAX <? value then ULONG_MAX else value.
Proof.
  destruct s as [|c r]; [reflexivity|].
  simpl all_chars. intros H. apply andb_prop in H. destruct H as [Hc Hr].
  apply is_HEX_cases in Hc. destruct Hc as [Hc | Hc].
  - apply is_digit_cases in Hc. destruct Hc as [-> | Hc].
    + destruct r as [|c2 r2]; [reflexivity|].
      simpl all_chars in Hr. apply andb_prop in Hr. destruct Hr as [Hc2 _].
      apply is_HEX_cases in Hc2. destruct Hc2 as [Hc2 | Hc2].
      * apply is_digit_cases in Hc2.
        repeat (destruct Hc2 as [-> | Hc2]; [reflexivity|]). subst c2. reflexivity.
      * repeat (destruct Hc2 as [-> | Hc2]; [reflexivity|]). subst c2. reflexivity.
    + repeat (destruct Hc as [-> | Hc]; [reflexivity|]). subst c. reflexivity.
  - repeat (destruct Hc as [-> | Hc]; [reflexivity|]). subst c. reflexivity.
Qed.

Lemma head_is_app P s t : head_is P s = true -> head_is P (s ++ t) = true.
Proof. destruct s; simpl; [discriminate | auto]. Qed.

Lemma fmt_lu_head x : exists c r, fmt_lu x = String c r /\ is_digit c = true.
Proof.
  clear BreakTime. pose proof (fmt_lu_digits x) as H. pose proof (fmt_lu_length x) as L.
  destruct (fmt_lu x) as [|c r]; [simpl in L; lia|].
  simpl in H. apply andb_prop in H. exists c, r. tauto.
Qed.

(** [%lu] read back by [strtoul], whatever follows the number as long as it
    is not another digit. *)
Lemma strtoul_fmt_lu x rest :
  0 <= x < 4294967296 ->
  head_is (fun c => digit_value c <? 10) rest = false ->
  strtoul (fmt_lu x ++ rest) 10 = x.
Proof.
  clear BreakTime. intros Hx Hrest.
  destruct (fmt_lu_head x) as [c [r [E Hc]]].
  assert (Es : (fmt_lu x ++ rest)%string = String c (r ++ rest)) by (rewrite E; reflexivity).
  rewrite Es, strtoul_dec by exact Hc. rewrite <- Es.
  unfold fmt_lu. rewrite digits_app. rewrite u32_small by exact Hx.
  destruct (strtoul_digits_digits 10 digit_char ltac:(lia) digit_value_digit_char
              10 x (EmptyString ++ rest)%string 0) as [m Hm].
  { change (10 ^ Z.of_nat 10) with 10000000000. lia. }
  cbv zeta. rewrite Hm. simpl append.
  replace (0 * m + x) with x by lia.
  assert (Ev : strtoul_digits 10 rest x = x).
  { destruct rest as [|c' r']; [reflexivity|]. simpl in Hrest. simpl. rewrite Hrest.
    reflexivity. }
  rewrite Ev. unfold ULONG_MAX. destruct (Z.ltb_spec 4294967295 x); [lia | reflexivity].
Qed.

Lemma strtoul_digits_zeros base s : 1 < base -> forall k,
  strtoul_digits base (zeros k ++ s) 0 = strtoul_digits base s 0.
Proof.
  intros Hb. induction k as [|k IH]; [reflexivity|].
  simpl. change (digit_value "0") with 0.
  destruct (Z.ltb_spec 0 base); [|lia].
  replace (base * 0 + 0) with 0 by lia. exact IH.
Qed.

Lemma zeros_HEX k : all_chars is_HEX (zeros k) = true.
Proof. induction k as [|k IH]; [reflexivity | simpl; exact IH]. Qed.

Lemma zeros_length k : String.length (zeros k) = k.
Proof. induction k as [|k IH]; [reflexivity | simpl; rewrite IH; reflexivity]. Qed.

(** [%08lX] read back by [strtoul] in base 16. *)
Lemma strtoul_fmt_08lX x :
  0 <= x < 4294967296 -> strtoul (fmt_08lX x) 16 = x.
Proof.
  clear BreakTime. intros Hx. unfold fmt_08lX, zero_pad.
  rewrite strtoul_hex.
  2:{ rewrite all_chars_app, zeros_HEX. cbn [andb].
      apply digits_all_chars; [lia | apply is_HEX_hex_char | reflexivity]. }
  cbv zeta. rewrite strtoul_digits_zeros by lia. rewrite u32_small by exact Hx.
  destruct (strtoul_digits_digits 16 hex_char ltac:(lia) digit_value_hex_char
              8 x EmptyString 0) as [m Hm].
  { change (16 ^ Z.of_nat 8) with 4294967296. lia. }
  rewrite Hm. cbn [strtoul_digits]. replace (0 * m + x) with x by lia.
  unfold ULONG_MAX. destruct (Z.ltb_spec 4294967295 x); [lia | reflexivity].
Qed.

Lemma fmt_08lX_length x : String.length (fmt_08lX x) = 8%nat.
Proof.
  unfold fmt_08lX, zero_pad. rewrite length_append, zeros_length.
  pose proof (digits_length 8 16 hex_char (u32 x) EmptyString) as H.
  change (String.length EmptyString) with 0%nat in H. lia.
Qed.

(** The comma-separated lists of the settings store. *)
Lemma strchr_skip s t c :
  all_chars (fun x => negb (Ascii.eqb x c)) s = true ->
  strchr (s ++ t) c = strchr t c.
Proof.
  induction s as [|x s IH]; intros H; [reflexivity|].
  simpl in H. apply andb_prop in H. destruct H as [Hx Hs].
  simpl. destruct (Ascii.eqb x c); [discriminate Hx|]. apply IH. exact Hs.
Qed.

Lemma all_chars_impl (P Q : ascii -> bool) s :
  (forall c, P c = true -> Q c = true) -> all_chars P s = true -> all_chars Q s = true.
Proof.
  intros HPQ. induction s as [|c s IH]; intros H; [reflexivity|].
  simpl in *. apply andb_prop in H. destruct H as [Hc Hs].
  rewrite (HPQ _ Hc), (IH Hs). reflexivity.
Qed.

Lemma digit_not_comma c : is_digit c = true -> negb (Ascii.eqb c ",") = true.
Proof.
  intros H. apply is_digit_cases in H.
  repeat (destruct H as [-> | H]; [reflexivity|]). subst c. reflexivity.
Qed.

Lemma strchr_fmt_lu x rest : strchr (fmt_lu x ++ rest) "," = strchr rest ",".
Proof.
  apply strchr_skip. apply (all_chars_impl is_digit); [apply digit_not_comma|].
  apply fmt_lu_digits.
Qed.

Lemma comma_list_cons x y l :
  comma_list (x :: y :: l) = (fmt_lu x ++ "," ++ comma_list (y :: l))%string.
Proof. reflexivity. Qed.

Lemma comma_list_length l :
  (String.length (comma_list l) <= 11 * List.length l)%nat.
Proof.
  induction l as [|x l IH]; [simpl; lia|].
  destruct l as [|y l].
  - simpl comma_list. pose proof (fmt_lu_length x). simpl List.length. lia.
  - rewrite comma_list_cons, length_append. pose proof (fmt_lu_length x).
    change (String.length ("," ++ comma_list (y :: l)))
      with (S (String.length (comma_list (y :: l)))).
    simpl List.length in *. lia.
Qed.

Lemma comma_list_nonempty x l : (1 <= String.length (comma_list (x :: l)))%nat.
Proof.
  destruct l as [|y l].
  - simpl. pose proof (fmt_lu_length x). lia.
  - rewrite comma_list_cons, length_append. pose proof (fmt_lu_length x). lia.
Qed.

(** ** Loading what was saved *)

Lemma for_each_cons (i : Z) l body st :
  for_each (i :: l) body st = for_each l body (body i st).
Proof. reflexivity. Qed.

Lemma for_each_ext l (f g : Z -> machine -> machine) : forall st,
  (forall i s, In i l -> f i s = g i s) -> for_each l f st = for_each l g st.
Proof.
  induction l as [|i l IH]; intros st H; [reflexivity|].
  rewrite !for_each_cons, (H i st) by (left; reflexivity).
  apply IH. intros k s Hk. apply H. right. exact Hk.
Qed.

Lemma for_each_price l (g : Z -> Z) : forall st,
  for_each l (fun i s => upd (fun v => set_box_price (aset (box_price v) i (g i)) v) s) st
  = upd (fun v => set_box_price
                    (fold_left (fun t i => aset t i (g i)) l (box_price v)) v) st.
Proof.
  induction l as [|i l IH]; intros st.
  - destruct st as [v]; destruct v; reflexivity.
  - rewrite for_each_cons, IH. reflexivity.
Qed.

Lemma for_each_status l (g : Z -> bool) : forall st,
  for_each l (fun i s => upd (fun v => set_box_status (aset (box_status v) i (g i)) v) s) st
  = upd (fun v => set_box_status
                    (fold_left (fun t i => aset t i (g i)) l (box_status v)) v) st.
Proof.
  induction l as [|i l IH]; intros st.
  - destruct st as [v]; destruct v; reflexivity.
  - rewrite for_each_cons, IH. reflexivity.
Qed.

Lemma for_each_changed l (g : Z -> Z) : forall st,
  for_each l (fun i s => upd (fun v => set_box_last_changed
                                         (aset (box_last_changed v) i (g i)) v) s) st
  = upd (fun v => set_box_last_changed
                    (fold_left (fun t i => aset t i (g i)) l (box_last_changed v)) v) st.
Proof.
  induction l as [|i l IH]; intros st.
  - destruct st as [v]; destruct v; reflexivity.
  - rewrite for_each_cons, IH. reflexivity.
Qed.

Lemma fold_aset_length {A} (g : Z -> A) l : forall t,
  List.length (fold_left (fun t i => aset t i (g i)) l t) = List.length t.
Proof.
  induction l as [|a l IH]; intros t; [reflexivity|].
  simpl. rewrite IH. apply aset_length.
Qed.

(** The table after a loop that writes [g i] at every index [i] of [l]. *)
Lemma aget_fold_aset {A} (d : A) (g : Z -> A) l : forall t k,
  (forall i, In i l -> 0 <= i) ->
  0 <= k < Z.of_nat (List.length t) ->
  aget d (fold_left (fun t i => aset t i (g i)) l t) k
  = if existsb (Z.eqb k) l then g k else aget d t k.
Proof.
  induction l as [|a l IH]; intros t k Hl Hk; [reflexivity|].
  simpl fold_left. rewrite IH.
  - simpl existsb. destruct (Z.eqb_spec k a) as [-> | Hne].
    + simpl. rewrite aget_aset_same by exact Hk.
      destruct (existsb (Z.eqb a) l); reflexivity.
    + simpl. rewrite aget_aset_other; [reflexivity | | lia | congruence].
      apply Hl. left. reflexivity.
  - intros i Hi. apply Hl. right. exact Hi.
  - rewrite aset_length. exact Hk.
Qed.

Lemma existsb_zrange k a b : existsb (Z.eqb k) (zrange a b) = (a <=? k) && (k <=? b).
Proof.
  destruct (existsb (Z.eqb k) (zrange a b)) eqn:E.
  - apply existsb_exists in E. destruct E as [x [Hx Hk]].
    apply In_zrange in Hx. apply Z.eqb_eq in Hk. subst x.
    symmetry. apply andb_true_intro. split; apply Z.leb_le; lia.
  - symmetry. apply not_true_is_false. intros H. apply andb_prop in H.
    destruct H as [H1 H2]. apply Z.leb_le in H1, H2.
    assert (Ex : existsb (Z.eqb k) (zrange a b) = true).
    { apply existsb_exists. exists k. split; [apply In_zrange; lia | apply Z.eqb_refl]. }
    congruence.
Qed.

Lemma aget_fold_zrange {A} (d : A) (g : Z -> A) n t k :
  0 <= k < Z.of_nat (List.length t) ->
  aget d (fold_left (fun t i => aset t i (g i)) (zrange 0 (n - 1)) t) k
  = if k <? n then g k else aget d t k.
Proof.
  intros Hk. rewrite aget_fold_aset; [| | exact Hk].
  - rewrite existsb_zrange.
    destruct (Z.leb_spec 0 k); [|lia].
    destruct (Z.leb_spec k (n - 1)), (Z.ltb_spec k n); try lia; reflexivity.
  - intros i Hi. apply In_zrange in Hi. lia.
Qed.

Lemma zrange_length a b : a <= b + 1 -> Z.of_nat (List.length (zrange a b)) = b + 1 - a.
Proof. intros H. unfold zrange. rewrite length_map, length_seq. lia. Qed.

(** The loops of the load functions on a list the save functions wrote. *)
Lemma LoadPrices_loop_comma (f : Z -> Z) : forall boxes st,
  (forall i, In i boxes -> 0 <= f i < 4294967296) ->
  LoadPrices_loop boxes (comma_list (map f boxes)) st
  = for_each boxes
      (fun i s => upd (fun v => set_box_price
                                  (aset (box_price v) i
                                        (if 0 <? f i then f i else DEFAULT_PRICE_CENTS)) v) s) st.
Proof.
  induction boxes as [|i rest IH]; intros st H; [reflexivity|].
  assert (Hi : 0 <= f i < 4294967296) by (apply H; left; reflexivity).
  destruct rest as [|j rest].
  - change (comma_list (map f [i])) with (fmt_lu (f i)).
    cbn [LoadPrices_loop].
    rewrite <- (append_nil_r (fmt_lu (f i))).
    rewrite strtoul_fmt_lu, strchr_fmt_lu by (try exact Hi; reflexivity).
    reflexivity.
  - change (map f (i :: j :: rest)) with (f i :: f j :: map f rest).
    rewrite comma_list_cons.
    change (f j :: map f rest) with (map f (j :: rest)).
    remember (j :: rest) as others eqn:Eo.
    cbn [LoadPrices_loop].
    rewrite strtoul_fmt_lu, strchr_fmt_lu by (try exact Hi; reflexivity).
    change (strchr ("," ++ comma_list (map f others)) ",")
      with (Some ("," ++ comma_list (map f others))%string).
    cbv iota. change (str_skip 1 ("," ++ comma_list (map f others)))
      with (comma_list (map f others)).
    rewrite IH; [reflexivity|]. intros k Hk. apply H. right. exact Hk.
Qed.

Lemma LoadStatus_loop_comma (f : Z -> Z) : forall boxes st,
  (forall i, In i boxes -> 0 <= f i < 4294967296) ->
  LoadStatus_loop boxes (comma_list (map f boxes)) st
  = for_each boxes
      (fun i s => upd (fun v => set_box_last_changed
                                  (aset (box_last_changed v) i (f i)) v) s) st.
Proof.
  induction boxes as [|i rest IH]; intros st H; [reflexivity|].
  assert (Hi : 0 <= f i < 4294967296) by (apply H; left; reflexivity).
  destruct rest as [|j rest].
  - change (comma_list (map f [i])) with (fmt_lu (f i)).
    cbn [LoadStatus_loop].
    rewrite <- (append_nil_r (fmt_lu (f i))).
    rewrite strtoul_fmt_lu, strchr_fmt_lu by (try exact Hi; reflexivity).
    reflexivity.
  - change (map f (i :: j :: rest)) with (f i :: f j :: map f rest).
    rewrite comma_list_cons.
    change (f j :: map f rest) with (map f (j :: rest)).
    remember (j :: rest) as others eqn:Eo.
    cbn [LoadStatus_loop].
    rewrite strtoul_fmt_lu, strchr_fmt_lu by (try exact Hi; reflexivity).
    change (strchr ("," ++ comma_list (map f others)) ",")
      with (Some ("," ++ comma_list (map f others))%string).
    cbv iota. change (str_skip 1 ("," ++ comma_list (map f others)))
      with (comma_list (map f others)).
    rewrite IH; [reflexivity|]. intros k Hk. apply H. right. exact Hk.
Qed.

(** A saved list of up to thirty numbers fits its 512-byte buffer. *)
Lemma tagged_list_fits (tag : string) (f : Z -> Z) n :
  String.length tag = 2%nat -> 1 <= n <= 30 ->
  let text := (tag ++ comma_list (map f (zrange 0 (n - 1))))%string in
  snprintf 512 text = text /\ (2 < strlen text).
Proof.
  intros Htag Hn text.
  assert (Hlen : Z.of_nat (List.length (map f (zrange 0 (n - 1)))) = n).
  { rewrite length_map, zrange_length by lia. lia. }
  pose proof (comma_list_length (map f (zrange 0 (n - 1)))) as Hup.
  assert (Hlo : (1 <= String.length (comma_list (map f (zrange 0 (n - 1)))))%nat).
  { rewrite zrange_cons by lia. apply comma_list_nonempty. }
  split.
  - apply snprintf_fits. subst text. rewrite length_append, Htag. lia.
  - unfold strlen. subst text. rewrite length_append, Htag. lia.
Qed.

Lemma LoadPrices_saved (f : Z -> Z) st :
  1 <= box_count (vending st) <= 30 ->
  (forall i, 0 <= i < box_count (vending st) -> 0 <= f i < 4294967296) ->
  settings_text st HONEY_PRICE_INDEX
  = snprintf 512 ("P:" ++ comma_list (map f (zrange 0 (box_count (vending st) - 1)))) ->
  HoneyVending_LoadPrices st
  = upd (fun v => set_box_price
                    (fold_left (fun t i => aset t i (if 0 <? f i then f i
                                                     else DEFAULT_PRICE_CENTS))
                               (zrange 0 (box_count (vending st) - 1)) (box_price v)) v) st.
Proof.
  intros Hn Hf Htext. unfold HoneyVending_LoadPrices. rewrite Htext.
  destruct (tagged_list_fits "P:" f (box_count (vending st)) eq_refl Hn) as [Hfit Hlen].
  cbv zeta in Hfit, Hlen. rewrite Hfit.
  destruct (Z.ltb_spec 2 (strlen ("P:" ++ comma_list
                                    (map f (zrange 0 (box_count (vending st) - 1))))));
    [|lia].
  change (char_at ("P:" ++ ?s) 0) with "P"%char.
  change (char_at ("P:" ++ ?s) 1) with ":"%char.
  change (str_skip 2 ("P:" ++ ?s)) with s.
  cbn [andb Ascii.eqb Bool.eqb].
  rewrite LoadPrices_loop_comma.
  - apply for_each_price.
  - intros i Hi. apply In_zrange in Hi. apply Hf. lia.
Qed.

Lemma land_bit_test p i : 0 <= i -> negb (Z.land p (Z.shiftl 1 i) =? 0) = Z.testbit p i.
Proof.
  intros Hi. destruct (Z.testbit p i) eqn:E.
  - destruct (Z.eqb_spec (Z.land p (Z.shiftl 1 i)) 0) as [H0 | H0]; [|reflexivity].
    apply (f_equal (fun x => Z.testbit x i)) in H0.
    rewrite Z.land_spec, E, Z.shiftl_spec, Z.sub_diag, Z.bits_0 in H0 by lia.
    discriminate H0.
  - assert (H0 : Z.land p (Z.shiftl 1 i) = 0).
    { apply Z.bits_inj'. intros k Hk.
      rewrite Z.land_spec, Z.shiftl_spec, testbit_one, Z.bits_0 by lia.
      destruct (Z.eqb_spec (k - i) 0) as [Ek | Ek].
      - replace k with i by lia. rewrite E. reflexivity.
      - apply andb_false_r. }
    rewrite H0. reflexivity.
Qed.

Lemma LoadStatus_saved (packed : Z) (g : Z -> Z) st :
  1 <= box_count (vending st) <= 30 ->
  0 <= packed < 4294967296 ->
  (forall i, 0 <= i < box_count (vending st) -> 0 <= g i < 4294967296) ->
  settings_text st HONEY_SETTINGS_INDEX = snprintf 16 ("H" ++ fmt_08lX packed) ->
  settings_text st HONEY_TIMESTAMP_INDEX
  = snprintf 512 ("T:" ++ comma_list (map g (zrange 0 (box_count (vending st) - 1)))) ->
  HoneyVending_LoadStatus st
  = upd (fun v => set_box_last_changed
                    (fold_left (fun t i => aset t i (g i))
                               (zrange 0 (box_count (vending st) - 1)) (box_last_changed v))
                    (set_box_status
                       (fold_left (fun t i => aset t i (Z.testbit packed i))
                                  (zrange 0 (box_count (vending st) - 1)) (box_status v)) v))
        st.
Proof.
  intros Hn Hp Hg Hs Ht. unfold HoneyVending_LoadStatus. rewrite Hs.
  rewrite snprintf_fits.
  2:{ change (String.length ("H" ++ fmt_08lX packed))
        with (S (String.length (fmt_08lX packed))).
      rewrite fmt_08lX_length. lia. }
  assert (Hlen : strlen ("H" ++ fmt_08lX packed) = 9).
  { unfold strlen. change (String.length ("H" ++ fmt_08lX packed))
      with (S (String.length (fmt_08lX packed))).
    rewrite fmt_08lX_length. reflexivity. }
  rewrite Hlen.
  change (char_at ("H" ++ ?s) 0) with "H"%char.
  change (str_skip 1 ("H" ++ ?s)) with s.
  change ((5 <=? 9) && Ascii.eqb "H" "H") with true. cbv iota.
  rewrite strtoul_fmt_08lX, u32_small by exact Hp.
  rewrite (for_each_ext (zrange 0 (box_count (vending st) - 1)) _
             (fun i s => upd (fun v => set_box_status
                                         (aset (box_status v) i (Z.testbit packed i)) v) s)).
  2:{ intros i s Hi. apply In_zrange in Hi. rewrite land_bit_test by lia. reflexivity. }
  rewrite for_each_status.
  change (settings_text (upd ?f st) HONEY_TIMESTAMP_INDEX)
    with (settings_text st HONEY_TIMESTAMP_INDEX).
  rewrite Ht.
  destruct (tagged_list_fits "T:" g (box_count (vending st)) eq_refl Hn) as [Hfit Hl2].
  cbv zeta in Hfit, Hl2. rewrite Hfit.
  destruct (Z.ltb_spec 2 (strlen ("T:" ++ comma_list
                                    (map g (zrange 0 (box_count (vending st) - 1))))));
    [|lia].
  change (char_at ("T:" ++ ?s) 0) with "T"%char.
  change (char_at ("T:" ++ ?s) 1) with ":"%char.
  change (str_skip 2 ("T:" ++ ?s)) with s.
  cbn [andb Ascii.eqb Bool.eqb].
  change (box_count (vending (upd ?f st))) with (box_count (vending st)).
  rewrite LoadStatus_loop_comma.
  - rewrite for_each_changed. reflexivity.
  - intros i Hi. apply In_zrange in Hi. apply Hg. lia.
Qed.

(** ** The box count in the settings store *)

Lemma count_text_parse n :
  0 <= n < 256 ->
  let stored := snprintf 10 ("C" ++ fmt_02d n) in
  ((3 <=? strlen stored) && Ascii.eqb (char_at stored 0) "C") = true
  /\ u8 (atoi (str_skip 1 stored)) = n.
Proof.
  intros Hn.
  assert (Hall : forallb (fun n => let stored := snprintf 10 ("C" ++ fmt_02d n) in
                            (3 <=? strlen stored) && Ascii.eqb (char_at stored 0) "C"
                            && (u8 (atoi (str_skip 1 stored)) =? n))
                         (zrange 0 255) = true) by (vm_compute; reflexivity).
  rewrite forallb_forall in Hall. specialize (Hall n).
  cbv zeta in Hall |- *. rewrite In_zrange in Hall.
  destruct (andb_prop _ _ (Hall ltac:(lia))) as [H1 H2].
  split; [exact H1 | apply Z.eqb_eq; exact H2].
Qed.

Lemma LoadBoxCount_default st :
  vending (HoneyVending_SaveBoxCount (upd (set_box_count DEFAULT_HONEY_BOX_COUNT) st))
  = set_box_count DEFAULT_HONEY_BOX_COUNT (vending st).
Proof. reflexivity. Qed.

Lemma LoadBoxCount_saved n st :
  1 <= n <= 30 ->
  settings_text st HONEY_BOX_COUNT_INDEX = snprintf 10 ("C" ++ fmt_02d n) ->
  HoneyVending_LoadBoxCount st = upd (set_box_count n) st.
Proof.
  intros Hn Ht. unfold HoneyVending_LoadBoxCount. rewrite Ht.
  destruct (count_text_parse n ltac:(lia)) as [H1 H2]. cbv zeta in H1, H2.
  rewrite H1, H2. unfold MAX_HONEY_BOX_COUNT.
  destruct (Z.leb_spec 1 n); [|lia]. destruct (Z.leb_spec n 30); [|lia]. reflexivity.
Qed.

(** X1.  Whatever text the settings store holds for the box count, the count
    [HoneyVending_LoadBoxCount] leaves is between 1 and 30.  A text that is
    shorter than three bytes or does not begin with C gives the default of
    15, which is saved at once as C15. *)
Theorem X1_LoadBoxCount_range (st : machine) :
  let stored := settings_text st HONEY_BOX_COUNT_INDEX in
  let st' := HoneyVending_LoadBoxCount st in
  1 <= box_count (vending st') <= MAX_HONEY_BOX_COUNT
  /\ ((strlen stored < 3 \/ char_at stored 0 <> "C"%char) ->
      box_count (vending st') = DEFAULT_HONEY_BOX_COUNT
      /\ settings_flash st' HONEY_BOX_COUNT_INDEX = "C15").
Proof.
  cbv zeta. unfold HoneyVending_LoadBoxCount.
  destruct (Z.leb_spec 3 (strlen (settings_text st HONEY_BOX_COUNT_INDEX))) as [Hl | Hl];
    cbn [andb].
  - destruct (Ascii.eqb_spec (char_at (settings_text st HONEY_BOX_COUNT_INDEX) 0) "C")
      as [Hc | Hc].
    + destruct (Z.leb_spec 1 (u8 (atoi (str_skip 1 (settings_text st HONEY_BOX_COUNT_INDEX)))));
        cbn [andb].
      * destruct (Z.leb_spec (u8 (atoi (str_skip 1 (settings_text st HONEY_BOX_COUNT_INDEX))))
                             MAX_HONEY_BOX_COUNT).
        -- split; [cbn [vending upd with_vending box_count set_box_count]; lia|].
           intros [H1 | H1]; [lia | congruence].
        -- split; [vm_compute; split; discriminate|].
           intros _. split; reflexivity.
      * split; [vm_compute; split; discriminate|].
        intros _. split; reflexivity.
    + split; [vm_compute; split; discriminate|].
      intros _. split; reflexivity.
  - split; [vm_compute; split; discriminate|].
    intros _. split; reflexivity.
Qed.

(** X2.  Saving the box count and loading it again gives the same count when
    it is between 1 and 30; any other count of the 8-bit field comes back as
    the default of 15. *)
Theorem X2_box_count_round_trip (st : machine) :
  0 <= box_count (vending st) < 256 ->
  box_count (vending (HoneyVending_LoadBoxCount (HoneyVending_SaveBoxCount st)))
  = if (1 <=? box_count (vending st)) && (box_count (vending st) <=? MAX_HONEY_BOX_COUNT)
    then box_count (vending st) else DEFAULT_HONEY_BOX_COUNT.
Proof.
  intros Hn. unfold HoneyVending_LoadBoxCount.
  change (settings_text (HoneyVending_SaveBoxCount st) HONEY_BOX_COUNT_INDEX)
    with (snprintf 10 ("C" ++ fmt_02d (box_count (vending st)))).
  destruct (count_text_parse (box_count (vending st)) Hn) as [H1 H2]. cbv zeta in H1, H2.
  rewrite H1, H2.
  destruct ((1 <=? box_count (vending st)) && (box_count (vending st) <=? MAX_HONEY_BOX_COUNT));
    reflexivity.
Qed.

(** ** The status word *)

Lemma fold_packed_testbit (status : Z -> bool) k l : forall acc,
  0 <= k < 32 ->
  (forall i, In i l -> 0 <= i) ->
  Z.testbit (fold_left (fun packed i =>
                          if status i then u32 (Z.lor packed (Z.shiftl 1 i)) else packed)
                       l acc) k
  = Z.testbit acc k || (existsb (Z.eqb k) l && status k).
Proof.
  induction l as [|a l IH]; intros acc Hk Hpos.
  - simpl. rewrite orb_false_r. reflexivity.
  - simpl fold_left. rewrite IH; [|exact Hk|intros i Hi; apply Hpos; right; exact Hi].
    simpl existsb.
    assert (Ha : 0 <= a) by (apply Hpos; left; reflexivity).
    destruct (status a) eqn:Ea.
    + rewrite u32_testbit, Z.lor_spec, Z.shiftl_spec, testbit_one by lia.
      destruct (Z.eqb_spec k a) as [-> | Hne].
      * rewrite Z.sub_diag, Ea. simpl.
        destruct (Z.testbit acc a), (existsb (Z.eqb a) l); reflexivity.
      * destruct (Z.eqb_spec (k - a) 0); [lia|].
        rewrite orb_false_r. reflexivity.
    + destruct (Z.eqb_spec k a) as [-> | Hne]; [|reflexivity].
      rewrite Ea. rewrite !andb_false_r. reflexivity.
Qed.

Lemma fold_packed_range (status : Z -> bool) l : forall acc,
  0 <= acc < 4294967296 ->
  0 <= fold_left (fun packed i =>
                    if status i then u32 (Z.lor packed (Z.shiftl 1 i)) else packed) l acc
    < 4294967296.
Proof.
  induction l as [|a l IH]; intros acc Hacc; [exact Hacc|].
  simpl. apply IH. destruct (status a); [apply u32_range | exact Hacc].
Qed.

Lemma packed_status_range v : 0 <= packed_status v < 4294967296.
Proof. unfold packed_status. apply fold_packed_range. lia. Qed.

Lemma packed_status_testbit v k :
  0 <= k < box_count v -> box_count v <= 32 ->
  Z.testbit (packed_status v) k = aget false (box_status v) k.
Proof.
  intros Hk Hn. unfold packed_status.
  rewrite fold_packed_testbit; [|lia|intros i Hi; apply In_zrange in Hi; lia].
  rewrite Z.bits_0, existsb_zrange.
  destruct (Z.leb_spec 0 k); [|lia]. destruct (Z.leb_spec k (box_count v - 1)); [|lia].
  reflexivity.
Qed.

(** ** Prices, status and time stamps in the settings store *)

Lemma price_norm x : 0 <= x -> (if 0 <? x then x else DEFAULT_PRICE_CENTS)
                              = (if x =? 0 then DEFAULT_PRICE_CENTS else x).
Proof.
  intros H. destruct (Z.ltb_spec 0 x), (Z.eqb_spec x 0); try lia; reflexivity.
Qed.

(** X3.  Saving the prices and loading them again gives every configured
    box the price it had; only a price of 0 comes back as the default of 500
    cents. *)
Theorem X3_prices_round_trip (st : machine) (b : Z) :
  1 <= box_count (vending st) <= MAX_HONEY_BOX_COUNT ->
  List.length (box_price (vending st)) = 30%nat ->
  (forall i, 0 <= i < box_count (vending st) ->
             0 <= aget 0 (box_price (vending st)) i < 4294967296) ->
  1 <= b <= box_count (vending st) ->
  HoneyVending_GetPrice b (HoneyVending_LoadPrices (HoneyVending_SavePrices st))
  = if HoneyVending_GetPrice b st =? 0 then DEFAULT_PRICE_CENTS
    else HoneyVending_GetPrice b st.
Proof.
  unfold MAX_HONEY_BOX_COUNT. intros Hn Hlen Hp Hb.
  rewrite (LoadPrices_saved (aget 0 (box_price (vending st))) (HoneyVending_SavePrices st));
    [| exact Hn | exact Hp | reflexivity].
  unfold HoneyVending_GetPrice.
  change (box_count (vending (upd ?f (HoneyVending_SavePrices st))))
    with (box_count (vending st)).
  destruct (Z.ltb_spec b 1); [lia|].
  destruct (Z.ltb_spec (box_count (vending st)) b); [lia|]. cbn [orb].
  change (box_price (vending (upd ?f (HoneyVending_SavePrices st))))
    with (fold_left (fun t i => aset t i (if 0 <? aget 0 (box_price (vending st)) i
                                          then aget 0 (box_price (vending st)) i
                                          else DEFAULT_PRICE_CENTS))
                    (zrange 0 (box_count (vending (HoneyVending_SavePrices st)) - 1))
                    (box_price (vending st))).
  change (box_count (vending (HoneyVending_SavePrices st))) with (box_count (vending st)).
  rewrite aget_fold_zrange by (rewrite Hlen; lia).
  destruct (Z.ltb_spec (b - 1) (box_count (vending st))); [|lia].
  apply price_norm. apply Hp. lia.
Qed.

(** X4.  Saving the status word and the time stamps and loading them again
    gives every configured box the status and the time of last change it
    had. *)
Theorem X4_status_round_trip (st : machine) (b : Z) :
  1 <= box_count (vending st) <= MAX_HONEY_BOX_COUNT ->
  List.length (box_status (vending st)) = 30%nat ->
  List.length (box_last_changed (vending st)) = 30%nat ->
  (forall i, 0 <= i < box_count (vending st) ->
             0 <= aget 0 (box_last_changed (vending st)) i < 4294967296) ->
  1 <= b <= box_count (vending st) ->
  let st' := HoneyVending_LoadStatus (HoneyVending_SaveStatus st) in
  HoneyVending_GetStatus b st' = HoneyVending_GetStatus b st
  /\ HoneyVending_GetTimestamp b st' = HoneyVending_GetTimestamp b st.
Proof.
  unfold MAX_HONEY_BOX_COUNT. intros Hn Hls Hlc Ht Hb. cbv zeta.
  rewrite (LoadStatus_saved (packed_status (vending st))
             (aget 0 (box_last_changed (vending st))) (HoneyVending_SaveStatus st));
    [| exact Hn | apply packed_status_range | exact Ht | reflexivity | reflexivity].
  unfold HoneyVending_GetStatus, HoneyVending_GetTimestamp.
  change (box_count (vending (upd ?f (HoneyVending_SaveStatus st))))
    with (box_count (vending st)).
  destruct (Z.ltb_spec b 1); [lia|].
  destruct (Z.ltb_spec (box_count (vending st)) b); [lia|]. cbn [orb].
  split.
  - change (box_status (vending (upd ?f (HoneyVending_SaveStatus st))))
      with (fold_left (fun t i => aset t i (Z.testbit (packed_status (vending st)) i))
                      (zrange 0 (box_count (vending (HoneyVending_SaveStatus st)) - 1))
                      (box_status (vending st))).
    change (box_count (vending (HoneyVending_SaveStatus st))) with (box_count (vending st)).
    rewrite aget_fold_zrange by (rewrite Hls; lia).
    destruct (Z.ltb_spec (b - 1) (box_count (vending st))); [|lia].
    apply packed_status_testbit; lia.
  - change (box_last_changed (vending (upd ?f (HoneyVending_SaveStatus st))))
      with (fold_left (fun t i => aset t i (aget 0 (box_last_changed (vending st)) i))
                      (zrange 0 (box_count (vending (HoneyVending_SaveStatus st)) - 1))
                      (box_last_changed (vending st))).
    change (box_count (vending (HoneyVending_SaveStatus st))) with (box_count (vending st)).
    rewrite aget_fold_zrange by (rewrite Hlc; lia).
    destruct (Z.ltb_spec (b - 1) (box_count (vending st))); [|lia]. reflexivity.
Qed.

(** ** Start-up *)

Lemma for_each_mirror_inventory l x : forall st,
  inventory (vending (for_each l
     (fun i s => upd (fun v => set_shift_reg_state (aset (shift_reg_state v) i x) v) s) st))
  = inventory (vending st).
Proof. intros st. rewrite for_each_mirror. reflexivity. Qed.

(** The shift register, the motor, the display and the buttons start up
    without touching the stock. *)
Lemma hardware_init_inventory st :
  inventory (vending (MCP23017_Init (LCD_Init (Motor_Init (ShiftReg_Init st)))))
  = inventory (vending st).
Proof.
  unfold MCP23017_Init, LCD_Init.
  match goal with |- context [LCD_WriteText 1 0 ?t ?s] =>
    destruct (LCD_WriteText_shape 1 0 t s) as [d1 ->] end.
  match goal with |- context [LCD_WriteText 0 0 ?t ?s] =>
    destruct (LCD_WriteText_shape 0 0 t s) as [d0 ->] end.
  unfold Motor_Init, ShiftReg_Init, ShiftReg_Write.
  rewrite <- (for_each_mirror_inventory (zrange 0 (NUM_SHIFT_REGISTERS - 1)) locked_word st).
  reflexivity.
Qed.

Lemma inventory_inj v w :
  inventory v = inventory w ->
  box_count v = box_count w /\ box_status v = box_status w
  /\ box_price v = box_price w /\ box_last_changed v = box_last_changed w.
Proof. unfold inventory. intros H. injection H. auto. Qed.

(** What the three load functions leave when the settings store holds what
    [save_all] wrote for the struct [v]. *)
Lemma load_saved (v : vending_t) (st : machine) :
  1 <= box_count v <= 30 ->
  (forall i, 0 <= i < box_count v -> 0 <= aget 0 (box_price v) i < 4294967296) ->
  (forall i, 0 <= i < box_count v -> 0 <= aget 0 (box_last_changed v) i < 4294967296) ->
  settings_text st HONEY_BOX_COUNT_INDEX = snprintf 10 ("C" ++ fmt_02d (box_count v)) ->
  settings_text st HONEY_SETTINGS_INDEX = status_text v ->
  settings_text st HONEY_TIMESTAMP_INDEX = timestamp_text v ->
  settings_text st HONEY_PRICE_INDEX = price_text v ->
  HoneyVending_LoadPrices (HoneyVending_LoadStatus (HoneyVending_LoadBoxCount st))
  = upd (fun w =>
           set_box_price
             (fold_left (fun t i => aset t i (if 0 <? aget 0 (box_price v) i
                                              then aget 0 (box_price v) i
                                              else DEFAULT_PRICE_CENTS))
                        (zrange 0 (box_count v - 1)) (box_price w))
             (set_box_last_changed
                (fold_left (fun t i => aset t i (aget 0 (box_last_changed v) i))
                           (zrange 0 (box_count v - 1)) (box_last_changed w))
                (set_box_status
                   (fold_left (fun t i => aset t i (Z.testbit (packed_status v) i))
                              (zrange 0 (box_count v - 1)) (box_status w))
                   (set_box_count (box_count v) w)))) st.
Proof.
  intros Hn Hp Ht Hc Hs Hts Hpr.
  rewrite (LoadBoxCount_saved (box_count v) st Hn Hc).
  set (s1 := upd (set_box_count (box_count v)) st).
  assert (E1 : box_count (vending s1) = box_count v) by reflexivity.
  pose proof (LoadStatus_saved (packed_status v) (aget 0 (box_last_changed v)) s1) as L.
  rewrite E1 in L. rewrite L; [| exact Hn | apply packed_status_range | exact Ht
                               | exact Hs | exact Hts ].
  clear L.
  match goal with |- HoneyVending_LoadPrices ?s = _ => set (s2 := s) end.
  assert (E2 : box_count (vending s2) = box_count v) by reflexivity.
  pose proof (LoadPrices_saved (aget 0 (box_price v)) s2) as L.
  rewrite E2 in L. rewrite L; [| exact Hn | exact Hp | exact Hpr ].
  reflexivity.
Qed.

Lemma zero_tables_length :
  List.length (box_status zero_vending) = 30%nat
  /\ List.length (box_price zero_vending) = 30%nat
  /\ List.length (box_last_changed zero_vending) = 30%nat.
Proof. repeat split; reflexivity. Qed.

(** X5.  A restart brings the stock back.  When the settings store holds
    what the save functions wrote for up to thirty boxes with prices above
    zero, [HoneyVending_Init] ends with the same box count and, for every
    configured box, the same status, price and time of last change, although
    it clears the whole struct first. *)
Theorem X5_Init_restores_inventory (chip : Z) (st : machine) (b : Z) :
  1 <= box_count (vending st) <= MAX_HONEY_BOX_COUNT ->
  (forall i, 0 <= i < box_count (vending st) ->
             0 < aget 0 (box_price (vending st)) i < 4294967296) ->
  (forall i, 0 <= i < box_count (vending st) ->
             0 <= aget 0 (box_last_changed (vending st)) i < 4294967296) ->
  1 <= b <= box_count (vending st) ->
  let st' := HoneyVending_Init chip (save_all st) in
  box_count (vending st') = box_count (vending st)
  /\ HoneyVending_GetStatus b st' = HoneyVending_GetStatus b st
  /\ HoneyVending_GetPrice b st' = HoneyVending_GetPrice b st
  /\ HoneyVending_GetTimestamp b st' = HoneyVending_GetTimestamp b st.
Proof.
  unfold MAX_HONEY_BOX_COUNT. intros Hn Hp Ht Hb. cbv zeta.
  unfold HoneyVending_Init.
  match goal with |- context [HoneyVending_LoadBoxCount ?s] => set (st0 := s) end.
  pose proof (hardware_init_inventory
                (HoneyVending_LoadPrices (HoneyVending_LoadStatus
                   (HoneyVending_LoadBoxCount st0)))) as Hinv.
  rewrite (load_saved (vending st) st0) in Hinv;
    [| exact Hn | intros i Hi; specialize (Hp i Hi); lia | exact Ht
     | reflexivity | reflexivity | reflexivity | reflexivity ].
  rewrite (load_saved (vending st) st0);
    [| exact Hn | intros i Hi; specialize (Hp i Hi); lia | exact Ht
     | reflexivity | reflexivity | reflexivity | reflexivity ].
  apply inventory_inj in Hinv. destruct Hinv as [Ec [Es [Epr Ech]]].
  unfold HoneyVending_GetStatus, HoneyVending_GetPrice, HoneyVending_GetTimestamp.
  rewrite Ec, Es, Epr, Ech.
  change (box_count (vending (upd ?f st0))) with (box_count (vending st)).
  destruct (Z.ltb_spec b 1); [lia|].
  destruct (Z.ltb_spec (box_count (vending st)) b); [lia|]. cbn [orb].
  split; [reflexivity|].
  destruct zero_tables_length as [L1 [L2 L3]].
  split; [|split].
  - change (box_status (vending (upd ?f st0)))
      with (fold_left (fun t i => aset t i (Z.testbit (packed_status (vending st)) i))
                      (zrange 0 (box_count (vending st) - 1)) (box_status zero_vending)).
    rewrite aget_fold_zrange by (rewrite L1; lia).
    destruct (Z.ltb_spec (b - 1) (box_count (vending st))); [|lia].
    apply packed_status_testbit; lia.
  - change (box_price (vending (upd ?f st0)))
      with (fold_left (fun t i => aset t i (if 0 <? aget 0 (box_price (vending st)) i
                                            then aget 0 (box_price (vending st)) i
                                            else DEFAULT_PRICE_CENTS))
                      (zrange 0 (box_count (vending st) - 1)) (box_price zero_vending)).
    rewrite aget_fold_zrange by (rewrite L2; lia).
    destruct (Z.ltb_spec (b - 1) (box_count (vending st))); [|lia].
    specialize (Hp (b - 1) ltac:(lia)).
    destruct (Z.ltb_spec 0 (aget 0 (box_price (vending st)) (b - 1))); [reflexivity | lia].
  - change (box_last_changed (vending (upd ?f st0)))
      with (fold_left (fun t i => aset t i (aget 0 (box_last_changed (vending st)) i))
                      (zrange 0 (box_count (vending st) - 1))
                      (box_last_changed zero_vending)).
    rewrite aget_fold_zrange by (rewrite L3; lia).
    destruct (Z.ltb_spec (b - 1) (box_count (vending st))); [|lia]. reflexivity.
Qed.

(** ** Start-up on any content of the settings store *)

Lemma digit_value_nonneg c : 0 <= digit_value c.
Proof.
  unfold digit_value.
  destruct (Z.leb_spec 48 (Z.of_nat (nat_of_ascii c)));
    destruct (Z.leb_spec (Z.of_nat (nat_of_ascii c)) 57); cbn [andb]; try lia;
    destruct (Z.leb_spec 65 (Z.of_nat (nat_of_ascii c)));
    destruct (Z.leb_spec (Z.of_nat (nat_of_ascii c)) 90); cbn [andb]; try lia;
    destruct (Z.leb_spec 97 (Z.of_nat (nat_of_ascii c)));
    destruct (Z.leb_spec (Z.of_nat (nat_of_ascii c)) 122); cbn [andb]; lia.
Qed.

Lemma strtoul_digits_nonneg base s : 0 < base -> forall acc,
  0 <= acc -> 0 <= strtoul_digits base s acc.
Proof.
  intros Hb. induction s as [|c s IH]; intros acc Hacc; [exact Hacc|].
  simpl. destruct (digit_value c <? base); [|exact Hacc].
  apply IH. pose proof (digit_value_nonneg c). nia.
Qed.

Lemma strtoul_range s base : 0 < base -> 0 <= strtoul s base < 4294967296.
Proof.
  intros Hb. unfold strtoul.
  match goal with |- context [strtoul_digits base ?t 0] =>
    pose proof (strtoul_digits_nonneg base t Hb 0 ltac:(lia)) as Hv;
    generalize dependent (strtoul_digits base t 0) end.
  intros value Hv. cbv zeta. unfold ULONG_MAX.
  destruct (Z.ltb_spec 4294967295 value); [lia|].
  match goal with |- context [if ?b then _ else _] => destruct b end;
    [apply u32_range | lia].
Qed.

Lemma with_inventory_eta st :
  st = with_inventory (box_count (vending st)) (box_status (vending st))
                      (box_price (vending st)) (box_last_changed (vending st))
                      (settings_text st) (settings_flash st) st.
Proof. destruct st as [v]; destruct v; reflexivity. Qed.

Lemma LoadBoxCount_shape st :
  exists n txt fl,
    HoneyVending_LoadBoxCount st
    = with_inventory n (box_status (vending st)) (box_price (vending st))
                     (box_last_changed (vending st)) txt fl st
    /\ 1 <= n <= 30.
Proof.
  destruct st as [v]; destruct v.
  unfold HoneyVending_LoadBoxCount.
  match goal with |- context [if ?c then _ else _] => destruct c end.
  - match goal with |- context [(1 <=? ?x) && (?x <=? MAX_HONEY_BOX_COUNT)] =>
      destruct (Z.leb_spec 1 x); destruct (Z.leb_spec x MAX_HONEY_BOX_COUNT);
      cbn [andb]; [exists x | exists 15 | exists 15 | exists 15] end;
      (eexists _, _; split; [reflexivity | unfold MAX_HONEY_BOX_COUNT in *; lia]).
  - exists 15. eexists _, _. split; [reflexivity | lia].
Qed.

Lemma LoadStatus_loop_shape : forall boxes ptr st,
  exists c, LoadStatus_loop boxes ptr st = upd (set_box_last_changed c) st.
Proof.
  induction boxes as [|i rest IH]; intros ptr st.
  - exists (box_last_changed (vending st)). destruct st as [v]; destruct v; reflexivity.
  - cbn [LoadStatus_loop]. destruct (strchr ptr ",") as [p|].
    + match goal with |- context [LoadStatus_loop rest ?q ?s] =>
        destruct (IH q s) as [c Hc]; rewrite Hc end.
      exists c. reflexivity.
    + eexists. reflexivity.
Qed.

Lemma for_each_status_changed l (g : Z -> bool) (h : Z -> Z) : forall st,
  for_each l
    (fun i s =>
       let s := upd (fun v => set_box_status (aset (box_status v) i (g i)) v) s in
       upd (fun v => set_box_last_changed (aset (box_last_changed v) i (h i)) v) s) st
  = upd (fun v => set_box_last_changed
                    (fold_left (fun t i => aset t i (h i)) l (box_last_changed v))
                    (set_box_status
                       (fold_left (fun t i => aset t i (g i)) l (box_status v)) v)) st.
Proof.
  induction l as [|i l IH]; intros st.
  - destruct st as [v]; destruct v; reflexivity.
  - rewrite for_each_cons, IH. reflexivity.
Qed.

Ltac shape_from_result :=
  match goal with
  | |- exists s c txt fl, ?R = _ =>
      exists (box_status (vending R)), (box_last_changed (vending R)),
             (settings_text R), (settings_flash R)
  | |- exists txt fl, ?R = _ =>
      exists (settings_text R), (settings_flash R)
  end.

Lemma LoadStatus_shape st :
  exists s c txt fl,
    HoneyVending_LoadStatus st
    = with_inventory (box_count (vending st)) s (box_price (vending st)) c txt fl st.
Proof.
  unfold HoneyVending_LoadStatus.
  match goal with |- context [if ?c then _ else _] => destruct c end.
  - cbv zeta. rewrite for_each_status.
    match goal with |- context [if ?c then _ else _] => destruct c end.
    + match goal with |- context [LoadStatus_loop ?b ?q ?s] =>
        destruct (LoadStatus_loop_shape b q s) as [c Hc]; rewrite Hc end.
      shape_from_result. destruct st as [v]; destruct v; reflexivity.
    + rewrite for_each_changed.
      shape_from_result. destruct st as [v]; destruct v; reflexivity.
  - cbv zeta. rewrite (for_each_status_changed _ (fun _ => false) (fun _ => 0)).
    shape_from_result. destruct st as [v]; destruct v; reflexivity.
Qed.

(** Every box the price loop has passed holds a price above zero. *)
Lemma LoadPrices_loop_positive : forall boxes ptr st,
  (forall i, In i boxes -> 0 <= i) ->
  exists p,
    LoadPrices_loop boxes ptr st = upd (set_box_price p) st
    /\ List.length p = List.length (box_price (vending st))
    /\ forall k, 0 <= k < Z.of_nat (List.length p) ->
         In k boxes \/ 0 < aget 0 (box_price (vending st)) k < 4294967296 ->
         0 < aget 0 p k < 4294967296.
Proof.
  induction boxes as [|i rest IH]; intros ptr st Hpos.
  - exists (box_price (vending st)). split; [|split].
    + destruct st as [v]; destruct v; reflexivity.
    + reflexivity.
    + intros k _ [[] | H]. exact H.
  - assert (Hi : 0 <= i) by (apply Hpos; left; reflexivity).
    assert (Hrest : forall j, In j rest -> 0 <= j) by (intros j Hj; apply Hpos; right; exact Hj).
    cbn [LoadPrices_loop].
    set (x := if 0 <? strtoul ptr 10 then strtoul ptr 10 else DEFAULT_PRICE_CENTS).
    assert (Hx : 0 < x < 4294967296).
    { subst x. pose proof (strtoul_range ptr 10 ltac:(lia)).
      destruct (Z.ltb_spec 0 (strtoul ptr 10)); [lia | unfold DEFAULT_PRICE_CENTS; lia]. }
    set (st1 := upd (fun v => set_box_price (aset (box_price v) i x) v) st).
    assert (Hcell : forall k, 0 <= k < Z.of_nat (List.length (box_price (vending st))) ->
              k = i \/ 0 < aget 0 (box_price (vending st)) k < 4294967296 ->
              0 < aget 0 (aset (box_price (vending st)) i x) k < 4294967296).
    { intros k Hk [-> | Hold].
      - rewrite aget_aset_same by exact Hk. exact Hx.
      - destruct (Z.eq_dec k i) as [-> | Hne].
        + rewrite aget_aset_same by exact Hk. exact Hx.
        + rewrite aget_aset_other by lia. exact Hold. }
    destruct (strchr ptr ",") as [q|].
    + destruct (IH (str_skip 1 q) st1 Hrest) as [p [Ep [Lp Hp]]].
      exists p. split; [rewrite Ep; reflexivity|].
      change (box_price (vending st1)) with (aset (box_price (vending st)) i x) in Lp, Hp.
      rewrite aset_length in Lp. split; [exact Lp|].
      intros k Hk [[<- | Hin] | Hold].
      * apply Hp; [exact Hk|]. right. apply Hcell; [lia | left; reflexivity].
      * apply Hp; [exact Hk|]. left. exact Hin.
      * apply Hp; [exact Hk|]. right. apply Hcell; [lia | right; exact Hold].
    + rewrite (for_each_price rest (fun _ => DEFAULT_PRICE_CENTS)).
      eexists. split; [reflexivity|].
      change (box_price (vending st1)) with (aset (box_price (vending st)) i x).
      rewrite fold_aset_length, aset_length. split; [reflexivity|].
      intros k Hk Hor. rewrite aget_fold_aset; [| exact Hrest | rewrite aset_length; exact Hk].
      destruct (existsb (Z.eqb k) rest) eqn:Ex; [unfold DEFAULT_PRICE_CENTS; lia|].
      apply Hcell; [exact Hk|].
      destruct Hor as [[<- | Hin] | Hold]; [left; reflexivity | | right; exact Hold].
      exfalso. assert (existsb (Z.eqb k) rest = true); [|congruence].
      apply existsb_exists. exists k. split; [exact Hin | apply Z.eqb_refl].
Qed.

Lemma LoadPrices_shape st :
  exists p txt fl,
    HoneyVending_LoadPrices st
    = with_inventory (box_count (vending st)) (box_status (vending st)) p
                     (box_last_changed (vending st)) txt fl st
    /\ List.length p = List.length (box_price (vending st))
    /\ forall k, 0 <= k < box_count (vending st) -> k < Z.of_nat (List.length p) ->
         0 < aget 0 p k < 4294967296.
Proof.
  unfold HoneyVending_LoadPrices.
  match goal with |- context [if ?c then _ else _] => destruct c end.
  - match goal with |- context [LoadPrices_loop ?b ?q ?s] =>
      destruct (LoadPrices_loop_positive b q s) as [p [Ep [Lp Hp]]] end.
    { intros i Hi. apply In_zrange in Hi. lia. }
    exists p, (settings_text st), (settings_flash st). split; [|split].
    + rewrite Ep. destruct st as [v]; destruct v; reflexivity.
    + exact Lp.
    + intros k Hk Hl. apply Hp; [lia|]. left. apply In_zrange. lia.
  - cbv zeta. rewrite (for_each_price _ (fun _ => DEFAULT_PRICE_CENTS)).
    exists (fold_left (fun t i => aset t i DEFAULT_PRICE_CENTS)
                      (zrange 0 (box_count (vending st) - 1)) (box_price (vending st))).
    assert (Hshape : exists txt fl,
      HoneyVending_SavePrices
        (upd (fun v => set_box_price
                         (fold_left (fun t i => aset t i DEFAULT_PRICE_CENTS)
                                    (zrange 0 (box_count (vending st) - 1)) (box_price v)) v) st)
      = with_inventory (box_count (vending st)) (box_status (vending st))
          (fold_left (fun t i => aset t i DEFAULT_PRICE_CENTS)
                     (zrange 0 (box_count (vending st) - 1)) (box_price (vending st)))
          (box_last_changed (vending st)) txt fl st).
    { shape_from_result. destruct st as [v]; destruct v; reflexivity. }
    destruct Hshape as [txt [fl E]]. exists txt, fl. split; [exact E|]. split.
    + apply fold_aset_length.
    + intros k Hk Hl. rewrite fold_aset_length in Hl.
      rewrite aget_fold_zrange by lia.
      destruct (Z.ltb_spec k (box_count (vending st))); [|lia].
      unfold DEFAULT_PRICE_CENTS. lia.
Qed.

(** The three load functions together, on any settings store. *)
Lemma loads_shape st :
  exists n s p c txt fl,
    HoneyVending_LoadPrices (HoneyVending_LoadStatus (HoneyVending_LoadBoxCount st))
    = with_inventory n s p c txt fl st
    /\ 1 <= n <= 30
    /\ List.length p = List.length (box_price (vending st))
    /\ forall k, 0 <= k < n -> k < Z.of_nat (List.length p) -> 0 < aget 0 p k < 4294967296.
Proof.
  destruct (LoadBoxCount_shape st) as [n [t1 [f1 [E1 Hn]]]]. rewrite E1.
  match goal with |- context [HoneyVending_LoadStatus ?s] =>
    destruct (LoadStatus_shape s) as [s2 [c2 [t2 [f2 E2]]]]; rewrite E2 end.
  match goal with |- context [HoneyVending_LoadPrices ?s] =>
    destruct (LoadPrices_shape s) as [p3 [t3 [f3 [E3 [L3 H3]]]]]; rewrite E3 end.
  exists n, s2, p3, c2, t3, f3. split; [reflexivity|]. split; [exact Hn|].
  split; [exact L3|]. exact H3.
Qed.

Lemma LCD_Init_lcd st :
  lcd (LCD_Init st)
  = lcd_print (firstn 16 (c_str (list_ascii_of_string "   Starting...  ")))
      (lcd_setCursor 0 1
         (lcd_print (firstn 16 (c_str (list_ascii_of_string "  Honey Vending ")))
            (lcd_setCursor 0 0 (lcd_clear (lcd st))))).
Proof.
  unfold LCD_Init.
  rewrite (LCD_WriteText_prints 1 0); [| | unfold LCD_ROWS; lia | unfold LCD_COLS; lia].
  - rewrite (LCD_WriteText_prints 0 0); [reflexivity | reflexivity | unfold LCD_ROWS; lia
                                          | unfold LCD_COLS; lia].
  - destruct (LCD_WriteText_shape 0 0 "  Honey Vending "
                (upd (set_lcd_initialized true) (with_lcd (lcd_clear (lcd st)) st)))
      as [d ->].
    reflexivity.
Qed.

Lemma LCD_Init_rows st :
  lcd_row_text (lcd (LCD_Init st)) 0 = "  Honey Vending "
  /\ lcd_row_text (lcd (LCD_Init st)) 1 = "   Starting...  ".
Proof. rewrite LCD_Init_lcd. split; vm_compute; reflexivity. Qed.

Lemma MCP23017_Init_lcd st : lcd (MCP23017_Init st) = lcd st.
Proof. reflexivity. Qed.

Lemma LCD_Init_rest st :
  exists d, LCD_Init st = with_lcd d (upd (set_lcd_initialized true) st).
Proof.
  unfold LCD_Init.
  match goal with |- context [LCD_WriteText 0 0 ?t ?s] =>
    destruct (LCD_WriteText_shape 0 0 t s) as [d0 ->] end.
  match goal with |- context [LCD_WriteText 1 0 ?t ?s] =>
    destruct (LCD_WriteText_shape 1 0 t s) as [d1 ->] end.
  exists d1. reflexivity.
Qed.

(** X6.  Start-up leaves a safe machine whatever was in memory and whatever
    the settings store holds: between 1 and 30 boxes, a price above zero for
    every one of them, the all-locked word shifted out and no box tracked as
    unlocked, no session in progress, the motor driver disabled with the
    offset at home, and the splash text on the display. *)
Theorem X6_Init_safe_state (chip : Z) (st : machine) :
  let st' := HoneyVending_Init chip st in
  let v := vending st' in
  initialized v = true
  /\ 1 <= box_count v <= MAX_HONEY_BOX_COUNT
  /\ (forall b, 1 <= b <= box_count v -> 0 < HoneyVending_GetPrice b st' < 4294967296)
  /\ shift_reg_state v = [0; 0; 0; 0]
  /\ unlocked_box_id v = 0
  /\ selected_box_id v = 0 /\ total_cents v = 0 /\ pulse_count v = 0
  /\ honey_available v = false
  /\ motor_position_offset st' = 0
  /\ gpio st' = (gpio st ++ ShiftReg_Write_events [0; 0; 0; 0] NUM_SHIFT_REGISTERS
                  ++ [digitalWrite MOTOR_ENABLE_PIN HIGH])%list
  /\ lcd_row_text (lcd st') 0 = "  Honey Vending "
  /\ lcd_row_text (lcd st') 1 = "   Starting...  ".
Proof.
  cbv zeta. unfold HoneyVending_Init.
  match goal with |- context [HoneyVending_LoadBoxCount ?s] => set (st0 := s) end.
  destruct (loads_shape st0) as [n [s [p [c [txt [fl [E [Hn [Lp Hp]]]]]]]]].
  rewrite E. clear E.
  set (s3 := with_inventory n s p c txt fl st0).
  assert (Hlen : List.length (shift_reg_state (vending s3)) = 4%nat) by reflexivity.
  rewrite (ShiftReg_Init_eq s3 Hlen).
  match goal with |- context [Motor_Init ?x] => set (s4 := x) end.
  rewrite MCP23017_Init_lcd.
  destruct (LCD_Init_rows (Motor_Init s4)) as [R0 R1]. rewrite R0, R1. clear R0 R1.
  destruct (LCD_Init_rest (Motor_Init s4)) as [d Ed].
  rewrite Ed. clear Ed.
  split; [reflexivity|]. split; [exact Hn|]. split.
  { intros b Hb. unfold HoneyVending_GetPrice.
    change (box_count (vending (MCP23017_Init _))) with n in Hb |- *.
    destruct (Z.ltb_spec b 1); [lia|]. destruct (Z.ltb_spec n b); [lia|]. cbn [orb].
    change (box_price (vending (MCP23017_Init _))) with p.
    apply Hp; [lia|]. rewrite Lp. change (List.length (box_price (vending st0))) with 30%nat.
    lia. }
  repeat (split; [reflexivity|]).
  split.
  { change (gpio (MCP23017_Init _))
      with ((gpio st ++ latched [[0; 0; 0; 0]]) ++ [digitalWrite MOTOR_ENABLE_PIN HIGH])%list.
    rewrite latched_one, <- app_assoc. reflexivity. }
  split; reflexivity.
Qed.

(** ** What leaves the locks alone *)

Lemma lock_view_for_each l body :
  (forall i s, lock_view (body i s) = lock_view s) ->
  forall st, lock_view (for_each l body st) = lock_view st.
Proof.
  intros H. induction l as [|i l IH]; intros st; [reflexivity|].
  rewrite for_each_cons, IH. apply H.
Qed.

Lemma lock_view_Response_P text st : lock_view (Response_P text st) = lock_view st.
Proof. reflexivity. Qed.

Lemma lock_view_MqttPublish t r st : lock_view (MqttPublish t r st) = lock_view st.
Proof. reflexivity. Qed.

Lemma lock_view_ResponseCmndDone st : lock_view (ResponseCmndDone st) = lock_view st.
Proof. unfold ResponseCmndDone. apply lock_view_Response_P. Qed.

Lemma lock_view_ResponseCmndError st : lock_view (ResponseCmndError st) = lock_view st.
Proof. unfold ResponseCmndError. apply lock_view_Response_P. Qed.

Lemma lock_view_PublishBoxMQTT box_id st :
  lock_view (HoneyVending_PublishBoxMQTT BreakTime box_id st) = lock_view st.
Proof.
  unfold HoneyVending_PublishBoxMQTT.
  destruct ((box_id <? 1) || (box_count (vending st) <? box_id)); [reflexivity|].
  destruct (negb (MqttIsConnected st)); reflexivity.
Qed.

Lemma lock_view_PublishSystemMQTT st :
  lock_view (HoneyVending_PublishSystemMQTT st) = lock_view st.
Proof.
  unfold HoneyVending_PublishSystemMQTT. destruct (negb (MqttIsConnected st)); reflexivity.
Qed.

Lemma lock_view_PublishAllBoxesMQTT st :
  lock_view (HoneyVending_PublishAllBoxesMQTT BreakTime st) = lock_view st.
Proof.
  unfold HoneyVending_PublishAllBoxesMQTT.
  destruct (negb (MqttIsConnected st)); [reflexivity|].
  cbv zeta.
  match goal with |- context [for_each ?l ?body st] =>
    pose proof (lock_view_for_each l body
                  (fun i s => lock_view_PublishBoxMQTT (u8 i) s) st) as H;
    generalize dependent (for_each l body st) end.
  intros s H. rewrite <- H. reflexivity.
Qed.

Lemma lock_view_PublishDiscovery st :
  lock_view (HoneyVending_PublishDiscovery st) = lock_view st.
Proof.
  unfold HoneyVending_PublishDiscovery.
  destruct (negb (MqttIsConnected st)); [reflexivity|].
  cbv zeta.
  match goal with |- context [for_each ?l ?body st] =>
    pose proof (lock_view_for_each l body (fun i s => eq_refl) st) as H;
    generalize dependent (for_each l body st) end.
  intros s H. rewrite <- H. reflexivity.
Qed.

Lemma lock_view_CleanupOldBoxes old_count new_count st :
  lock_view (HoneyVending_CleanupOldBoxes old_count new_count st) = lock_view st.
Proof.
  unfold HoneyVending_CleanupOldBoxes.
  destruct (old_count <=? new_count); [reflexivity|].
  destruct (negb (MqttIsConnected st)); [reflexivity|].
  apply lock_view_for_each. reflexivity.
Qed.

Lemma lock_view_SetStatus box_id has_honey st :
  lock_view (HoneyVending_SetStatus BreakTime box_id has_honey st) = lock_view st.
Proof.
  unfold HoneyVending_SetStatus.
  destruct ((box_id <? 1) || (box_count (vending st) <? box_id)); [reflexivity|].
  cbv zeta.
  match goal with |- context [HoneyVending_PublishBoxMQTT BreakTime box_id ?s] =>
    pose proof (lock_view_PublishBoxMQTT box_id s) as H;
    generalize dependent (HoneyVending_PublishBoxMQTT BreakTime box_id s) end.
  intros s H. exact H.
Qed.

Lemma lock_view_SetPrice box_id price_cents st :
  lock_view (HoneyVending_SetPrice BreakTime box_id price_cents st) = lock_view st.
Proof.
  unfold HoneyVending_SetPrice.
  destruct ((box_id <? 1) || (box_count (vending st) <? box_id)); [reflexivity|].
  destruct ((price_cents <? 10) || (10000 <? price_cents)); [reflexivity|].
  cbv zeta. rewrite lock_view_PublishBoxMQTT. reflexivity.
Qed.

Lemma lock_view_SelectBox box_id st :
  lock_view (HoneyVending_SelectBox box_id st) = lock_view st.
Proof.
  unfold HoneyVending_SelectBox, HoneyVending_DisplayValues.
  destruct ((box_id <? 1) || (box_count (vending st) <? box_id)); [reflexivity|].
  destruct (negb (aget false (box_status (vending st)) (box_id - 1))); [reflexivity|].
  cbv zeta. rewrite lock_view_PublishSystemMQTT. reflexivity.
Qed.

Lemma lock_view_CmndVendingReset st : lock_view (CmndVendingReset st) = lock_view st.
Proof.
  unfold CmndVendingReset. cbv zeta.
  rewrite lock_view_ResponseCmndDone, lock_view_PublishSystemMQTT. reflexivity.
Qed.

Lemma lock_view_LCD_WriteText row col text st :
  lock_view (LCD_WriteText row col text st) = lock_view st.
Proof. destruct (LCD_WriteText_shape row col text st) as [d ->]. reflexivity. Qed.

Lemma lock_view_button_step st : lock_view (button_step st) = lock_view st.
Proof. destruct (button_step_shape st) as [d [b ->]]. reflexivity. Qed.

(** The box count [HoneyVending_SetBoxCount] is given is the only thing of
    the lock view it changes. *)
Lemma lock_view_SetBoxCount count st :
  1 <= count <= MAX_HONEY_BOX_COUNT ->
  lock_view (HoneyVending_SetBoxCount BreakTime count st)
  = (shift_reg_state (vending st), unlocked_box_id (vending st),
     unlock_start_ms (vending st), count, gpio st).
Proof.
  intros Hc. unfold HoneyVending_SetBoxCount.
  destruct (Z.ltb_spec count 1); [lia|].
  destruct (Z.ltb_spec MAX_HONEY_BOX_COUNT count); [lia|]. cbn [orb]. cbv zeta.
  match goal with |- context [HoneyVending_SaveBoxCount ?s] =>
    assert (Hview : lock_view s = (shift_reg_state (vending st), unlocked_box_id (vending st),
                                unlock_start_ms (vending st), count, gpio st));
    [| generalize dependent s] end.
  { destruct (box_count (vending st) <? count); [|reflexivity].
    rewrite lock_view_for_each; reflexivity. }
  intros s Hs.
  match goal with |- context [if ?c then _ else _] => destruct c end.
  - rewrite lock_view_PublishSystemMQTT, lock_view_PublishAllBoxesMQTT,
      lock_view_PublishDiscovery, lock_view_CleanupOldBoxes.
    exact Hs.
  - exact Hs.
Qed.

(** ** Unlocking after the box count was reduced *)

Lemma lock_view_inj a b :
  lock_view a = lock_view b ->
  shift_reg_state (vending a) = shift_reg_state (vending b)
  /\ unlocked_box_id (vending a) = unlocked_box_id (vending b)
  /\ unlock_start_ms (vending a) = unlock_start_ms (vending b)
  /\ box_count (vending a) = box_count (vending b)
  /\ gpio a = gpio b.
Proof. unfold lock_view. intros H. injection H. auto. Qed.

(** X8.  Reducing the box count below the box that is unlocked defeats the
    re-locking on the next unlock.  With box [b] unlocked, the count set to
    [n < b] and then box [c <= n] unlocked, [UnlockBoxKey] asks
    [LockBoxKey] to lock [b] first, which returns at its range check; so
    the lines of both boxes are at the unlock level and only [c] is
    tracked. *)
Theorem X8_unlock_after_shrink (st : machine) (b n c : Z) :
  lock_inv st ->
  1 <= c <= n -> n < b <= box_count (vending st) ->
  b <= NUM_SHIFT_REGISTERS * 8 -> n <= MAX_HONEY_BOX_COUNT ->
  let st1 := UnlockBoxKey b st in
  let st2 := HoneyVending_SetBoxCount BreakTime n st1 in
  let st3 := UnlockBoxKey c st2 in
  unlocked_box_id (vending st3) = c
  /\ box_line (vending st3) c = SOLENOID_ACTIVE_HIGH
  /\ box_line (vending st3) b = SOLENOID_ACTIVE_HIGH
  /\ ~ at_most_one_unlocked (shift_reg_state (vending st3)).
Proof.
  intros Hinv Hc Hb Hcap Hn. cbv zeta.
  assert (Hlen : List.length (shift_reg_state (vending st)) = 4%nat) by apply Hinv.
  destruct (UnlockBoxKey_inv b st Hinv ltac:(lia) Hcap) as [Hinv1 _]. cbv zeta in Hinv1.
  destruct (UnlockBoxKey_effect b st ltac:(lia) Hcap Hlen) as [regs [evs [E1 Hbit]]].
  assert (Hlen1 : List.length regs = 4%nat).
  { destruct Hinv1 as [L _]. rewrite E1 in L. exact L. }
  set (st1 := UnlockBoxKey b st) in *.
  pose proof (lock_view_SetBoxCount n st1 ltac:(lia)) as Hv.
  set (st2 := HoneyVending_SetBoxCount BreakTime n st1) in *.
  assert (Hregs2 : shift_reg_state (vending st2) = regs).
  { apply (f_equal (fun x => fst (fst (fst (fst x))))) in Hv. cbn [fst lock_view] in Hv.
    rewrite Hv, E1. reflexivity. }
  assert (Hunl2 : unlocked_box_id (vending st2) = b).
  { apply (f_equal (fun x => snd (fst (fst (fst x))))) in Hv. cbn [fst snd lock_view] in Hv.
    rewrite Hv, E1. reflexivity. }
  assert (Hcnt2 : box_count (vending st2) = n).
  { apply (f_equal (fun x => snd (fst x))) in Hv. cbn [fst snd lock_view] in Hv. exact Hv. }
  unfold NUM_SHIFT_REGISTERS in Hcap.
  rewrite (UnlockBoxKey_after_lock c st2)
    by (rewrite ?Hcnt2, ?Hunl2; unfold NUM_SHIFT_REGISTERS; lia).
  rewrite Hunl2, (LockBoxKey_beyond_count b st2) by (rewrite Hcnt2; lia).
  cbv zeta. rewrite Hregs2.
  assert (Hline : forall box, 1 <= box <= 32 ->
            box_line (vending (with_locks (mirror_set regs (c - 1) true) c (millis st2)
                        (gpio st2 ++ ShiftReg_Write_events (mirror_set regs (c - 1) true)
                                       NUM_SHIFT_REGISTERS)%list st2)) box
            = if box - 1 =? c - 1 then true
              else Z.testbit (aget 0 regs ((box - 1) / 8)) ((box - 1) mod 8)).
  { intros box Hbox. apply box_line_mirror_set; [reflexivity | exact Hlen1 | lia | lia]. }
  assert (Lc : box_line (vending (with_locks (mirror_set regs (c - 1) true) c (millis st2)
                        (gpio st2 ++ ShiftReg_Write_events (mirror_set regs (c - 1) true)
                                       NUM_SHIFT_REGISTERS)%list st2)) c = true).
  { rewrite Hline by lia. rewrite Z.eqb_refl. reflexivity. }
  assert (Lb : box_line (vending (with_locks (mirror_set regs (c - 1) true) c (millis st2)
                        (gpio st2 ++ ShiftReg_Write_events (mirror_set regs (c - 1) true)
                                       NUM_SHIFT_REGISTERS)%list st2)) b = true).
  { rewrite Hline by lia. destruct (Z.eqb_spec (b - 1) (c - 1)); [lia|]. exact Hbit. }
  split; [reflexivity|]. split; [exact Lc|]. split; [exact Lb|].
  intros Hone.
  assert (Heq : b - 1 = c - 1); [|lia].
  apply Hone; (split; [unfold NUM_SHIFT_REGISTERS; lia|]); [exact Lb | exact Lc].
Qed.

(** ** One box unlocked at a time, for the whole machine *)

Lemma lock_safe_refl st : lock_inv st -> lock_safe st st.
Proof.
  intros H. split; [exact H|]. split; [reflexivity|].
  exists []. split; [symmetry; apply latched_nil_r | constructor].
Qed.

Lemma lock_safe_trans a b c : lock_safe a b -> lock_safe b c -> lock_safe a c.
Proof.
  intros [_ [C1 [f1 [G1 F1]]]] [Hc [C2 [f2 [G2 F2]]]]. split; [exact Hc|].
  split; [congruence|].
  exists (f1 ++ f2)%list. split.
  - rewrite G2, G1, latched_app, app_assoc. reflexivity.
  - apply Forall_app. split; assumption.
Qed.

Lemma lock_safe_view st st' : lock_inv st -> lock_view st' = lock_view st -> lock_safe st st'.
Proof.
  intros Hinv Hv. apply lock_view_inj in Hv. destruct Hv as [Hr [Hu [_ [Hc Hg]]]].
  split.
  - unfold lock_inv in *. cbv zeta in *. rewrite Hr, Hu, Hc. exact Hinv.
  - split; [exact Hc|].
    exists []. split; [rewrite Hg; symmetry; apply latched_nil_r | constructor].
Qed.

(** The same after a move that leaves the locks alone. *)
Lemma lock_safe_then_view a b c : lock_safe a b -> lock_view c = lock_view b -> lock_safe a c.
Proof.
  intros Hab Hv. apply (lock_safe_trans a b c Hab). apply lock_safe_view; [apply Hab | exact Hv].
Qed.

Lemma UnlockBoxKey_safe box_id st : lock_inv st -> lock_safe st (UnlockBoxKey box_id st).
Proof.
  intros Hinv.
  destruct (Z.ltb_spec box_id 1) as [H1 | H1].
  { unfold UnlockBoxKey. destruct (Z.ltb_spec box_id 1); [|lia]. cbn [orb].
    apply lock_safe_refl. exact Hinv. }
  destruct (Z.ltb_spec (box_count (vending st)) box_id) as [H2 | H2].
  { unfold UnlockBoxKey. destruct (Z.ltb_spec (box_count (vending st)) box_id); [|lia].
    rewrite orb_true_r. apply lock_safe_refl. exact Hinv. }
  destruct (Z.ltb_spec (NUM_SHIFT_REGISTERS * 8) box_id) as [H3 | H3].
  { unfold UnlockBoxKey. destruct (Z.ltb_spec box_id 1); [lia|].
    destruct (Z.ltb_spec (box_count (vending st)) box_id); [lia|]. cbn [orb].
    destruct (Z.ltb_spec (NUM_SHIFT_REGISTERS * 8) box_id); [|lia].
    apply lock_safe_refl. exact Hinv. }
  destruct (UnlockBoxKey_inv box_id st Hinv ltac:(lia) ltac:(lia)) as [Hi Hf].
  split; [exact Hi|]. split; [|exact Hf].
  destruct (UnlockBoxKey_shape box_id st) as [r [u [s [e ->]]]]. reflexivity.
Qed.

Lemma LockBoxKey_safe box_id st :
  box_id < 256 -> lock_inv st -> lock_safe st (LockBoxKey box_id st).
Proof.
  intros Hu8 Hinv.
  destruct (Z.ltb_spec box_id 1) as [H1 | H1].
  { unfold LockBoxKey. destruct (Z.ltb_spec box_id 1); [|lia]. cbn [orb].
    apply lock_safe_refl. exact Hinv. }
  destruct (Z.ltb_spec (box_count (vending st)) box_id) as [H2 | H2].
  { rewrite LockBoxKey_beyond_count by exact H2. apply lock_safe_refl. exact Hinv. }
  destruct (Z.ltb_spec (NUM_SHIFT_REGISTERS * 8) box_id) as [H3 | H3].
  { rewrite LockBoxKey_over_capacity; [apply lock_safe_refl; exact Hinv | lia |].
    destruct Hinv as [_ [_ [Hcap _]]]. lia. }
  destruct (LockBoxKey_inv box_id st Hinv ltac:(lia) ltac:(lia)) as [Hi [Hg [Hm _]]].
  split; [exact Hi|].
  split; [destruct (LockBoxKey_shape box_id st) as [r [u [s [e ->]]]]; reflexivity|].
  exists [shift_reg_state (vending (LockBoxKey box_id st))]. split; [exact Hg|].
  constructor; [|constructor]. apply lock_inv_at_most_one. exact Hi.
Qed.

Lemma CheckUnlockTimeout_safe st : lock_inv st -> lock_safe st (CheckUnlockTimeout st).
Proof.
  intros Hinv. unfold CheckUnlockTimeout.
  destruct (0 <? unlocked_box_id (vending st)); [|apply lock_safe_refl; exact Hinv].
  destruct (UNLOCK_DURATION_MS <=? _); [|apply lock_safe_refl; exact Hinv].
  apply LockBoxKey_safe; [|exact Hinv].
  destruct Hinv as [_ [_ [Hcap _]]]. unfold NUM_SHIFT_REGISTERS in Hcap. lia.
Qed.

Lemma LockAllBoxes_safe st : lock_inv st -> lock_safe st (LockAllBoxes st).
Proof.
  intros Hinv.
  assert (Hlen : List.length (shift_reg_state (vending st)) = 4%nat) by apply Hinv.
  rewrite LockAllBoxes_eq by exact Hlen.
  split.
  - apply all_locked_inv.
  - split; [reflexivity|]. exists [[0; 0; 0; 0]]. split; [reflexivity|].
    constructor; [|constructor]. intros j k Hj. exfalso. exact (all_locked_no_line j Hj).
Qed.

Lemma lock_view_ToggleStatus box_id st :
  lock_view (HoneyVending_ToggleStatus BreakTime box_id st) = lock_view st.
Proof.
  unfold HoneyVending_ToggleStatus.
  destruct ((box_id <? 1) || (box_count (vending st) <? box_id)); [reflexivity|].
  apply lock_view_SetStatus.
Qed.

Lemma lock_view_set_all_boxes has_honey st :
  lock_view (set_all_boxes has_honey st) = lock_view st.
Proof. unfold set_all_boxes. apply lock_view_for_each. reflexivity. Qed.

Lemma lock_view_PulseISR st : lock_view (HoneyVending_PulseISR st) = lock_view st.
Proof.
  unfold HoneyVending_PulseISR. cbv zeta.
  destruct ((0 <? pulse_count (vending st)) && _); [reflexivity|].
  destruct (pulse_count (vending st) =? 0); reflexivity.
Qed.

Lemma lock_view_PrintPressedButtons st :
  lock_view (HoneyVending_PrintPressedButtons st) = lock_view st.
Proof.
  unfold HoneyVending_PrintPressedButtons.
  destruct (negb (mcp_initialized (vending st))); [reflexivity|].
  cbv zeta. apply lock_view_for_each. intros i s.
  destruct (Z.land _ _ =? 0); [apply lock_view_LCD_WriteText | reflexivity].
Qed.

Lemma lock_view_LCD_Clear st : lock_view (LCD_Clear st) = lock_view st.
Proof. unfold LCD_Clear. destruct (negb (lcd_initialized (vending st))); reflexivity. Qed.

(** The console commands that never touch a lock. *)
Lemma lock_view_CmndVendingSelectBox st :
  lock_view (CmndVendingSelectBox st) = lock_view st.
Proof.
  unfold CmndVendingSelectBox. cbv zeta.
  destruct (0 <? data_len (XdrvMailbox st)); [|reflexivity].
  destruct ((1 <=? _) && _); [|reflexivity].
  destruct (aget false _ _); [|reflexivity].
  rewrite lock_view_Response_P. apply lock_view_SelectBox.
Qed.

Lemma lock_view_CmndVendingToggle st :
  lock_view (CmndVendingToggle BreakTime st) = lock_view st.
Proof.
  unfold CmndVendingToggle.
  destruct (0 <? data_len (XdrvMailbox st)); [|apply lock_view_ResponseCmndError].
  cbv zeta. destruct ((1 <=? _) && _); [|apply lock_view_ResponseCmndError].
  rewrite lock_view_Response_P. apply lock_view_ToggleStatus.
Qed.

Lemma lock_view_CmndVendingSet st :
  lock_view (CmndVendingSet BreakTime st) = lock_view st.
Proof.
  unfold CmndVendingSet.
  destruct (0 <? data_len (XdrvMailbox st)); [|apply lock_view_ResponseCmndError].
  destruct (strchr _ _); [|apply lock_view_ResponseCmndError].
  cbv zeta. destruct ((1 <=? _) && _).
  - rewrite lock_view_ResponseCmndDone, lock_view_SetStatus. reflexivity.
  - rewrite lock_view_ResponseCmndError. reflexivity.
Qed.

Lemma lock_view_CmndVendingSetPrice st :
  lock_view (CmndVendingSetPrice BreakTime st) = lock_view st.
Proof.
  unfold CmndVendingSetPrice.
  destruct (0 <? data_len (XdrvMailbox st)); [|apply lock_view_ResponseCmndError].
  destruct (strchr _ _); [|apply lock_view_ResponseCmndError].
  cbv zeta. destruct ((1 <=? _) && _).
  - rewrite lock_view_Response_P, lock_view_SetPrice. reflexivity.
  - rewrite lock_view_ResponseCmndError. reflexivity.
Qed.

Lemma lock_view_CmndVendingClearAll st :
  lock_view (CmndVendingClearAll BreakTime st) = lock_view st.
Proof.
  unfold CmndVendingClearAll. cbv zeta.
  rewrite lock_view_ResponseCmndDone, lock_view_PublishAllBoxesMQTT.
  unfold HoneyVending_SaveStatus. cbv zeta.
  change (lock_view (SettingsSave (SettingsUpdateText ?i ?t (SettingsUpdateText ?j ?u ?s))))
    with (lock_view s).
  apply lock_view_set_all_boxes.
Qed.

Lemma lock_view_CmndVendingFillAll st :
  lock_view (CmndVendingFillAll BreakTime st) = lock_view st.
Proof.
  unfold CmndVendingFillAll. cbv zeta.
  rewrite lock_view_ResponseCmndDone, lock_view_PublishAllBoxesMQTT.
  unfold HoneyVending_SaveStatus. cbv zeta.
  change (lock_view (SettingsSave (SettingsUpdateText ?i ?t (SettingsUpdateText ?j ?u ?s))))
    with (lock_view s).
  apply lock_view_set_all_boxes.
Qed.

Lemma lock_view_CmndVendingTest st : lock_view (CmndVendingTest st) = lock_view st.
Proof.
  unfold CmndVendingTest.
  destruct (0 <? data_len (XdrvMailbox st)); [|apply lock_view_ResponseCmndError].
  cbv zeta. destruct (0 <? _); [|apply lock_view_ResponseCmndError].
  rewrite lock_view_ResponseCmndDone. reflexivity.
Qed.

Lemma lock_view_CmndVendingLCDWrite st : lock_view (CmndVendingLCDWrite st) = lock_view st.
Proof.
  unfold CmndVendingLCDWrite. cbv zeta.
  destruct (0 <? data_len (XdrvMailbox st)); [|reflexivity].
  destruct (strchr _ _); [|reflexivity].
  destruct (_ <? LCD_ROWS); [|reflexivity].
  rewrite lock_view_Response_P, lock_view_LCD_WriteText. reflexivity.
Qed.

Lemma lock_view_CmndVendingLCDClear st : lock_view (CmndVendingLCDClear st) = lock_view st.
Proof.
  unfold CmndVendingLCDClear. rewrite lock_view_ResponseCmndDone. apply lock_view_LCD_Clear.
Qed.

Lemma lock_view_CmndVendingButtons st : lock_view (CmndVendingButtons st) = lock_view st.
Proof.
  unfold CmndVendingButtons. cbv zeta.
  rewrite lock_view_Response_P. apply lock_view_PrintPressedButtons.
Qed.

(** The moves that do touch the locks. *)
Lemma HoneyAvailable_safe st :
  lock_inv st -> lock_safe st (HoneyVending_HoneyAvailable BreakTime st).
Proof.
  intros Hinv. unfold HoneyVending_HoneyAvailable.
  destruct (0 <? selected_box_id (vending st)); [|apply lock_safe_refl; exact Hinv].
  cbv zeta.
  apply (lock_safe_then_view st (UnlockBoxKey (selected_box_id (vending st)) st));
    [apply UnlockBoxKey_safe; exact Hinv|].
  rewrite lock_view_CmndVendingReset, lock_view_SetStatus, lock_view_PublishSystemMQTT.
  reflexivity.
Qed.

Lemma coin_step_safe now st : lock_inv st -> lock_safe st (coin_step BreakTime now st).
Proof.
  intros Hinv. unfold coin_step.
  destruct ((0 <? pulse_count (vending st)) && _); [|apply lock_safe_refl; exact Hinv].
  cbv zeta.
  match goal with |- lock_safe _ (upd _ ?X) =>
    apply (lock_safe_then_view st X); [|reflexivity] end.
  destruct (0 <? PulsesToCents (pulse_count (vending st)));
    [|apply lock_safe_refl; exact Hinv].
  unfold HoneyVending_DisplayValues.
  match goal with |- context [HoneyVending_PublishSystemMQTT ?s] =>
    assert (Hv : lock_view (HoneyVending_PublishSystemMQTT s) = lock_view st)
      by (rewrite lock_view_PublishSystemMQTT, lock_view_LCD_WriteText; reflexivity);
    generalize dependent (HoneyVending_PublishSystemMQTT s) end.
  intros s0 Hv.
  assert (H0 : lock_safe st s0) by (apply lock_safe_view; assumption).
  destruct ((0 <? selected_box_id (vending s0)) && _); [|exact H0].
  destruct (_ <=? total_cents (vending s0)); [|exact H0].
  apply (lock_safe_trans st (upd (set_honey_available true) s0)).
  - apply (lock_safe_then_view st s0 _ H0). reflexivity.
  - apply HoneyAvailable_safe.
    apply (lock_safe_then_view st s0 _ H0). reflexivity.
Qed.

Lemma Every100ms_safe st :
  lock_inv st -> lock_safe st (HoneyVending_Every100ms BreakTime st).
Proof.
  intros Hinv. unfold HoneyVending_Every100ms.
  destruct (negb (initialized (vending st))); [apply lock_safe_refl; exact Hinv|].
  cbv zeta.
  destruct (u32 (millis st - last_check st) <? 100); [apply lock_safe_refl; exact Hinv|].
  assert (H1 : lock_safe st (with_last_check (millis st) st))
    by (apply lock_safe_view; [exact Hinv | reflexivity]).
  assert (H2 : lock_safe st (CheckUnlockTimeout (with_last_check (millis st) st))).
  { apply (lock_safe_trans _ _ _ H1). apply CheckUnlockTimeout_safe. apply H1. }
  assert (H3 : lock_safe st (coin_step BreakTime (millis st)
                               (CheckUnlockTimeout (with_last_check (millis st) st)))).
  { apply (lock_safe_trans _ _ _ H2). apply coin_step_safe. apply H2. }
  apply (lock_safe_then_view _ _ _ H3). apply lock_view_button_step.
Qed.

Lemma u8_lt_256 x : u8 x < 256.
Proof. unfold u8. pose proof (Z.mod_pos_bound x 256 ltac:(lia)). lia. Qed.

Lemma step_safe st st' : lock_inv st -> step BreakTime st st' -> lock_safe st st'.
Proof.
  intros Hinv Hstep. destruct Hstep.
  - apply lock_safe_view; [exact Hinv|]. unfold lock_view. rewrite H, H0. reflexivity.
  - apply lock_safe_view; [exact Hinv | apply lock_view_PulseISR].
  - apply Every100ms_safe. exact Hinv.
  - unfold CmndVendingUnlock.
    destruct (0 <? data_len (XdrvMailbox st));
      [|apply lock_safe_view; [exact Hinv | apply lock_view_ResponseCmndError]].
    cbv zeta. destruct ((1 <=? _) && _);
      [|apply lock_safe_view; [exact Hinv | apply lock_view_ResponseCmndError]].
    match goal with |- lock_safe _ (Response_P _ ?X) =>
      apply (lock_safe_then_view st X); [|apply lock_view_Response_P] end.
    apply UnlockBoxKey_safe. exact Hinv.
  - unfold CmndVendingLock.
    destruct (0 <? data_len (XdrvMailbox st));
      [|apply lock_safe_view; [exact Hinv | apply lock_view_ResponseCmndError]].
    cbv zeta. destruct ((1 <=? _) && _);
      [|apply lock_safe_view; [exact Hinv | apply lock_view_ResponseCmndError]].
    match goal with |- lock_safe _ (Response_P _ ?X) =>
      apply (lock_safe_then_view st X); [|apply lock_view_Response_P] end.
    apply LockBoxKey_safe; [apply u8_lt_256 | exact Hinv].
  - unfold CmndVendingLockAll. cbv zeta.
    match goal with |- lock_safe _ (Response_P _ ?X) =>
      apply (lock_safe_then_view st X); [|apply lock_view_Response_P] end.
    apply LockAllBoxes_safe. exact Hinv.
  - apply lock_safe_view; [exact Hinv | apply lock_view_CmndVendingSelectBox].
  - apply lock_safe_view; [exact Hinv | apply lock_view_CmndVendingReset].
  - apply lock_safe_view; [exact Hinv | apply lock_view_CmndVendingToggle].
  - apply lock_safe_view; [exact Hinv | apply lock_view_CmndVendingSet].
  - apply lock_safe_view; [exact Hinv | apply lock_view_CmndVendingSetPrice].
  - apply lock_safe_view; [exact Hinv | apply lock_view_CmndVendingClearAll].
  - apply lock_safe_view; [exact Hinv | apply lock_view_CmndVendingFillAll].
  - apply lock_safe_view; [exact Hinv | apply lock_view_CmndVendingTest].
  - apply lock_safe_view; [exact Hinv | apply lock_view_CmndVendingLCDWrite].
  - apply lock_safe_view; [exact Hinv | apply lock_view_CmndVendingLCDClear].
  - apply lock_safe_view; [exact Hinv | apply lock_view_CmndVendingButtons].
Qed.

(** X9.  While the box count is left alone, at most one box is unlocked,
    whatever happens: from a machine that satisfies the lock invariant, any
    series of ticks, coin pulses, changes of the host's inputs and console
    commands (the motor and box-count commands apart) ends in a machine that
    satisfies it, every mirror shifted out on the way has at most one line
    at the unlock level, and so has the mirror at the end. *)
Theorem X9_single_unlock_all_moves (st st' : machine) :
  lock_inv st ->
  steps BreakTime st st' ->
  lock_inv st'
  /\ at_most_one_unlocked (shift_reg_state (vending st'))
  /\ box_count (vending st') = box_count (vending st)
  /\ exists frames,
       gpio st' = (gpio st ++ latched frames)%list
       /\ Forall at_most_one_unlocked frames.
Proof.
  intros Hinv Hsteps.
  assert (H : lock_safe st st').
  { induction Hsteps as [st | st st1 st2 Hs IH Hstep].
    - apply lock_safe_refl. exact Hinv.
    - pose proof (IH Hinv) as H1.
      apply (lock_safe_trans _ _ _ H1). apply step_safe; [apply H1 | exact Hstep]. }
  destruct H as [Hi [Hc Hf]].
  split; [exact Hi|]. split; [apply lock_inv_at_most_one; exact Hi|].
  split; [exact Hc | exact Hf].
Qed.

(** A test that holds at every index of a range holds at each of them. *)
Lemma forallb_zrange (P : Z -> bool) a b :
  forallb P (zrange a b) = true -> forall i, a <= i <= b -> P i = true.
Proof.
  intros H i Hi. rewrite forallb_forall in H. apply H. apply In_zrange. exact Hi.
Qed.

Lemma in_range_test lo hi x : ((lo <=? x) && (x <? hi)) = true -> lo <= x < hi.
Proof.
  intros H. apply andb_prop in H. destruct H as [H1 H2].
  apply Z.leb_le in H1. apply Z.ltb_lt in H2. lia.
Qed.

End Proofs.

(** ** The statements at concrete machines *)

Lemma C1_sale_sample :
  (initialized (vending sale_sample) = true
   /\ 100 <= u32 (millis sale_sample - last_check sale_sample)
   /\ 0 < pulse_count (vending sale_sample)
   /\ COIN_TIMEOUT_MS <= u32 (millis sale_sample - last_pulse_ms (vending sale_sample))
   /\ PulsesToCents (pulse_count (vending sale_sample)) = 100
   /\ 0 < 100
   /\ selected_box_id (vending sale_sample) = 3
   /\ 1 <= 3 <= box_count (vending sale_sample)
   /\ box_count (vending sale_sample) <= MAX_HONEY_BOX_COUNT
   /\ honey_available (vending sale_sample) = false
   /\ List.length (box_status (vending sale_sample)) = 30%nat
   /\ List.length (box_last_changed (vending sale_sample)) = 30%nat
   /\ List.length (shift_reg_state (vending sale_sample)) = 4%nat
   /\ aget 0 (box_price (vending sale_sample)) (3 - 1)
      <= u32 (total_cents (vending sale_sample) + 100))
  /\ box_line (vending (HoneyVending_Every100ms epoch_time sale_sample)) 3 = SOLENOID_ACTIVE_HIGH
  /\ aget false (box_status (vending (HoneyVending_Every100ms epoch_time sale_sample))) (3 - 1)
     = false
  /\ selected_box_id (vending (HoneyVending_Every100ms epoch_time sale_sample)) = 0
  /\ total_cents (vending (HoneyVending_Every100ms epoch_time sale_sample)) = 0.
Proof.
  assert (H : initialized (vending sale_sample) = true
   /\ 100 <= u32 (millis sale_sample - last_check sale_sample)
   /\ 0 < pulse_count (vending sale_sample)
   /\ COIN_TIMEOUT_MS <= u32 (millis sale_sample - last_pulse_ms (vending sale_sample))
   /\ PulsesToCents (pulse_count (vending sale_sample)) = 100
   /\ 0 < 100
   /\ selected_box_id (vending sale_sample) = 3
   /\ 1 <= 3 <= box_count (vending sale_sample)
   /\ box_count (vending sale_sample) <= MAX_HONEY_BOX_COUNT
   /\ honey_available (vending sale_sample) = false
   /\ List.length (box_status (vending sale_sample)) = 30%nat
   /\ List.length (box_last_changed (vending sale_sample)) = 30%nat
   /\ List.length (shift_reg_state (vending sale_sample)) = 4%nat
   /\ aget 0 (box_price (vending sale_sample)) (3 - 1)
      <= u32 (total_cents (vending sale_sample) + 100)).
  { vm_compute. repeat split; try reflexivity; discriminate. }
  split; [exact H|].
  destruct H as [H1 [H2 [H3 [H4 [H5 [H6 [H7 [H8 [H9 [H10 [H11 [H12 [H13 H14]]]]]]]]]]]]].
  destruct (C1_sale_completes_within_tick epoch_time sale_sample 3 100
              H1 H2 H3 H4 H5 H6 H7 H8 H9 H10 H11 H12 H13 H14)
    as [[A _] [[B _] [[C [D _]] _]]].
  repeat split; assumption.
Defined.

Lemma C2_unknown_coin_sample :
  (0 <= 3 <= 100 /\ pulse_count (vending unknown_coin_sample) = 3)
  /\ PulsesToCents 3 = 0
  /\ total_cents (vending (HoneyVending_Every100ms epoch_time unknown_coin_sample))
     = total_cents (vending unknown_coin_sample)
  /\ coins_detected (vending (HoneyVending_Every100ms epoch_time unknown_coin_sample))
     = coins_detected (vending unknown_coin_sample).
Proof.
  assert (H1 : 0 <= 3 <= 100) by lia.
  assert (H2 : pulse_count (vending unknown_coin_sample) = 3) by reflexivity.
  split; [split; assumption|].
  destruct (C2_pulse_decoding epoch_time 3 unknown_coin_sample H1 H2) as [_ H].
  apply H; discriminate.
Defined.


Lemma C4_unlocked_sample_boundary :
  (unlocked_box_id (vending unlocked_sample) = 3
   /\ unlock_start_ms (vending unlocked_sample) = 1000
   /\ 1 <= 3 <= box_count (vending unlocked_sample)
   /\ 3 <= NUM_SHIFT_REGISTERS * 8
   /\ List.length (shift_reg_state (vending unlocked_sample)) = 4%nat
   /\ 0 <= 1000 < 4294967296
   /\ (0 <= 59999 < 4294967296 /\ 59999 < UNLOCK_DURATION_MS)
   /\ (0 <= 60000 < 4294967296 /\ UNLOCK_DURATION_MS <= 60000))
  /\ CheckUnlockTimeout (with_millis 60999 unlocked_sample) = with_millis 60999 unlocked_sample
  /\ box_line (vending (CheckUnlockTimeout (with_millis 61000 unlocked_sample))) 3
     = negb SOLENOID_ACTIVE_HIGH
  /\ unlocked_box_id (vending (CheckUnlockTimeout (with_millis 61000 unlocked_sample))) = 0.
Proof.
  assert (H : unlocked_box_id (vending unlocked_sample) = 3
   /\ unlock_start_ms (vending unlocked_sample) = 1000
   /\ 1 <= 3 <= box_count (vending unlocked_sample)
   /\ 3 <= NUM_SHIFT_REGISTERS * 8
   /\ List.length (shift_reg_state (vending unlocked_sample)) = 4%nat
   /\ 0 <= 1000 < 4294967296
   /\ (0 <= 59999 < 4294967296 /\ 59999 < UNLOCK_DURATION_MS)
   /\ (0 <= 60000 < 4294967296 /\ UNLOCK_DURATION_MS <= 60000)).
  { vm_compute. repeat split; try reflexivity; discriminate. }
  split; [exact H|].
  destruct H as [H1 [H2 [H3 [H4 [H5 [H6 [[H7 H8] [H9 H10]]]]]]]].
  destruct (C4_auto_relock epoch_time (with_millis 60999 unlocked_sample) 3 1000 59999
              H1 H2 H3 H4 H5 H6 H7 eq_refl) as [E _].
  destruct (C4_auto_relock epoch_time (with_millis 61000 unlocked_sample) 3 1000 60000
              H1 H2 H3 H4 H5 H6 H9 eq_refl) as [_ L].
  destruct (E H8) as [A _].
  destruct (L H10) as [[B [C _]] _].
  split; [exact A|]. split; [exact B | exact C].
Defined.

Lemma C5_deselect_sample :
  names_a_box deselect_sample = false
  /\ selected_box_id (vending (CmndVendingSelectBox deselect_sample)) = 0
  /\ total_cents (vending (CmndVendingSelectBox deselect_sample)) = 0
  /\ pulse_count (vending (CmndVendingSelectBox deselect_sample))
     = pulse_count (vending deselect_sample)
  /\ pulse_count (vending (CmndVendingReset deselect_sample)) = 0.
Proof.
  assert (H : names_a_box deselect_sample = false) by reflexivity.
  split; [exact H|].
  destruct (C5_reset_and_deselect deselect_sample) as [[_ [_ [R _]]] D].
  destruct (D H) as [T [_ [_ [S P]]]].
  repeat split; assumption.
Defined.

(** C1 as stated fails when the selected box is no longer one of the
    configured boxes.  Box 15 is selected, the count is 10 and the coin
    completes the price: the tick takes the money and resets the session,
    but no line is at the unlock level, nothing is shifted out and box 15 is
    still marked as holding honey. *)
Lemma C1_retired_box_takes_money :
  (initialized (vending retired_sale_sample) = true
   /\ 100 <= u32 (millis retired_sale_sample - last_check retired_sale_sample)
   /\ selected_box_id (vending retired_sale_sample) = 15
   /\ box_count (vending retired_sale_sample) = 10
   /\ pulse_count (vending retired_sale_sample) = 10
   /\ COIN_TIMEOUT_MS
      <= u32 (millis retired_sale_sample - last_pulse_ms (vending retired_sale_sample))
   /\ PulsesToCents 10 = 100
   /\ aget 0 (box_price (vending retired_sale_sample)) (15 - 1)
      <= u32 (total_cents (vending retired_sale_sample) + 100))
  /\ box_line (vending (HoneyVending_Every100ms epoch_time retired_sale_sample)) 15
     <> SOLENOID_ACTIVE_HIGH
  /\ shift_reg_state (vending (HoneyVending_Every100ms epoch_time retired_sale_sample))
     = [0; 0; 0; 0]
  /\ unlocked_box_id (vending (HoneyVending_Every100ms epoch_time retired_sale_sample)) = 0
  /\ gpio (HoneyVending_Every100ms epoch_time retired_sale_sample)
     = gpio retired_sale_sample
  /\ aget false (box_status (vending (HoneyVending_Every100ms epoch_time retired_sale_sample)))
          (15 - 1) = true
  /\ total_cents (vending (HoneyVending_Every100ms epoch_time retired_sale_sample)) = 0
  /\ coins_detected (vending (HoneyVending_Every100ms epoch_time retired_sale_sample)) = 0
  /\ selected_box_id (vending (HoneyVending_Every100ms epoch_time retired_sale_sample)) = 0.
Proof.
  repeat match goal with |- _ /\ _ => split end;
    try (vm_compute; reflexivity); vm_compute; discriminate.
Qed.

(** C5 as stated fails: deselection leaves the three pulses of the coin in
    flight in the pulse counter. *)
Lemma C5_deselect_keeps_pulse_counter :
  names_a_box deselect_sample = false
  /\ pulse_count (vending (CmndVendingSelectBox deselect_sample)) = 3
  /\ pulse_count (vending (CmndVendingSelectBox deselect_sample)) <> 0.
Proof. split; [reflexivity|]. split; [reflexivity | vm_compute; discriminate]. Qed.

Lemma C8_price_samples :
  (1 <= 3 <= box_count (vending sample_machine))
  /\ HoneyVending_SetPrice epoch_time 3 9 sample_machine = sample_machine
  /\ HoneyVending_SetPrice epoch_time 3 10001 sample_machine = sample_machine
  /\ aget 0 (box_price (vending (HoneyVending_SetPrice epoch_time 3 10 sample_machine))) (3 - 1)
     = 10
  /\ aget 0 (box_price (vending (HoneyVending_SetPrice epoch_time 3 10000 sample_machine)))
          (3 - 1)
     = 10000.
Proof.
  assert (H : 1 <= 3 <= box_count (vending sample_machine)) by (vm_compute; split; discriminate).
  split; [exact H|].
  destruct (C8_price_bounds epoch_time 3 9 sample_machine H) as [A _].
  destruct (C8_price_bounds epoch_time 3 10001 sample_machine H) as [B _].
  destruct (C8_price_bounds epoch_time 3 10 sample_machine H) as [_ C].
  destruct (C8_price_bounds epoch_time 3 10000 sample_machine H) as [_ D].
  assert (L : 3 <= Z.of_nat (List.length (box_price (vending sample_machine))))
    by (vm_compute; discriminate).
  split; [apply A; left; lia|].
  split; [apply B; right; lia|].
  split.
  - destruct C as [C1 _]; [lia | exact L | exact C1].
  - destruct D as [D1 _]; [lia | exact L | exact D1].
Defined.

Lemma C9_accept_then_reset :
  (-32768 <= motor_position_offset sample_machine <= 32767)
  /\ motor_position_offset (Motor_DoAction COIN_ACCEPT sample_machine) = -25
  /\ motor_position_offset (Motor_DoAction COIN_REJECT sample_machine) = 25
  /\ motor_position_offset
       (Motor_DoAction MOTOR_RESET
          (motor_actions [COIN_ACCEPT; COIN_ACCEPT; COIN_REJECT] sample_machine)) = 0
  /\ Motor_DoAction MOTOR_RESET sample_machine = sample_machine.
Proof.
  assert (H : -32768 <= motor_position_offset sample_machine <= 32767)
    by (vm_compute; split; discriminate).
  split; [exact H|].
  destruct (C9_motor_actions sample_machine [COIN_ACCEPT; COIN_ACCEPT; COIN_REJECT] H)
    as [A [_ [B [_ [_ [_ [C D]]]]]]].
  split; [apply A; vm_compute; discriminate|].
  split; [apply B; vm_compute; discriminate|].
  split; [exact D|].
  apply C. reflexivity.
Defined.

(** C9 as stated fails at the edge of the 16-bit offset: after 1310 accepts
    the offset is -32750, and one more accept leaves it at 32761, not at
    -32775. *)
Lemma C9_accept_wraps_around :
  motor_position_offset far_left_sample = -32750
  /\ motor_position_offset (Motor_DoAction COIN_ACCEPT far_left_sample) = 32761
  /\ motor_position_offset (Motor_DoAction COIN_ACCEPT far_left_sample)
     <> motor_position_offset far_left_sample - 25.
Proof.
  assert (H : motor_position_offset far_left_sample = -32750).
  { unfold far_left_sample. rewrite accepts_from_home; [reflexivity | reflexivity | lia]. }
  split; [exact H|].
  rewrite Motor_accept_offset, H.
  split; [reflexivity | vm_compute; discriminate].
Qed.

Lemma C10_retired_sample :
  box_count (vending retired_sample) < unlocked_box_id (vending retired_sample)
  /\ box_line (vending retired_sample) 15 = SOLENOID_ACTIVE_HIGH
  /\ unlocked_box_id (vending (timeout_checks [61000; 120000; 4000000000] retired_sample)) = 15
  /\ shift_reg_state (vending (timeout_checks [61000; 120000; 4000000000] retired_sample))
     = shift_reg_state (vending retired_sample).
Proof.
  assert (H : box_count (vending retired_sample) < unlocked_box_id (vending retired_sample))
    by (vm_compute; reflexivity).
  split; [exact H|].
  split; [vm_compute; reflexivity|].
  destruct (C10_retired_box_stays_unlocked retired_sample [61000; 120000; 4000000000] H)
    as [_ [_ [A [B _]]]].
  split; [rewrite B; vm_compute; reflexivity | exact A].
Defined.

Lemma X1_first_start_sample :
  1 <= box_count (vending (HoneyVending_LoadBoxCount first_start_sample)) <= MAX_HONEY_BOX_COUNT
  /\ box_count (vending (HoneyVending_LoadBoxCount first_start_sample))
     = DEFAULT_HONEY_BOX_COUNT
  /\ settings_flash (HoneyVending_LoadBoxCount first_start_sample) HONEY_BOX_COUNT_INDEX = "C15".
Proof.
  destruct (X1_LoadBoxCount_range first_start_sample) as [A B].
  split; [exact A|]. apply B. left. vm_compute. reflexivity.
Defined.

Lemma X2_box_count_sample :
  0 <= box_count (vending stocked_sample) < 256
  /\ box_count (vending (HoneyVending_LoadBoxCount (HoneyVending_SaveBoxCount stocked_sample)))
     = 15.
Proof.
  assert (H : 0 <= box_count (vending stocked_sample) < 256)
    by (vm_compute; split; [discriminate | reflexivity]).
  split; [exact H|]. rewrite (X2_box_count_round_trip stocked_sample H). reflexivity.
Defined.

Lemma X3_prices_sample :
  (1 <= box_count (vending stocked_sample) <= MAX_HONEY_BOX_COUNT
   /\ List.length (box_price (vending stocked_sample)) = 30%nat
   /\ (forall i, 0 <= i < box_count (vending stocked_sample) ->
                 0 <= aget 0 (box_price (vending stocked_sample)) i < 4294967296)
   /\ 1 <= 5 <= box_count (vending stocked_sample))
  /\ HoneyVending_GetPrice 5 (HoneyVending_LoadPrices (HoneyVending_SavePrices stocked_sample))
     = 750.
Proof.
  assert (H1 : 1 <= box_count (vending stocked_sample) <= MAX_HONEY_BOX_COUNT)
    by (vm_compute; split; discriminate).
  assert (H2 : List.length (box_price (vending stocked_sample)) = 30%nat) by reflexivity.
  assert (H3 : forall i, 0 <= i < box_count (vending stocked_sample) ->
                 0 <= aget 0 (box_price (vending stocked_sample)) i < 4294967296).
  { intros i Hi. apply in_range_test.
    apply (forallb_zrange
             (fun i => (0 <=? aget 0 (box_price (vending stocked_sample)) i)
                       && (aget 0 (box_price (vending stocked_sample)) i <? 4294967296))
             0 14); [vm_compute; reflexivity|].
    change (box_count (vending stocked_sample)) with 15 in Hi. lia. }
  assert (H4 : 1 <= 5 <= box_count (vending stocked_sample))
    by (vm_compute; split; discriminate).
  split; [exact (conj H1 (conj H2 (conj H3 H4)))|].
  rewrite (X3_prices_round_trip stocked_sample 5 H1 H2 H3 H4). reflexivity.
Defined.

Lemma X4_status_sample :
  (1 <= box_count (vending stocked_sample) <= MAX_HONEY_BOX_COUNT
   /\ List.length (box_status (vending stocked_sample)) = 30%nat
   /\ List.length (box_last_changed (vending stocked_sample)) = 30%nat
   /\ (forall i, 0 <= i < box_count (vending stocked_sample) ->
                 0 <= aget 0 (box_last_changed (vending stocked_sample)) i < 4294967296)
   /\ 1 <= 3 <= box_count (vending stocked_sample))
  /\ HoneyVending_GetStatus 3
       (HoneyVending_LoadStatus (HoneyVending_SaveStatus stocked_sample)) = false
  /\ HoneyVending_GetTimestamp 3
       (HoneyVending_LoadStatus (HoneyVending_SaveStatus stocked_sample)) = 1700000000.
Proof.
  assert (H1 : 1 <= box_count (vending stocked_sample) <= MAX_HONEY_BOX_COUNT)
    by (vm_compute; split; discriminate).
  assert (H2 : List.length (box_status (vending stocked_sample)) = 30%nat) by reflexivity.
  assert (H3 : List.length (box_last_changed (vending stocked_sample)) = 30%nat)
    by reflexivity.
  assert (H4 : forall i, 0 <= i < box_count (vending stocked_sample) ->
                 0 <= aget 0 (box_last_changed (vending stocked_sample)) i < 4294967296).
  { intros i Hi. apply in_range_test.
    apply (forallb_zrange
             (fun i => (0 <=? aget 0 (box_last_changed (vending stocked_sample)) i)
                       && (aget 0 (box_last_changed (vending stocked_sample)) i
                           <? 4294967296))
             0 14); [vm_compute; reflexivity|].
    change (box_count (vending stocked_sample)) with 15 in Hi. lia. }
  assert (H5 : 1 <= 3 <= box_count (vending stocked_sample))
    by (vm_compute; split; discriminate).
  split; [exact (conj H1 (conj H2 (conj H3 (conj H4 H5))))|].
  destruct (X4_status_round_trip stocked_sample 3 H1 H2 H3 H4 H5) as [A B].
  split; [rewrite A | rewrite B]; reflexivity.
Defined.

Lemma X5_restart_sample :
  (1 <= box_count (vending stocked_sample) <= MAX_HONEY_BOX_COUNT
   /\ (forall i, 0 <= i < box_count (vending stocked_sample) ->
                 0 < aget 0 (box_price (vending stocked_sample)) i < 4294967296)
   /\ (forall i, 0 <= i < box_count (vending stocked_sample) ->
                 0 <= aget 0 (box_last_changed (vending stocked_sample)) i < 4294967296)
   /\ 1 <= 5 <= box_count (vending stocked_sample))
  /\ box_count (vending (HoneyVending_Init 48879 (save_all stocked_sample))) = 15
  /\ HoneyVending_GetStatus 5 (HoneyVending_Init 48879 (save_all stocked_sample)) = true
  /\ HoneyVending_GetPrice 5 (HoneyVending_Init 48879 (save_all stocked_sample)) = 750.
Proof.
  assert (H1 : 1 <= box_count (vending stocked_sample) <= MAX_HONEY_BOX_COUNT)
    by (vm_compute; split; discriminate).
  assert (H2 : forall i, 0 <= i < box_count (vending stocked_sample) ->
                 0 < aget 0 (box_price (vending stocked_sample)) i < 4294967296).
  { intros i Hi.
    assert (H : 1 <= aget 0 (box_price (vending stocked_sample)) i < 4294967296); [|lia].
    apply in_range_test.
    apply (forallb_zrange
             (fun i => (1 <=? aget 0 (box_price (vending stocked_sample)) i)
                       && (aget 0 (box_price (vending stocked_sample)) i <? 4294967296))
             0 14); [vm_compute; reflexivity|].
    change (box_count (vending stocked_sample)) with 15 in Hi. lia. }
  assert (H3 : forall i, 0 <= i < box_count (vending stocked_sample) ->
                 0 <= aget 0 (box_last_changed (vending stocked_sample)) i < 4294967296).
  { intros i Hi. apply in_range_test.
    apply (forallb_zrange
             (fun i => (0 <=? aget 0 (box_last_changed (vending stocked_sample)) i)
                       && (aget 0 (box_last_changed (vending stocked_sample)) i
                           <? 4294967296))
             0 14); [vm_compute; reflexivity|].
    change (box_count (vending stocked_sample)) with 15 in Hi. lia. }
  assert (H4 : 1 <= 5 <= box_count (vending stocked_sample))
    by (vm_compute; split; discriminate).
  split; [exact (conj H1 (conj H2 (conj H3 H4)))|].
  destruct (X5_Init_restores_inventory 48879 stocked_sample 5 H1 H2 H3 H4) as [A [B [C _]]].
  split; [rewrite A; reflexivity|]. split; [rewrite B | rewrite C]; reflexivity.
Defined.

Lemma X8_unlock_15_shrink_unlock_3 :
  (lock_inv (ShiftReg_Init sample_machine)
   /\ 1 <= 3 <= 10 /\ 10 < 15 <= box_count (vending (ShiftReg_Init sample_machine))
   /\ 15 <= NUM_SHIFT_REGISTERS * 8 /\ 10 <= MAX_HONEY_BOX_COUNT)
  /\ box_line (vending (UnlockBoxKey 3
        (HoneyVending_SetBoxCount epoch_time 10
           (UnlockBoxKey 15 (ShiftReg_Init sample_machine))))) 3 = SOLENOID_ACTIVE_HIGH
  /\ box_line (vending (UnlockBoxKey 3
        (HoneyVending_SetBoxCount epoch_time 10
           (UnlockBoxKey 15 (ShiftReg_Init sample_machine))))) 15 = SOLENOID_ACTIVE_HIGH.
Proof.
  assert (H1 : lock_inv (ShiftReg_Init sample_machine)).
  { rewrite ShiftReg_Init_eq by reflexivity. apply all_locked_inv. }
  assert (H2 : 1 <= 3 <= 10) by lia.
  assert (H3 : 10 < 15 <= box_count (vending (ShiftReg_Init sample_machine)))
    by (vm_compute; split; [reflexivity | discriminate]).
  assert (H4 : 15 <= NUM_SHIFT_REGISTERS * 8) by (vm_compute; discriminate).
  assert (H5 : 10 <= MAX_HONEY_BOX_COUNT) by (vm_compute; discriminate).
  split; [exact (conj H1 (conj H2 (conj H3 (conj H4 H5))))|].
  destruct (X8_unlock_after_shrink epoch_time (ShiftReg_Init sample_machine) 15 10 3
              H1 H2 H3 H4 H5) as [_ [A [B _]]].
  split; [exact A | exact B].
Defined.

Lemma X9_unlock_tick_lock_all :
  (lock_inv (ShiftReg_Init sample_machine)
   /\ steps epoch_time (ShiftReg_Init sample_machine)
        (CmndVendingLockAll
           (HoneyVending_Every100ms epoch_time
              (CmndVendingUnlock
                 (with_XdrvMailbox {| command := "VendingUnlock"; data := "7"; data_len := 1 |}
                    (ShiftReg_Init sample_machine))))))
  /\ at_most_one_unlocked
       (shift_reg_state
          (vending
             (CmndVendingLockAll
                (HoneyVending_Every100ms epoch_time
                   (CmndVendingUnlock
                      (with_XdrvMailbox
                         {| command := "VendingUnlock"; data := "7"; data_len := 1 |}
                         (ShiftReg_Init sample_machine))))))).
Proof.
  assert (H1 : lock_inv (ShiftReg_Init sample_machine)).
  { rewrite ShiftReg_Init_eq by reflexivity. apply all_locked_inv. }
  assert (H2 : steps epoch_time (ShiftReg_Init sample_machine)
        (CmndVendingLockAll
           (HoneyVending_Every100ms epoch_time
              (CmndVendingUnlock
                 (with_XdrvMailbox {| command := "VendingUnlock"; data := "7"; data_len := 1 |}
                    (ShiftReg_Init sample_machine)))))).
  { eapply steps_more; [|apply step_lock_all].
    eapply steps_more; [|apply step_tick].
    eapply steps_more; [|apply step_unlock].
    eapply steps_more; [apply steps_none|].
    apply step_host; reflexivity. }
  split; [exact (conj H1 H2)|].
  destruct (X9_single_unlock_all_moves epoch_time _ _ H1 H2) as [_ [A _]].
  exact A.
Defined.
